(** * SHL assessment recommender: retrieval-and-rerank pipeline

  A shallow embedding of [backend/app/reranker.py], [embeddings.py],
  [vector_store.py] and [recommend.py], of the rows of
  [scripts/evaluate.py] and of the catalog of [scripts/crawl_catalog.py],
  and the properties of the pipeline proved over it.

  Conventions.
  - Python [int] is [Z]; [len] is a [nat] injected into [Z] where the
    source mixes it with an [int].
  - A Python exception is a value of [exn]; a call that may raise returns
    [result A].
  - The hosted providers, the local model and the language models are
    oracles of the [world]; every request made to one of them is
    appended to the trace, so that "once", "no retry" and "the same
    operation" are statements about the trace.
  - Embedding components are exact integers: every finite float32 is an
    integer multiple of 2^-149, so a vector of float32 is a vector of
    integers in that unit.  Rounding of the arithmetic, NaN and
    infinities are outside the model. *)

From Stdlib Require Import ZArith Lia Ascii.
From stdpp Require Import gmap strings list sorting pretty.

Local Open Scope Z_scope.
Set Warnings "-clear-no-such-hyp".


(** ** Python primitives *)

Module Py.

(** The exceptions the modelled code raises or lets through.  The
    [string] of a provider failure is [str(e)]. *)
Inductive exn :=
| ValueError (msg : string)
| RuntimeError (msg : string)
| KeyError (key : string)
| IndexError
| AssertionError
| FileNotFoundError (msg : string)
| ProviderError (msg : string).

Inductive result (A : Type) :=
| Ok (a : A)
| Raise (e : exn).
Arguments Ok {A} a.
Arguments Raise {A} e.

(** [str(e)] *)
Definition str_exn (e : exn) : string :=
  match e with
  | ValueError m | RuntimeError m | FileNotFoundError m | ProviderError m => m
  | KeyError k => "'" +:+ k +:+ "'"
  | IndexError => "list index out of range"
  | AssertionError => ""
  end.

(** [l[:n]] *)
Definition slice_to {A} (l : list A) (n : Z) : list A :=
  if decide (n < 0) then take (Z.to_nat (Z.of_nat (length l) + n)) l
  else take (Z.to_nat n) l.

(** [l[i:j]] for [0 <= i <= j] *)
Definition slice {A} (l : list A) (i j : nat) : list A :=
  take (j - i) (drop i l).

(** [l[i]], negative indices counting from the end *)
Definition index {A} (l : list A) (i : Z) : result A :=
  let j := if decide (i < 0) then Z.of_nat (length l) + i else i in
  if decide (j < 0) then Raise IndexError
  else match l !! Z.to_nat j with
       | Some a => Ok a
       | None => Raise IndexError
       end.

(** [range(start, stop)] *)
Definition range (start stop : Z) : list Z :=
  seqZ start (stop - start).

(** [range(0, stop, step)] for a list length [stop]; [step = 0] raises *)
Definition range_step (stop : nat) (step : Z) : result (list nat) :=
  if decide (step = 0) then Raise (ValueError "range() arg 3 must not be zero")
  else if decide (step < 0) then Ok []
  else Ok ((λ j, j * Z.to_nat step)%nat <$> seq 0 ((stop + Z.to_nat step - 1) / Z.to_nat step)).

(** ASCII [str.lower] *)
Definition lower_ascii (c : ascii) : ascii :=
  let n := nat_of_ascii c in
  if decide (65 ≤ n ≤ 90)%nat then ascii_of_nat (n + 32) else c.

Fixpoint lower (s : string) : string :=
  match s with
  | EmptyString => EmptyString
  | String c s' => String (lower_ascii c) (lower s')
  end.

(** [kw in s] *)
Fixpoint contains (kw s : string) : bool :=
  String.prefix kw s ||
  match s with
  | EmptyString => false
  | String _ s' => contains kw s'
  end.

End Py.
Export Py.

(** ** reranker.py: parsing of the ranked order *)

Module Parse.
Section Digits.

(** The response is a sequence of characters of which [digit_value]
    tells the decimal digits ([\d]) and their values. *)
Context {char : Type} (digit_value : char → option Z).

(** [re.findall(r'\d+', text)]: the maximal runs of digits, left to
    right.  [cur] is the run being read, in reverse. *)
Fixpoint findall_from (cur : list char) (text : list char) : list (list char) :=
  match text with
  | [] => match cur with [] => [] | _ => [rev cur] end
  | c :: rest =>
      match digit_value c with
      | Some _ => findall_from (c :: cur) rest
      | None =>
          match cur with
          | [] => findall_from [] rest
          | _ => rev cur :: findall_from [] rest
          end
      end
  end.

Definition findall_digits (text : list char) : list (list char) :=
  findall_from [] text.

(** [int(num_str)] on a run of digits *)
Definition int (num_str : list char) : Z :=
  foldl (λ acc c, 10 * acc + default 0 (digit_value c)) 0 num_str.

(** The body of the first loop: one [num_str]. *)
Definition keep_first (max_num : Z) (st : list Z * gset Z) (num_str : list char)
  : list Z * gset Z :=
  let num := int num_str in
  if decide (1 ≤ num ≤ max_num ∧ num ∉ st.2)
  then (st.1 ++ [num], {[num]} ∪ st.2)
  else st.

(** The body of the second loop: [seen] is read, not updated. *)
Definition fill_missing (seen : gset Z) (ranked_indices : list Z) (i : Z) : list Z :=
  if decide (i ∉ seen) then ranked_indices ++ [i] else ranked_indices.

Definition _parse_ranked_order (text : list char) (max_num : Z) : list Z :=
  let numbers := findall_digits text in
  let '(ranked_indices, seen) := foldl (keep_first max_num) ([], ∅) numbers in
  let ranked_indices :=
    if decide (Z.of_nat (length ranked_indices) < max_num)
    then foldl (fill_missing seen) ranked_indices (Py.range 1 (max_num + 1))
    else ranked_indices in
  Py.slice_to ranked_indices max_num.

(** The parse policy in the words of the specification: the integer
    tokens in appearance order, the in-range ones only, each value at its
    first occurrence, then the missing positions ascending. *)
Fixpoint first_occurrences (l : list Z) : list Z :=
  match l with
  | [] => []
  | x :: l' => x :: filter (λ y, y ≠ x) (first_occurrences l')
  end.

Definition recovered (text : list char) (n : Z) : list Z :=
  first_occurrences (filter (λ v, 1 ≤ v ≤ n) (int <$> findall_digits text)).

Definition spec_ranked_order (text : list char) (n : Z) : list Z :=
  let valid := recovered text n in
  valid ++ filter (λ i, i ∉ valid) (seqZ 1 n).

End Digits.

(** [\d] and the digit values on ASCII text *)
Definition ascii_digit (c : ascii) : option Z :=
  let n := nat_of_ascii c in
  if decide (48 ≤ n ≤ 57)%nat then Some (Z.of_nat (n - 48)) else None.

Definition chars (s : string) : list ascii := String.list_ascii_of_string s.

End Parse.

(** ** Effects: exceptions over a threaded state *)

Module Eff.

Definition M (S A : Type) : Type := S → result A * S.

Definition ret {S A} (a : A) : M S A := λ s, (Ok a, s).

Definition raise {S A} (e : exn) : M S A := λ s, (Raise e, s).

Definition bind {S A B} (m : M S A) (f : A → M S B) : M S B :=
  λ s, match m s with
       | (Ok a, s') => f a s'
       | (Raise e, s') => (Raise e, s')
       end.

#[global] Instance M_ret {S} : MRet (M S) := λ A, ret.

#[global] Instance M_bind {S} : MBind (M S) := λ A B f m, bind m f.

(** [try: m except Exception as e: h e] *)
Definition try_except {S A} (m : M S A) (h : exn → M S A) : M S A :=
  λ s, match m s with
       | (Ok a, s') => (Ok a, s')
       | (Raise e, s') => h e s'
       end.

Definition lift {S A} (r : result A) : M S A := λ s, (r, s).

Definition get {S} : M S S := λ s, (Ok s, s).

Definition gets {S T} (f : S → T) : M S T := λ s, (Ok (f s), s).

(** Run a computation on a component of the state. *)
Definition zoom {S T A} (proj : S → T) (upd : T → S → S) (m : M T A) : M S A :=
  λ s, let '(r, t) := m (proj s) in (r, upd t s).

(** A list comprehension or a [for] loop whose body may raise. *)
Fixpoint mapM {S A B} (f : A → M S B) (l : list A) : M S (list B) :=
  match l with
  | [] => ret []
  | a :: l' => b ← f a; bs ← mapM f l'; ret (b :: bs)
  end.

Fixpoint foldM {S A B} (f : B → A → M S B) (b : B) (l : list A) : M S B :=
  match l with
  | [] => ret b
  | a :: l' => b' ← f b a; foldM f b' l'
  end.

End Eff.
Export Eff.

(** ** The catalog entries and the outside world *)

(** A JSON value of an assessment's field. *)
Inductive value :=
| VStr (s : string)
| VNum (n : Z)
| VBool (b : bool)
| VNull.

(** [str(v)], as an f-string renders a field *)
Definition str_value (v : value) : string :=
  match v with
  | VStr s => s
  | VNum n => pretty n
  | VBool true => "True"
  | VBool false => "False"
  | VNull => "None"
  end.

(** An assessment is the [dict] read from the catalog. *)
Abbreviation Assessment := (gmap string value).

(** [assess.get(key, default)] *)
Definition dict_get (assess : Assessment) (key : string) (dflt : string) : value :=
  default (VStr dflt) (assess !! key).

(** [assess[key]] *)
Definition dict_item (assess : Assessment) (key : string) : result value :=
  match assess !! key with
  | Some v => Ok v
  | None => Raise (KeyError key)
  end.

Abbreviation vec := (list Z).

Module World.

(** A request to a collaborator outside the process. *)
Inductive request :=
| OpenAIEmbeddings (input : list string)
| GeminiEmbedContent (content : string)
| LocalEncode (text : string)
| LocalEncodeBatch (texts : list string) (batch_size : Z)
| GeminiGenerate (prompt : string)
| OpenAIChat (prompt : string).

Abbreviation trace := (list request).

(** What the collaborators answer.  The [nat] is the number of requests
    made before, so that the same request may be answered differently
    later.  [openai_embeddings] is [response.data] as a list of
    embeddings, [gemini_embed_content] is [result['embedding']],
    [gemini_generate] is [response.text] and [openai_chat] is
    [response.choices[0].message.content]; a failure of the call or of
    reading the answer is the [Raise].  The three flags are the
    environment at a fallback: [GEMINI_API_KEY] set, the Gemini client
    constructible, the local model loadable. *)
Record world := {
  openai_embeddings : nat → list string → result (list vec);
  gemini_embed_content : nat → string → result vec;
  local_encode : nat → string → result vec;
  local_encode_batch : nat → list string → Z → result (list vec);
  gemini_generate : nat → string → result string;
  openai_chat : nat → string → result string;
  gemini_api_key : bool;
  gemini_client_ok : bool;
  sentence_transformers_ok : bool
}.

(** The calls: the request is recorded, the answer of the moment returned. *)
Definition call_openai_embeddings (w : world) (input : list string) : M trace (list vec) :=
  λ tr, (openai_embeddings w (length tr) input, tr ++ [OpenAIEmbeddings input]).

Definition call_gemini_embed_content (w : world) (content : string) : M trace vec :=
  λ tr, (gemini_embed_content w (length tr) content, tr ++ [GeminiEmbedContent content]).

Definition call_local_encode (w : world) (text : string) : M trace vec :=
  λ tr, (local_encode w (length tr) text, tr ++ [LocalEncode text]).

Definition call_local_encode_batch (w : world) (texts : list string) (bs : Z)
  : M trace (list vec) :=
  λ tr, (local_encode_batch w (length tr) texts bs, tr ++ [LocalEncodeBatch texts bs]).

Definition call_gemini_generate (w : world) (prompt : string) : M trace string :=
  λ tr, (gemini_generate w (length tr) prompt, tr ++ [GeminiGenerate prompt]).

Definition call_openai_chat (w : world) (prompt : string) : M trace string :=
  λ tr, (openai_chat w (length tr) prompt, tr ++ [OpenAIChat prompt]).

Definition is_llm (r : request) : bool :=
  match r with
  | GeminiGenerate _ | OpenAIChat _ => true
  | _ => false
  end.

Definition is_embedding (r : request) : bool := negb (is_llm r).

End World.
Export World.

(** ** reranker.py: [LLMReranker] *)

Module Reranker.

(** [LLMReranker.provider]; the constructor accepts no other value. *)
Inductive backend := GeminiLLM | OpenAILLM.

Definition nl : string := String (ascii_of_nat 10) EmptyString.

(** [str.isspace] on ASCII *)
Definition is_space (c : ascii) : bool :=
  let n := nat_of_ascii c in
  bool_decide (9 ≤ n ≤ 13 ∨ 28 ≤ n ≤ 32)%nat.

Fixpoint lstrip (s : string) : string :=
  match s with
  | EmptyString => EmptyString
  | String c s' => if is_space c then lstrip s' else s
  end.

(** [str.strip()] *)
Definition strip (s : string) : string :=
  String.rev (lstrip (String.rev (lstrip s))).

(** ["\n".join(lines)] *)
Fixpoint join (sep : string) (lines : list string) : string :=
  match lines with
  | [] => ""
  | [l] => l
  | l :: ls => l +:+ sep +:+ join sep ls
  end.

(** One line of the candidate list; [assess['name']] has no default. *)
Definition assessment_line (ia : nat * Assessment) : result string :=
  let '(i, assess) := ia in
  match dict_item assess "name" with
  | Raise e => Raise e
  | Ok name =>
      Ok (pretty (i + 1)%nat +:+ ". " +:+ str_value name
          +:+ " (" +:+ str_value (dict_get assess "type" "Unknown") +:+ "): "
          +:+ str_value (dict_get assess "description" "No description"))
  end.

Definition enumerate {A} (l : list A) : list (nat * A) := imap pair l.

Definition build_prompt (query : string) (assessments : list Assessment) : result string :=
  match mapM (S := unit) (λ ia, lift (assessment_line ia)) (enumerate assessments) tt with
  | (Raise e, _) => Raise e
  | (Ok lines, _) =>
      Ok ("You are an expert in HR and talent assessment. Given a job description or query, rank the following SHL assessments by relevance and importance for that role."
          +:+ nl +:+ nl +:+ "Job Description/Query:" +:+ nl +:+ query +:+ nl +:+ nl
          +:+ "Available Assessments:" +:+ nl +:+ join nl lines +:+ nl +:+ nl
          +:+ "Please rank these assessments from most relevant (1) to least relevant ("
          +:+ pretty (length assessments) +:+ "). " +:+ nl
          +:+ "Return only the numbers in order of relevance, separated by commas. For example: 3,1,5,2,4"
          +:+ nl +:+ nl +:+ "Ranked order:")
  end.

Definition _parse_ranked_order (text : string) (max_num : Z) : list Z :=
  Parse._parse_ranked_order Parse.ascii_digit (Parse.chars text) max_num.

(** The single model invocation, up to [ranked_text]. *)
Definition invoke (w : world) (provider : backend) (prompt : string) : M trace string :=
  match provider with
  | GeminiLLM => text ← call_gemini_generate w prompt; ret (strip text)
  | OpenAILLM => content ← call_openai_chat w prompt; ret (strip content)
  end.

(** [[assessments[i-1] for i in ranked_indices if 1 <= i <= len(assessments)]] *)
Definition pick (assessments : list Assessment) (ranked_indices : list Z)
  : result (list Assessment) :=
  fst (mapM (S := unit) (λ i, lift (Py.index assessments (i - 1)))
         (filter (λ i, 1 ≤ i ≤ Z.of_nat (length assessments)) ranked_indices) tt).

(** The loop adding the assessments that were not in the ranking. *)
Definition add_unranked (ranked_set : gset Z) (reranked : list Assessment)
    (ia : nat * Assessment) : list Assessment :=
  if decide (Z.of_nat ia.1 + 1 ∉ ranked_set) then reranked ++ [ia.2] else reranked.

Definition rerank (w : world) (provider : backend) (query : string)
    (assessments : list Assessment) (top_k : Z) : M trace (list Assessment) :=
  match assessments with
  | [] => ret []
  | _ =>
      prompt ← lift (build_prompt query assessments);
      try_except
        (ranked_text ← invoke w provider prompt;
         let ranked_indices :=
           _parse_ranked_order ranked_text (Z.of_nat (length assessments)) in
         reranked ← lift (pick assessments ranked_indices);
         let ranked_set : gset Z := list_to_set ranked_indices in
         let reranked := foldl (add_unranked ranked_set) reranked (enumerate assessments) in
         ret (Py.slice_to reranked top_k))
        (λ e, ret (Py.slice_to assessments top_k))
  end.

End Reranker.

(** ** embeddings.py *)

Module Embeddings.

(** [EmbeddingGenerator.provider]; the constructor accepts no other value. *)
Inductive provider := OpenAI | Gemini.

(** An embedding generator object: an [EmbeddingGenerator] of a hosted
    provider, or the [FallbackEmbeddingGenerator] with its [available]. *)
Inductive generator :=
| EmbeddingGenerator (p : provider)
| FallbackEmbeddingGenerator (available : bool).

Definition quota_keywords : list string :=
  ["quota"; "429"; "insufficient_quota"; "rate_limit"; "too_many_requests"].

(** [any(keyword in error_msg for keyword in keywords)] *)
Definition any_keyword (keywords : list string) (error_msg : string) : bool :=
  existsb (λ keyword, Py.contains keyword error_msg) keywords.

Definition openai_quota_error (e : exn) : exn :=
  RuntimeError ("OpenAI API quota exceeded. Error: " +:+ str_exn e
                +:+ ". Please use Gemini API or sentence-transformers fallback.").

Definition gemini_quota_error (e : exn) : exn :=
  RuntimeError ("Gemini API quota exceeded. Error: " +:+ str_exn e
                +:+ ". Please use sentence-transformers fallback.").

Definition quota_error (p : provider) (e : exn) : exn :=
  match p with
  | OpenAI => openai_quota_error e
  | Gemini => gemini_quota_error e
  end.

(** [EmbeddingGenerator.embed] *)
Definition embed (w : world) (p : provider) (text : string) : M trace vec :=
  match p with
  | OpenAI =>
      try_except
        (data ← call_openai_embeddings w [text]; lift (Py.index data 0))
        (λ e, let error_msg := Py.lower (str_exn e) in
              if any_keyword quota_keywords error_msg
              then raise (openai_quota_error e)
              else raise e)
  | Gemini =>
      try_except
        (call_gemini_embed_content w text)
        (λ e, let error_msg := Py.lower (str_exn e) in
              if Py.contains "quota" error_msg || Py.contains "429" error_msg
              then raise (gemini_quota_error e)
              else raise e)
  end.

(** The requests of [embed_batch] for one [batch]: one for OpenAI, one
    per text for Gemini. *)
Definition provider_batch (w : world) (p : provider) (batch : list string)
  : M trace (list vec) :=
  match p with
  | OpenAI => call_openai_embeddings w batch
  | Gemini => mapM (call_gemini_embed_content w) batch
  end.

(** The body of the loop of [embed_batch] for the chunk starting at [i]. *)
Definition embed_chunk (w : world) (p : provider) (texts : list string)
    (batch_size : Z) (embeddings : list vec) (i : nat) : M trace (list vec) :=
  let batch := Py.slice texts i (i + Z.to_nat batch_size) in
  try_except
    (batch_embeddings ← provider_batch w p batch;
     ret (embeddings ++ batch_embeddings))
    (λ e, let error_msg := Py.lower (str_exn e) in
          if any_keyword quota_keywords error_msg
          then raise (quota_error p e)
          else raise e).

(** [EmbeddingGenerator.embed_batch] *)
Definition embed_batch (w : world) (p : provider) (texts : list string)
    (batch_size : Z) : M trace (list vec) :=
  starts ← lift (Py.range_step (length texts) batch_size);
  foldM (embed_chunk w p texts batch_size) [] starts.

Definition not_available : exn :=
  RuntimeError "Fallback embedding model not available. Please install sentence-transformers or provide an API key.".

(** [embed] of either class *)
Definition generator_embed (w : world) (g : generator) (text : string) : M trace vec :=
  match g with
  | EmbeddingGenerator p => embed w p text
  | FallbackEmbeddingGenerator available =>
      if available then call_local_encode w text else raise not_available
  end.

(** [embed_batch] of either class *)
Definition generator_embed_batch (w : world) (g : generator) (texts : list string)
    (batch_size : Z) : M trace (list vec) :=
  match g with
  | EmbeddingGenerator p => embed_batch w p texts batch_size
  | FallbackEmbeddingGenerator available =>
      if available then call_local_encode_batch w texts batch_size
      else raise not_available
  end.

Definition get_embedding_generator_with_fallback (w : world) (current_generator : generator)
  : generator :=
  match current_generator with
  | EmbeddingGenerator OpenAI =>
      if gemini_api_key w && gemini_client_ok w
      then EmbeddingGenerator Gemini
      else FallbackEmbeddingGenerator (sentence_transformers_ok w)
  | _ => FallbackEmbeddingGenerator (sentence_transformers_ok w)
  end.

End Embeddings.

(** ** numpy and faiss, as far as vector_store.py uses them *)

Module Faiss.

(** A [float32] array with its shape. *)
Record ndarray := NdArray { shape : list nat; rows : list vec }.

(** [np.array(embeddings, dtype='float32')] of a list of lists: the empty
    list is a one-dimensional array of shape [(0,)], rows of one length
    [m] give shape [(n, m)], and ragged rows are refused. *)
Definition np_array (embeddings : list vec) : result ndarray :=
  match embeddings with
  | [] => Ok (NdArray [0%nat] [])
  | v :: _ =>
      if forallb (λ u, bool_decide (length u = length v)) embeddings
      then Ok (NdArray [length embeddings; length v] embeddings)
      else Raise (ValueError "inhomogeneous shape")
  end.

(** [faiss.IndexFlatL2]: the dimension and the stored vectors, in the
    order they were added. *)
Record IndexFlatL2 := { d : nat; xb : list vec }.

Definition new_index (dimension : nat) : IndexFlatL2 := {| d := dimension; xb := [] |}.

Definition ntotal (index : IndexFlatL2) : nat := length (xb index).

(** [index.add(x)]: [n, d = x.shape], [assert d == self.d] *)
Definition add (index : IndexFlatL2) (x : ndarray) : result IndexFlatL2 :=
  match shape x with
  | [_; dx] =>
      if decide (dx = d index)
      then Ok {| d := d index; xb := xb index ++ rows x |}
      else Raise AssertionError
  | _ => Raise (ValueError "not enough values to unpack")
  end.

(** Squared Euclidean distance *)
Definition fvec_L2sqr (x y : vec) : Z :=
  foldr (λ ab acc, (ab.1 - ab.2) ^ 2 + acc) 0 (zip x y).

(** The largest finite float32, the distance of a missing result, in the
    unit of the squared distances. *)
Definition FLT_MAX : Z := (2 ^ 128 - 2 ^ 104) * 2 ^ 298.

(** Results are ordered by distance, and by label among equal distances. *)
Definition nearer (a b : Z * Z) : Prop :=
  a.1 < b.1 ∨ (a.1 = b.1 ∧ a.2 ≤ b.2).

#[global] Instance nearer_dec : RelDecision nearer.
Proof. intros a b. unfold nearer. apply _. Defined.

(** Every stored vector with its distance to [q] and its label. *)
Definition scan (index : IndexFlatL2) (q : vec) : list (Z * Z) :=
  imap (λ i v, (fvec_L2sqr q v, Z.of_nat i)) (xb index).

(** [index.search(x, k)] for a single query row: [assert d == self.d],
    [assert k > 0], then the [k] nearest by exhaustive scan, padded with
    label [-1] when fewer than [k] vectors are stored.  Returns
    [(distances[0], indices[0])]. *)
Definition search (index : IndexFlatL2) (q : vec) (k : Z) : result (list Z * list Z) :=
  if decide (length q ≠ d index) then Raise AssertionError
  else if decide (k ≤ 0) then Raise AssertionError
  else
    let found := take (Z.to_nat k) (merge_sort nearer (scan index q)) in
    let res := found ++ replicate (Z.to_nat k - length found) (FLT_MAX, -1) in
    Ok (res.*1, res.*2).

End Faiss.

(** ** vector_store.py: [FAISSVectorStore] *)

Module VectorStore.

Record FAISSVectorStore := {
  dimension : nat;
  index : Faiss.IndexFlatL2;
  assessments : list Assessment;
  embeddings_array : option Faiss.ndarray
}.

(** [FAISSVectorStore(dimension)] *)
Definition init (dimension : nat) : FAISSVectorStore :=
  {| dimension := dimension; index := Faiss.new_index dimension;
     assessments := []; embeddings_array := None |}.

Definition default_dimension : nat := 384.

(** [add_assessments]: the outcome and the store as the call leaves it. *)
Definition add_assessments (self : FAISSVectorStore) (assessments0 : list Assessment)
    (embeddings : list vec) : result unit * FAISSVectorStore :=
  if decide (length assessments0 ≠ length embeddings)
  then (Raise (ValueError "Number of assessments must match number of embeddings"), self)
  else
    let self1 := {| dimension := dimension self; index := index self;
                    assessments := assessments0;
                    embeddings_array := embeddings_array self |} in
    match Faiss.np_array embeddings with
    | Raise e => (Raise e, self1)
    | Ok arr =>
        let fresh := Faiss.new_index (dimension self) in
        let self2 := {| dimension := dimension self; index := fresh;
                        assessments := assessments0;
                        embeddings_array := Some arr |} in
        match Faiss.add fresh arr with
        | Raise e => (Raise e, self2)
        | Ok index' =>
            (Ok tt, {| dimension := dimension self; index := index';
                       assessments := assessments0;
                       embeddings_array := Some arr |})
        end
    end.

(** The loop of [search] over [zip(indices[0], distances[0])]. *)
Fixpoint collect (assessments0 : list Assessment) (hits : list (Z * Z))
  : result (list (Assessment * Z)) :=
  match hits with
  | [] => Ok []
  | (idx, distance) :: hits' =>
      if decide (idx < Z.of_nat (length assessments0)) then
        match Py.index assessments0 idx with
        | Raise e => Raise e
        | Ok a =>
            match collect assessments0 hits' with
            | Raise e => Raise e
            | Ok results => Ok ((a, distance) :: results)
            end
        end
      else collect assessments0 hits'
  end.

Definition search (self : FAISSVectorStore) (query_embedding : vec) (top_k : Z)
  : result (list (Assessment * Z)) :=
  if decide (Faiss.ntotal (index self) = 0%nat) then Ok []
  else
    match Faiss.search (index self) query_embedding
            (Z.min top_k (Z.of_nat (length (assessments self)))) with
    | Raise e => Raise e
    | Ok (distances, indices) => collect (assessments self) (zip indices distances)
    end.

(** What a path of the file system holds: an index written by
    [faiss.write_index], a metadata document written by [json.dump], or
    bytes that neither reader accepts. *)
Inductive file :=
| IndexFile (index : Faiss.IndexFlatL2)
| JsonFile (doc : list Assessment)
| OtherFile.

Abbreviation files := (gmap string file).

(** [save]: the index first, the metadata second. *)
Definition save (self : FAISSVectorStore) (index_path metadata_path : string)
    (fs : files) : files :=
  <[metadata_path := JsonFile (assessments self)]>
    (<[index_path := IndexFile (index self)]> fs).

(** [os.path.exists] *)
Definition exists_ (fs : files) (path : string) : bool :=
  bool_decide (is_Some (fs !! path)).

(** [load]: the outcome and the store as the call leaves it. *)
Definition load (self : FAISSVectorStore) (index_path metadata_path : string)
    (fs : files) : result unit * FAISSVectorStore :=
  if exists_ fs index_path && exists_ fs metadata_path then
    match fs !! index_path with
    | Some (IndexFile index') =>
        let self1 := {| dimension := dimension self; index := index';
                        assessments := assessments self;
                        embeddings_array := embeddings_array self |} in
        match fs !! metadata_path with
        | Some (JsonFile doc) =>
            let dimension' :=
              if bool_decide (doc ≠ []) && bool_decide (0 < Faiss.ntotal index')%nat
              then Faiss.d index' else dimension self in
            (Ok tt, {| dimension := dimension'; index := index';
                       assessments := doc;
                       embeddings_array := embeddings_array self |})
        | _ => (Raise (ValueError "JSONDecodeError"), self1)
        end
    | _ => (Raise (RuntimeError "Error in faiss::read_index"), self)
    end
  else (Ok tt, self).

(** The invariant of the store: as many vectors as assessments. *)
Definition consistent (self : FAISSVectorStore) : Prop :=
  Faiss.ntotal (index self) = length (assessments self).

End VectorStore.

(** ** recommend.py: [RecommendationEngine] *)

Module Recommend.
Import Embeddings.

Record RecommendationEngine := {
  catalog_path : string;
  index_path : string;
  metadata_path : string;
  embedding_generator : generator;
  vector_store : VectorStore.FAISSVectorStore;
  reranker : option Reranker.backend
}.

(** The engine object, the file system and the requests made so far. *)
Record state := {
  engine : RecommendationEngine;
  fs : VectorStore.files;
  requests : trace
}.

Definition set_generator (g : generator) (self : RecommendationEngine) : RecommendationEngine :=
  {| catalog_path := catalog_path self; index_path := index_path self;
     metadata_path := metadata_path self; embedding_generator := g;
     vector_store := vector_store self; reranker := reranker self |}.

Definition set_store (vs : VectorStore.FAISSVectorStore) (self : RecommendationEngine)
  : RecommendationEngine :=
  {| catalog_path := catalog_path self; index_path := index_path self;
     metadata_path := metadata_path self;
     embedding_generator := embedding_generator self;
     vector_store := vs; reranker := reranker self |}.

Definition on_engine (f : RecommendationEngine → RecommendationEngine) : M state unit :=
  λ s, (Ok tt, {| engine := f (engine s); fs := fs s; requests := requests s |}).

Definition on_fs (f : VectorStore.files → VectorStore.files) : M state unit :=
  λ s, (Ok tt, {| engine := engine s; fs := f (fs s); requests := requests s |}).

(** A computation that only talks to the collaborators. *)
Definition on_requests {A} (m : M trace A) : M state A :=
  zoom requests (λ t s, {| engine := engine s; fs := fs s; requests := t |}) m.

(** A method of the vector store, which leaves the store changed also
    when it raises. *)
Definition on_store {A}
    (m : VectorStore.FAISSVectorStore → result A * VectorStore.FAISSVectorStore)
  : M state A :=
  λ s, let '(r, vs) := m (vector_store (engine s)) in
       (r, {| engine := set_store vs (engine s); fs := fs s; requests := requests s |}).

(** The [try]/[except] around the embedding call, the same in [recommend]
    (around [embed]) and in [_load_or_build_index] (around [embed_batch]):
    on a quota message the generator is replaced and [op] is called on the
    new one, outside any handler. *)
Definition with_fallback {A} (w : world) (op : generator → M trace A) : M state A :=
  self ← gets engine;
  try_except
    (on_requests (op (embedding_generator self)))
    (λ e, let error_msg := Py.lower (str_exn e) in
          if any_keyword quota_keywords error_msg then
            on_engine (set_generator
              (get_embedding_generator_with_fallback w (embedding_generator self)));;
            self' ← gets engine;
            on_requests (op (embedding_generator self'))
          else raise e).

(** An entry of the answer. *)
Record recommendation := {
  assessment_name : value;
  assessment_url : value;
  test_type : value;
  description : value
}.

Definition format (assess : Assessment) : recommendation :=
  {| assessment_name := dict_get assess "name" "Unknown";
     assessment_url := dict_get assess "url" "";
     test_type := dict_get assess "type" "Unknown";
     description := dict_get assess "description" "" |}.

(** [top_k * 2 if self.reranker else top_k] *)
Definition search_k (self : RecommendationEngine) (top_k : Z) : Z :=
  match reranker self with
  | Some _ => top_k * 2
  | None => top_k
  end.

(** [if self.reranker and len(assessments) > 1: ... rerank ...] *)
Definition maybe_rerank (w : world) (self : RecommendationEngine) (query : string)
    (assessments : list Assessment) (top_k : Z) : M trace (list Assessment) :=
  match reranker self with
  | Some provider =>
      if decide (1 < length assessments)%nat
      then Reranker.rerank w provider query assessments top_k
      else ret assessments
  | None => ret assessments
  end.

Definition default_batch_size : Z := 100.

(** The query embedding of [recommend], with its fallback. *)
Definition embed_query (w : world) (query : string) : M state vec :=
  with_fallback w (λ g, generator_embed w g query).

(** The catalog embeddings of [_load_or_build_index], with their fallback. *)
Definition embed_catalog (w : world) (texts : list string) : M state (list vec) :=
  with_fallback w (λ g, generator_embed_batch w g texts default_batch_size).

Definition recommend (w : world) (query : string) (top_k : Z) : M state (list recommendation) :=
  query_embedding ← embed_query w query;
  self ← gets engine;
  results ← lift (VectorStore.search (vector_store self) query_embedding (search_k self top_k));
  let assessments := results.*1 in
  assessments ← on_requests (maybe_rerank w self query assessments top_k);
  ret (format <$> Py.slice_to assessments top_k).

(** The text embedded for a catalog entry. *)
Definition catalog_text (assess : Assessment) : result string :=
  match dict_item assess "name" with
  | Raise e => Raise e
  | Ok name =>
      Ok (str_value name +:+ " " +:+ str_value (dict_get assess "description" "")
          +:+ " " +:+ str_value (dict_get assess "type" ""))
  end.

(** [json.load] of the catalog *)
Definition read_catalog (files0 : VectorStore.files) (path : string)
  : result (list Assessment) :=
  match files0 !! path with
  | Some (VectorStore.JsonFile doc) => Ok doc
  | _ => Raise (ValueError "JSONDecodeError")
  end.

(** The first part of [_load_or_build_index]: whether the persisted
    store was loaded. *)
Definition try_load : M state bool :=
  on_engine (set_store (VectorStore.init VectorStore.default_dimension));;
  s ← get;
  let self := engine s in
  if VectorStore.exists_ (fs s) (index_path self)
     && VectorStore.exists_ (fs s) (metadata_path self)
  then
    try_except
      (on_store (λ vs, VectorStore.load vs (index_path self) (metadata_path self) (fs s));;
       ret true)
      (λ e, ret false)
  else ret false.

(** [_load_or_build_index]; [os.makedirs] of the directory of the index
    is not modelled. *)
Definition _load_or_build_index (w : world) : M state unit :=
  loaded ← try_load;
  if loaded : bool then ret tt else
  s ← get;
  let self := engine s in
  if negb (VectorStore.exists_ (fs s) (catalog_path self))
  then raise (FileNotFoundError ("Catalog file not found: " +:+ catalog_path self))
  else
    assessments ← lift (read_catalog (fs s) (catalog_path self));
    if bool_decide (assessments = []) then raise (ValueError "Catalog is empty") else
    texts ← mapM (λ assess, lift (catalog_text assess)) assessments;
    embeddings ← embed_catalog w texts;
    first ← lift (Py.index embeddings 0);
    let dimension := length first in
    on_engine (set_store (VectorStore.init dimension));;
    on_store (λ vs, VectorStore.add_assessments vs assessments embeddings);;
    s' ← get;
    on_fs (VectorStore.save (vector_store (engine s')) (index_path self) (metadata_path self)).

End Recommend.

(** ** The constructors and the choice of the providers *)

Module Construct.
Import Embeddings.

(** What the constructors depend on: the environment variables after
    [load_dotenv], and for each package the failure, if any, of importing
    it and of constructing its client or model. *)
Record installation := {
  environ : gmap string string;
  import_openai : option exn;
  new_openai_client : option exn;
  import_genai : option exn;
  configure_genai : option exn;
  new_generative_model : option exn;
  load_sentence_transformer : option exn
}.

(** [os.getenv(key)] *)
Definition getenv (i : installation) (key : string) : option string := environ i !! key.

(** The truth value of an optional string: [None] and [''] are false. *)
Definition truthy (v : option string) : bool :=
  match v with
  | Some s => negb (bool_decide (s = ""))
  | None => false
  end.

(** A step that fails with [failure], if any. *)
Definition attempt (failure : option exn) : result unit :=
  match failure with
  | None => Ok tt
  | Some e => Raise e
  end.

Definition and_then {A B} (r : result A) (k : A → result B) : result B :=
  match r with
  | Ok a => k a
  | Raise e => Raise e
  end.

(** [EmbeddingGenerator.__init__] *)
Definition new_EmbeddingGenerator (i : installation) (provider : string) : result generator :=
  if bool_decide (provider = "openai") then
    and_then (attempt (import_openai i)) (λ _,
    if negb (truthy (getenv i "OPENAI_API_KEY"))
    then Raise (ValueError "OPENAI_API_KEY not found in environment variables")
    else and_then (attempt (new_openai_client i)) (λ _, Ok (EmbeddingGenerator OpenAI)))
  else if bool_decide (provider = "gemini") then
    and_then (attempt (import_genai i)) (λ _,
    if negb (truthy (getenv i "GEMINI_API_KEY"))
    then Raise (ValueError "GEMINI_API_KEY not found in environment variables")
    else and_then (attempt (configure_genai i)) (λ _, Ok (EmbeddingGenerator Gemini)))
  else Raise (ValueError ("Unsupported provider: " +:+ provider)).

(** [FallbackEmbeddingGenerator.__init__]: a failure to load the model is
    kept as [available = False]. *)
Definition new_FallbackEmbeddingGenerator (i : installation) : generator :=
  match attempt (load_sentence_transformer i) with
  | Ok _ => FallbackEmbeddingGenerator true
  | Raise _ => FallbackEmbeddingGenerator false
  end.

(** [try: return EmbeddingGenerator(provider) except Exception: ...],
    under [if os.getenv(key)] *)
Definition try_provider (i : installation) (key provider : string) : option generator :=
  if truthy (getenv i key) then
    match new_EmbeddingGenerator i provider with
    | Ok g => Some g
    | Raise _ => None
    end
  else None.

Definition get_embedding_generator (i : installation) : generator :=
  match try_provider i "OPENAI_API_KEY" "openai" with
  | Some g => g
  | None =>
      match try_provider i "GEMINI_API_KEY" "gemini" with
      | Some g => g
      | None => new_FallbackEmbeddingGenerator i
      end
  end.

(** [LLMReranker.__init__] *)
Definition new_LLMReranker (i : installation) (provider : string) : result Reranker.backend :=
  if bool_decide (provider = "gemini") then
    and_then (attempt (import_genai i)) (λ _,
    if negb (truthy (getenv i "GEMINI_API_KEY"))
    then Raise (ValueError "GEMINI_API_KEY not found in environment variables")
    else and_then (attempt (configure_genai i)) (λ _,
         and_then (attempt (new_generative_model i)) (λ _, Ok Reranker.GeminiLLM)))
  else if bool_decide (provider = "openai") then
    and_then (attempt (import_openai i)) (λ _,
    if negb (truthy (getenv i "OPENAI_API_KEY"))
    then Raise (ValueError "OPENAI_API_KEY not found in environment variables")
    else and_then (attempt (new_openai_client i)) (λ _, Ok Reranker.OpenAILLM))
  else Raise (ValueError ("Unsupported provider: " +:+ provider)).

Definition try_reranker (i : installation) (key provider : string)
  : option Reranker.backend :=
  if truthy (getenv i key) then
    match new_LLMReranker i provider with
    | Ok b => Some b
    | Raise _ => None
    end
  else None.

(** [get_reranker]: [None] is no reranker. *)
Definition get_reranker (i : installation) (enable_reranking : bool)
  : option Reranker.backend :=
  if negb enable_reranking then None
  else
    match try_reranker i "GEMINI_API_KEY" "gemini" with
    | Some b => Some b
    | None => try_reranker i "OPENAI_API_KEY" "openai"
    end.

(** [path or str(DATA_DIR / name)], for a data directory written without
    a slash at its end *)
Definition path_or (path : option string) (data_dir name : string) : string :=
  if truthy path then default "" path else data_dir +:+ "/" +:+ name.

(** [RecommendationEngine.__init__]: the outcome, and the state with the
    engine as the constructor leaves it.  The attribute [vector_store],
    [None] until [_load_or_build_index] assigns it in its first
    statement, starts here as the store that statement assigns. *)
Definition new_RecommendationEngine (i : installation) (w : world) (data_dir : string)
    (catalog_path index_path metadata_path : option string) (enable_reranking : bool)
    (files0 : VectorStore.files) (tr : trace) : result unit * Recommend.state :=
  let self :=
    {| Recommend.catalog_path := path_or catalog_path data_dir "catalog.json";
       Recommend.index_path := path_or index_path data_dir "catalog_embeddings.faiss";
       Recommend.metadata_path := path_or metadata_path data_dir "catalog_metadata.json";
       Recommend.embedding_generator := get_embedding_generator i;
       Recommend.vector_store := VectorStore.init VectorStore.default_dimension;
       Recommend.reranker :=
         if enable_reranking then get_reranker i enable_reranking else None |} in
  Recommend._load_or_build_index w
    {| Recommend.engine := self; Recommend.fs := files0; Recommend.requests := tr |}.

End Construct.

(** ** scripts/evaluate.py: [RecommendationEvaluator] *)

Module Evaluate.

(** The number a JSON value is, a [bool] being the integer it stands for. *)
Definition num (v : value) : option Z :=
  match v with
  | VNum n => Some n
  | VBool b => Some (if b then 1 else 0)
  | _ => None
  end.

(** [a == b] on JSON values *)
Definition value_eq (a b : value) : bool :=
  match a, b with
  | VStr s, VStr t => bool_decide (s = t)
  | VNull, VNull => true
  | _, _ =>
      match num a, num b with
      | Some m, Some n => bool_decide (m = n)
      | _, _ => false
      end
  end.

(** [a == b] on dicts: the same keys, with equal values *)
Definition dict_eq (a b : Assessment) : bool :=
  bool_decide (map_relation (λ _ x y, value_eq x y = true) (λ _ _, False) (λ _ _, False) a b).

(** [l.index(x)]; the message of the [ValueError], which holds the
    [repr] of [x], is shortened. *)
Fixpoint list_index (l : list Assessment) (x : Assessment) : result nat :=
  match l with
  | [] => Raise (ValueError "is not in list")
  | y :: l' =>
      if dict_eq y x then Ok 0%nat
      else match list_index l' x with
           | Ok i => Ok (S i)
           | Raise e => Raise e
           end
  end.

(** A row of [results]; [rank] is a number, or [''] in a separator. *)
Record row := {
  query : string;
  assessment_name : value;
  assessment_url : value;
  test_type : value;
  rank : value
}.

Definition separator : row :=
  {| query := ""; assessment_name := VStr ""; assessment_url := VStr "";
     test_type := VStr ""; rank := VStr "" |}.

(** [get_recommendations]: the state is the number of calls made; [api]
    is the list of objects under [recommendations] in the answer to a
    call, and [[]] when the call or its decoding failed. *)
Definition get_recommendations (api : nat → string → Z → list Assessment)
    (query : string) (top_k : Z) : M nat (list Assessment) :=
  λ n, (Ok (api n query top_k), S n).

(** The row appended for [rec]. *)
Definition result_row (query : string) (recommendations : list Assessment)
    (rec : Assessment) : result row :=
  match list_index recommendations rec with
  | Ok i =>
      Ok {| query := query;
            assessment_name := dict_get rec "assessment_name" "";
            assessment_url := dict_get rec "assessment_url" "";
            test_type := dict_get rec "test_type" "";
            rank := VNum (Z.of_nat i + 1) |}
  | Raise e => Raise e
  end.

(** The body of the loop of [evaluate_queries]. *)
Definition evaluate_query (api : nat → string → Z → list Assessment) (top_k : Z)
    (results : list row) (query : string) : M nat (list row) :=
  recommendations ← get_recommendations api query top_k;
  rows ← mapM (λ rec, lift (result_row query recommendations rec)) recommendations;
  ret (results ++ rows ++ (if bool_decide (recommendations = []) then [] else [separator])).

Definition evaluate_queries (api : nat → string → Z → list Assessment)
    (queries : list string) (top_k : Z) : M nat (list row) :=
  foldM (evaluate_query api top_k) [] queries.

(** [save_to_csv]: the rows written under the header, [None] when no
    file is written. *)
Definition save_to_csv (results : list row) : option (list row) :=
  if bool_decide (results = []) then None
  else Some (filter (λ r, query r ≠ "") results).

End Evaluate.

(** ** scripts/crawl_catalog.py: [SHLCatalogScraper] *)

Module Crawl.

(** The dict [extract_assessment_info] returns: four strings. *)
Record scraped := {
  name : string;
  description : string;
  url : string;
  type : string
}.


(** A page as the scraper sees it: [None] when [fetch_page] fails, else
    what [extract_assessment_info] returns for each of the found items,
    in their order. *)
Abbreviation page := (option (list scraped)).

(** The body of the loop of [scrape_catalog_page]. *)
Definition add_new (assessments : list scraped) (assessment : scraped) : list scraped :=
  if negb (bool_decide (name assessment = ""))
     && negb (bool_decide (name assessment ∈ name <$> assessments))
  then assessments ++ [assessment]
  else assessments.

Definition scrape_catalog_page (p : page) : list scraped :=
  match p with
  | None => []
  | Some found_items => foldl add_new [] (Py.slice_to found_items 50)
  end.

(** The site: the catalog page at the first fetch, and the pages behind
    the pagination links the second fetch of the catalog page shows, in
    their order (none when that fetch fails).  Each of these links has
    an [href], which the pattern it is found by matches. *)
Record site := {
  catalog_page : page;
  pagination : list page
}.

Definition get_sample_assessments : list scraped :=
  [
  {| name := "Java Developer Skills Test";
     description := "Assesses Java programming skills, including core concepts, frameworks, and best practices";
     url := "https://www.shl.com/solutions/products/product-catalog/java-developer-skills/";
     type := "Knowledge & Skills" |};
  {| name := "Python Developer Skills Test";
     description := "Evaluates Python programming abilities, data structures, algorithms, and Python-specific frameworks";
     url := "https://www.shl.com/solutions/products/product-catalog/python-developer-skills/";
     type := "Knowledge & Skills" |};
  {| name := "Teamwork & Collaboration Test";
     description := "Measures an individual's ability to work effectively in teams and collaborate with others";
     url := "https://www.shl.com/solutions/products/product-catalog/teamwork-collaboration/";
     type := "Personality & Behavior" |};
  {| name := "Verbal Reasoning Test";
     description := "Evaluates ability to understand and analyze written information";
     url := "https://www.shl.com/solutions/products/product-catalog/verbal-reasoning/";
     type := "Cognitive Ability" |};
  {| name := "Numerical Reasoning Test";
     description := "Assesses ability to work with numbers, data, and mathematical concepts";
     url := "https://www.shl.com/solutions/products/product-catalog/numerical-reasoning/";
     type := "Cognitive Ability" |};
  {| name := "Leadership Assessment";
     description := "Evaluates leadership potential, decision-making, and management capabilities";
     url := "https://www.shl.com/solutions/products/product-catalog/leadership-assessment/";
     type := "Personality & Behavior" |};
  {| name := "Customer Service Skills Test";
     description := "Measures customer service abilities, communication, and problem-solving in service contexts";
     url := "https://www.shl.com/solutions/products/product-catalog/customer-service-skills/";
     type := "Knowledge & Skills" |};
  {| name := "Data Analysis Skills Test";
     description := "Evaluates data analysis, statistical reasoning, and interpretation of data visualizations";
     url := "https://www.shl.com/solutions/products/product-catalog/data-analysis-skills/";
     type := "Knowledge & Skills" |};
  {| name := "Emotional Intelligence Test";
     description := "Assesses emotional awareness, empathy, and emotional regulation capabilities";
     url := "https://www.shl.com/solutions/products/product-catalog/emotional-intelligence/";
     type := "Personality & Behavior" |};
  {| name := "Problem Solving Test";
     description := "Evaluates analytical thinking, creative problem-solving, and logical reasoning";
     url := "https://www.shl.com/solutions/products/product-catalog/problem-solving/";
     type := "Cognitive Ability" |};
  {| name := "Sales Skills Assessment";
     description := "Measures sales abilities, negotiation skills, and customer relationship management";
     url := "https://www.shl.com/solutions/products/product-catalog/sales-skills/";
     type := "Knowledge & Skills" |};
  {| name := "Adaptability Test";
     description := "Assesses ability to adapt to change, handle ambiguity, and remain effective in dynamic environments";
     url := "https://www.shl.com/solutions/products/product-catalog/adaptability/";
     type := "Personality & Behavior" |};
  {| name := "Abstract Reasoning Test";
     description := "Evaluates pattern recognition, logical thinking, and abstract problem-solving abilities";
     url := "https://www.shl.com/solutions/products/product-catalog/abstract-reasoning/";
     type := "Cognitive Ability" |};
  {| name := "Communication Skills Test";
     description := "Measures written and verbal communication abilities, clarity, and effectiveness";
     url := "https://www.shl.com/solutions/products/product-catalog/communication-skills/";
     type := "Knowledge & Skills" |};
  {| name := "Time Management Test";
     description := "Evaluates ability to prioritize tasks, manage time effectively, and meet deadlines";
     url := "https://www.shl.com/solutions/products/product-catalog/time-management/";
     type := "Personality & Behavior" |}
  ].

(** The body of the loop over [seen_names]. *)
Definition add_unique (acc : gset string * list scraped) (assessment : scraped)
  : gset string * list scraped :=
  let '(seen_names, unique_assessments) := acc in
  if negb (bool_decide (name assessment = ""))
     && negb (bool_decide (name assessment ∈ seen_names))
  then ({[name assessment]} ∪ seen_names, unique_assessments ++ [assessment])
  else acc.

(** [assessments] before the sample data and the deduplication *)
Definition scraped_pages (s : site) : list scraped :=
  foldl (λ assessments p, assessments ++ scrape_catalog_page p)
    (scrape_catalog_page (catalog_page s)) (Py.slice_to (pagination s) 5).

(** [assessments] before the deduplication *)
Definition with_samples (assessments : list scraped) : list scraped :=
  if decide (length assessments < 5)%nat
  then assessments ++ get_sample_assessments
  else assessments.

Definition scrape_all (s : site) : list scraped :=
  (foldl add_unique (∅, []) (with_samples (scraped_pages s))).2.


End Crawl.

(** ** Example data *)

Module Examples.

(** A world in which every collaborator fails with the message [msg]. *)
Definition failing (msg : string) : world :=
  {| openai_embeddings := λ _ _, Raise (ProviderError msg);
     gemini_embed_content := λ _ _, Raise (ProviderError msg);
     local_encode := λ _ _, Raise (ProviderError msg);
     local_encode_batch := λ _ _ _, Raise (ProviderError msg);
     gemini_generate := λ _ _, Raise (ProviderError msg);
     openai_chat := λ _ _, Raise (ProviderError msg);
     gemini_api_key := true;
     gemini_client_ok := true;
     sentence_transformers_ok := true |}.

(** A world in which a text of an even number of characters is embedded
    as [[1; 0]] and another text as [[0; 1]], and in which the language
    models answer [reply]. *)
Definition parity (t : string) : vec :=
  if Nat.even (String.length t) then [1; 0] else [0; 1].

Definition steady (reply : string) : world :=
  {| openai_embeddings := λ _ input, Ok (parity <$> input);
     gemini_embed_content := λ _ content, Ok (parity content);
     local_encode := λ _ text, Ok (parity text);
     local_encode_batch := λ _ texts _, Ok (parity <$> texts);
     gemini_generate := λ _ _, Ok reply;
     openai_chat := λ _ _, Ok reply;
     gemini_api_key := true;
     gemini_client_ok := true;
     sentence_transformers_ok := true |}.

(** Three catalog entries, the third without a description. *)
Definition java : Assessment :=
  <["name" := VStr "Java Test"]> (<["url" := VStr "https://example.com/java"]>
    (<["type" := VStr "Knowledge"]> (<["description" := VStr "Core Java"]> ∅))).

Definition python : Assessment :=
  <["name" := VStr "Python Test"]> (<["url" := VStr "https://example.com/python"]>
    (<["type" := VStr "Knowledge"]> (<["description" := VStr "Python 3"]> ∅))).

Definition teamwork : Assessment :=
  <["name" := VStr "Teamwork Test"]> (<["url" := VStr "https://example.com/teamwork"]>
    (<["type" := VStr "Behaviour"]> ∅)).

Definition catalog : list Assessment := [java; python; teamwork].

(** Their vectors; the third equals the first. *)
Definition vectors : list vec := [[1; 0]; [0; 1]; [1; 0]].

(** The store built from them. *)
Definition store : VectorStore.FAISSVectorStore :=
  (VectorStore.add_assessments (VectorStore.init 2) catalog vectors).2.

(** The files after saving [store] and an empty store under different names. *)
Definition two_saves : VectorStore.files :=
  VectorStore.save (VectorStore.init 2) "b.faiss" "b.json"
    (VectorStore.save store "a.faiss" "a.json" ∅).

(** A catalog entry without a name. *)
Definition unnamed : Assessment :=
  <["url" := VStr "https://example.com/unnamed"]> (<["type" := VStr "Knowledge"]> ∅).

(** An engine on [store], with OpenAI embeddings and without reranker,
    before any request. *)
Definition engine0 : Recommend.RecommendationEngine :=
  {| Recommend.catalog_path := "catalog.json";
     Recommend.index_path := "a.faiss";
     Recommend.metadata_path := "a.json";
     Recommend.embedding_generator := Embeddings.EmbeddingGenerator Embeddings.OpenAI;
     Recommend.vector_store := store;
     Recommend.reranker := None |}.

Definition state0 : Recommend.state :=
  {| Recommend.engine := engine0; Recommend.fs := ∅; Recommend.requests := [] |}.

(** A fresh engine before startup, with the catalog on disk only. *)
Definition fresh : Recommend.state :=
  {| Recommend.engine :=
       {| Recommend.catalog_path := "catalog.json";
          Recommend.index_path := "catalog_embeddings.faiss";
          Recommend.metadata_path := "catalog_metadata.json";
          Recommend.embedding_generator := Embeddings.EmbeddingGenerator Embeddings.OpenAI;
          Recommend.vector_store := VectorStore.init VectorStore.default_dimension;
          Recommend.reranker := Some Reranker.GeminiLLM |};
     Recommend.fs := {["catalog.json" := VectorStore.JsonFile catalog]};
     Recommend.requests := [] |}.

(** An engine on [store] with the local model and without reranker. *)
Definition local0 : Recommend.state :=
  {| Recommend.engine :=
       {| Recommend.catalog_path := "catalog.json";
          Recommend.index_path := "a.faiss";
          Recommend.metadata_path := "a.json";
          Recommend.embedding_generator := Embeddings.FallbackEmbeddingGenerator true;
          Recommend.vector_store := store;
          Recommend.reranker := None |};
     Recommend.fs := ∅; Recommend.requests := [] |}.

(** An installation with every package in place and the given environment. *)
Definition installed (env : gmap string string) : Construct.installation :=
  {| Construct.environ := env;
     Construct.import_openai := None;
     Construct.new_openai_client := None;
     Construct.import_genai := None;
     Construct.configure_genai := None;
     Construct.new_generative_model := None;
     Construct.load_sentence_transformer := None |}.

(** A site that cannot be reached. *)
Definition unreachable : Crawl.site :=
  {| Crawl.catalog_page := None; Crawl.pagination := [] |}.


End Examples.

(** ** Vocabulary of the statements *)

(** The classification of a failure the callers rely on: its lowered
    message carries one of the five markers. *)
Definition quota_classified (e : exn) : bool :=
  Embeddings.any_keyword Embeddings.quota_keywords (Py.lower (str_exn e)).

(** The state after requests only: the engine and the files as before. *)
Definition with_requests (s : Recommend.state) (tr : trace) : Recommend.state :=
  {| Recommend.engine := Recommend.engine s; Recommend.fs := Recommend.fs s;
     Recommend.requests := tr |}.

(** The next generator of the chain. *)
Definition next_generator (w : world) (s : Recommend.state) : Embeddings.generator :=
  Embeddings.get_embedding_generator_with_fallback w
    (Recommend.embedding_generator (Recommend.engine s)).

(** The state after one substitution of the generator. *)
Definition substituted (w : world) (s : Recommend.state) (tr : trace) : Recommend.state :=
  {| Recommend.engine := Recommend.set_generator (next_generator w s) (Recommend.engine s);
     Recommend.fs := Recommend.fs s;
     Recommend.requests := tr |}.

(** What the fallback protocol prescribes for an operation [op] of the
    generator: on success nothing more; on a quota-classified failure one
    substitution and [op] once more, its outcome final; on another
    failure nothing more. *)
Definition fallback_protocol {A} (w : world) (op : Embeddings.generator → M trace A)
    (s : Recommend.state) : result A * Recommend.state :=
  match op (Recommend.embedding_generator (Recommend.engine s)) (Recommend.requests s) with
  | (Ok a, tr1) => (Ok a, with_requests s tr1)
  | (Raise e, tr1) =>
      if quota_classified e
      then (let '(r2, tr2) := op (next_generator w s) tr1 in (r2, substituted w s tr2))
      else (Raise e, with_requests s tr1)
  end.

(** The request a backend of the reranker makes, and its answer at time [t]. *)
Definition llm_request (provider : Reranker.backend) (prompt : string) : request :=
  match provider with
  | Reranker.GeminiLLM => GeminiGenerate prompt
  | Reranker.OpenAILLM => OpenAIChat prompt
  end.

Definition llm_answer (w : world) (provider : Reranker.backend) (t : nat) (prompt : string)
  : result string :=
  match provider with
  | Reranker.GeminiLLM => gemini_generate w t prompt
  | Reranker.OpenAILLM => openai_chat w t prompt
  end.

(** The chunks [texts[i:i + batch_size]] of [embed_batch], in order. *)
Definition batches (texts : list string) (batch_size : Z) : list (list string) :=
  match Py.range_step (length texts) batch_size with
  | Ok starts => (λ i, Py.slice texts i (i + Z.to_nat batch_size)) <$> starts
  | Raise _ => []
  end.



(** The [k] nearest stored vectors, as (distance, label). *)
Definition nearest (index : Faiss.IndexFlatL2) (q : vec) (k : Z) : list (Z * Z) :=
  take (Z.to_nat k) (merge_sort Faiss.nearer (Faiss.scan index q)).


(** The order of the results, on (storage position, distance): by
    distance, and by storage position among equal distances. *)
Definition ranked (a b : nat * Z) : Prop :=
  a.2 < b.2 ∨ (a.2 = b.2 ∧ (a.1 < b.1)%nat).

(** The requests for one batch when nothing fails. *)
Definition batch_requests (p : Embeddings.provider) (batch : list string) : list request :=
  match p with
  | Embeddings.OpenAI => [OpenAIEmbeddings batch]
  | Embeddings.Gemini => GeminiEmbedContent <$> batch
  end.

(** The requests [embed_batch] makes when nothing fails: one per chunk
    for OpenAI, one per text for Gemini. *)
Definition chunk_requests (p : Embeddings.provider) (texts : list string) (batch_size : Z)
  : list request :=
  match p with
  | Embeddings.OpenAI => OpenAIEmbeddings <$> batches texts batch_size
  | Embeddings.Gemini => GeminiEmbedContent <$> concat (batches texts batch_size)
  end.

(** The failure [e] of the attempt of [embed] at time [t]: of the request,
    or for OpenAI of reading [data[0]] in its answer. *)
Definition embed_failure (w : world) (p : Embeddings.provider) (t : nat) (text : string)
    (e : exn) : Prop :=
  match p with
  | Embeddings.OpenAI =>
      openai_embeddings w t [text] = Raise e
      ∨ ∃ data, openai_embeddings w t [text] = Ok data ∧ Py.index data 0 = Raise e
  | Embeddings.Gemini => gemini_embed_content w t text = Raise e
  end.

(** The state with another vector store: the rest of the engine, the
    files and the requests as before. *)
Definition with_store (s : Recommend.state) (vs : VectorStore.FAISSVectorStore)
  : Recommend.state :=
  {| Recommend.engine := Recommend.set_store vs (Recommend.engine s);
     Recommend.fs := Recommend.fs s;
     Recommend.requests := Recommend.requests s |}.

(** The two files of the engine hold an index and a metadata document. *)
Definition persisted (s : Recommend.state) (index' : Faiss.IndexFlatL2)
    (doc : list Assessment) : Prop :=
  Recommend.fs s !! Recommend.index_path (Recommend.engine s)
  = Some (VectorStore.IndexFile index')
  ∧ Recommend.fs s !! Recommend.metadata_path (Recommend.engine s)
    = Some (VectorStore.JsonFile doc).

(** The place of a generator in the chain: OpenAI, Gemini, the local model. *)
Definition chain_rank (g : Embeddings.generator) : nat :=
  match g with
  | Embeddings.EmbeddingGenerator Embeddings.OpenAI => 0
  | Embeddings.EmbeddingGenerator Embeddings.Gemini => 1
  | Embeddings.FallbackEmbeddingGenerator _ => 2
  end.

(** A request that stays on the machine. *)
Definition is_local (r : request) : bool :=
  match r with
  | LocalEncode _ | LocalEncodeBatch _ _ => true
  | _ => false
  end.

(** An engine that reaches no hosted provider: no reranker, and the
    generator of the local model. *)
Definition local_engine (s : Recommend.state) : Prop :=
  Recommend.reranker (Recommend.engine s) = None
  ∧ ∃ available,
      Recommend.embedding_generator (Recommend.engine s)
      = Embeddings.FallbackEmbeddingGenerator available.

(** The requests made from [tr] on were all local. *)
Definition local_since (tr : trace) (s : Recommend.state) : Prop :=
  ∃ reqs, Recommend.requests s = tr ++ reqs ∧ Forall (λ r, is_local r = true) reqs.

(** A provider is usable when its key is set to a non-empty value and
    neither its import nor its client fails. *)
Definition openai_usable (i : Construct.installation) : Prop :=
  Construct.truthy (Construct.getenv i "OPENAI_API_KEY") = true
  ∧ Construct.import_openai i = None
  ∧ Construct.new_openai_client i = None.

Definition gemini_usable (i : Construct.installation) : Prop :=
  Construct.truthy (Construct.getenv i "GEMINI_API_KEY") = true
  ∧ Construct.import_genai i = None
  ∧ Construct.configure_genai i = None.

(** The answers of the API to the queries, from its [n]-th call on. *)
Fixpoint answers (api : nat → string → Z → list Assessment) (n : nat)
    (queries : list string) (top_k : Z) : list (string * list Assessment) :=
  match queries with
  | [] => []
  | q :: qs => (q, api n q top_k) :: answers api (S n) qs top_k
  end.

(** [r] is the row of [rec], the [j]-th recommendation of the answer
    [recs] to [q]: its rank is the position, counted from one, of the
    first recommendation of the answer that equals [rec]. *)
Definition row_of (q : string) (recs : list Assessment) (j : nat) (rec : Assessment)
    (r : Evaluate.row) : Prop :=
  Evaluate.query r = q
  ∧ Evaluate.assessment_name r = dict_get rec "assessment_name" ""
  ∧ Evaluate.assessment_url r = dict_get rec "assessment_url" ""
  ∧ Evaluate.test_type r = dict_get rec "test_type" ""
  ∧ ∃ i first,
      Evaluate.rank r = VNum (Z.of_nat i + 1)
      ∧ (i ≤ j)%nat
      ∧ recs !! i = Some first ∧ Evaluate.dict_eq first rec = true
      ∧ ∀ i' x, (i' < i)%nat → recs !! i' = Some x → Evaluate.dict_eq x rec = false.

(** [block] holds the rows of the answer [a]: one per recommendation,
    in their order, and a separator after them when there is any. *)
Definition block_of (a : string * list Assessment) (block : list Evaluate.row) : Prop :=
  ∃ body,
    block = body ++ (if bool_decide (a.2 = []) then [] else [Evaluate.separator])
    ∧ length body = length a.2
    ∧ ∀ j rec, a.2 !! j = Some rec → ∃ r, body !! j = Some r ∧ row_of a.1 a.2 j rec r.

(** The number of recommendations in the answers to non-empty queries. *)
Definition answered_rows (ans : list (string * list Assessment)) : nat :=
  sum_list ((λ a, if bool_decide (a.1 = "") then 0%nat else length a.2) <$> ans).

(** An entry with a non-empty name. *)
Definition named (a : Crawl.scraped) : Prop := Crawl.name a ≠ "".

(** The invariant of the loop over [seen_names]: the set holds the names
    of the entries kept, which are non-empty and pairwise different. *)
Definition dedup_inv (acc : gset string * list Crawl.scraped) : Prop :=
  (∀ x, x ∈ acc.1 ↔ x ∈ Crawl.name <$> acc.2)
  ∧ NoDup (Crawl.name <$> acc.2)
  ∧ Forall named acc.2.


(** Unfolding of the effects in proofs. *)
Arguments Embeddings.any_keyword : simpl never.
Arguments quota_classified : simpl never.

Ltac unfold_eff :=
  unfold mbind, M_bind, mret, M_ret, Eff.bind, Eff.ret, Eff.raise, Eff.try_except,
    Eff.lift, Eff.gets, Eff.get, Eff.zoom in *.

Ltac unfold_state :=
  unfold Recommend.on_engine, Recommend.on_fs, Recommend.on_requests, Recommend.on_store in *;
  unfold_eff.

(** Closes a goal on the requests of the reranker when there is none. *)
Ltac no_llm :=
  exists []; rewrite app_nil_r; split; [done|]; split; [simpl; lia|];
  split; [constructor|done].

(** * Properties *)

(** ** Lists *)

Lemma filter_all {A} (P : A → Prop) `{!∀ x, Decision (P x)} (l : list A) :
  Forall P l → filter P l = l.
Proof.
  induction 1 as [|x l Hx _ IH]; [done|]. by rewrite filter_cons_True, IH.
Qed.

Lemma filter_none {A} (P : A → Prop) `{!∀ x, Decision (P x)} (l : list A) :
  Forall (λ x, ¬ P x) l → filter P l = [].
Proof.
  induction 1 as [|x l Hx _ IH]; [done|]. by rewrite filter_cons_False.
Qed.

Lemma index_nat {A} (l : list A) (i : nat) (a : A) :
  l !! i = Some a → Py.index l (Z.of_nat i) = Ok a.
Proof.
  intros Hi. unfold Py.index. cbv zeta.
  repeat case_decide; try lia. by rewrite Nat2Z.id, Hi.
Qed.

(** ** The rank parser *)

Section ParseFacts.
Context {char : Type} (digit_value : char → option Z).

Lemma elem_of_first_occurrences (l : list Z) (x : Z) :
  x ∈ Parse.first_occurrences l ↔ x ∈ l.
Proof.
  induction l as [|y l IH]; simpl; [done|].
  rewrite !elem_of_cons, list_elem_of_filter, IH.
  destruct (decide (x = y)); naive_solver.
Qed.

Lemma NoDup_first_occurrences (l : list Z) : NoDup (Parse.first_occurrences l).
Proof.
  induction l as [|y l IH]; simpl; constructor.
  - rewrite list_elem_of_filter. naive_solver.
  - by apply NoDup_filter.
Qed.

Lemma filter_not_in_snoc (acc : list Z) (x : Z) (l : list Z) :
  filter (λ y, y ∉ acc ++ [x]) l = filter (λ y, y ∉ acc) (filter (λ y, y ≠ x) l).
Proof.
  induction l as [|z l IH]; [done|].
  rewrite !filter_cons.
  destruct (decide (z ∉ acc ++ [x])) as [H|H];
    destruct (decide (z ≠ x)) as [H1|H1]; rewrite ?filter_cons;
    try destruct (decide (z ∉ acc)) as [H2|H2]; rewrite ?IH; try done;
    exfalso; set_solver.
Qed.

Lemma filter_not_in_absorb (acc : list Z) (x : Z) (l : list Z) :
  x ∈ acc →
  filter (λ y, y ∉ acc) (filter (λ y, y ≠ x) l) = filter (λ y, y ∉ acc) l.
Proof.
  intros Hx. induction l as [|z l IH]; [done|].
  rewrite !filter_cons.
  destruct (decide (z ≠ x)) as [H1|H1]; rewrite ?filter_cons;
    destruct (decide (z ∉ acc)) as [H2|H2]; rewrite ?IH; try done.
  exfalso. apply H2. apply dec_stable in H1. by subst.
Qed.

(** The first loop keeps, after what was already kept, the first
    occurrences of the in-range values not seen before. *)
Lemma keep_first_loop (max_num : Z) (tokens : list (list char))
    (acc : list Z) (seen : gset Z) :
  (∀ x, x ∈ seen ↔ x ∈ acc) →
  let res := foldl (Parse.keep_first digit_value max_num) (acc, seen) tokens in
  res.1 = acc ++ filter (λ y, y ∉ acc)
            (Parse.first_occurrences
               (filter (λ v, 1 ≤ v ≤ max_num) (Parse.int digit_value <$> tokens)))
  ∧ (∀ x, x ∈ res.2 ↔ x ∈ res.1).
Proof.
  revert acc seen. induction tokens as [|t ts IH]; intros acc seen Hseen; simpl.
  - by rewrite app_nil_r.
  - rewrite filter_cons.
    destruct (decide (1 ≤ Parse.int digit_value t ≤ max_num)) as [Hr|Hr].
    + destruct (decide (Parse.int digit_value t ∉ seen)) as [Hs|Hs].
      * assert (Parse.keep_first digit_value max_num (acc, seen) t
                = (acc ++ [Parse.int digit_value t], {[Parse.int digit_value t]} ∪ seen))
          as -> by (unfold Parse.keep_first; simpl; by rewrite decide_True).
        destruct (IH (acc ++ [Parse.int digit_value t]) ({[Parse.int digit_value t]} ∪ seen))
          as [IH1 IH2]; [set_solver|].
        split; [|exact IH2]. rewrite IH1. simpl.
        rewrite filter_cons, decide_True by (by rewrite <- Hseen).
        rewrite <- app_assoc. simpl. do 2 f_equal. apply filter_not_in_snoc.
      * assert (Parse.keep_first digit_value max_num (acc, seen) t = (acc, seen))
          as -> by (unfold Parse.keep_first; simpl; rewrite decide_False; tauto).
        destruct (IH acc seen Hseen) as [IH1 IH2].
        split; [|exact IH2]. rewrite IH1. simpl.
        apply dec_stable in Hs.
        rewrite filter_cons, decide_False by (rewrite <- Hseen; tauto).
        f_equal. symmetry. apply filter_not_in_absorb. by apply Hseen.
    + assert (Parse.keep_first digit_value max_num (acc, seen) t = (acc, seen))
        as -> by (unfold Parse.keep_first; simpl; rewrite decide_False; tauto).
      by apply IH.
Qed.

Lemma fill_missing_loop (seen : gset Z) (acc l : list Z) :
  foldl (Parse.fill_missing seen) acc l = acc ++ filter (λ i, i ∉ seen) l.
Proof.
  revert acc. induction l as [|i l IH]; intros acc; simpl.
  - by rewrite app_nil_r.
  - rewrite IH, filter_cons. unfold Parse.fill_missing.
    destruct (decide (i ∉ seen)); [|done]. by rewrite <- app_assoc.
Qed.

Lemma recovered_NoDup (text : list char) (n : Z) :
  NoDup (Parse.recovered digit_value text n).
Proof. apply NoDup_first_occurrences. Qed.

Lemma recovered_range (text : list char) (n x : Z) :
  x ∈ Parse.recovered digit_value text n → x ∈ seqZ 1 n.
Proof.
  unfold Parse.recovered. rewrite elem_of_first_occurrences, list_elem_of_filter.
  rewrite elem_of_seqZ. lia.
Qed.

(** The order of the specification is a permutation of [1..n]. *)
Lemma spec_ranked_order_Permutation (text : list char) (n : Z) :
  Parse.spec_ranked_order digit_value text n ≡ₚ seqZ 1 n.
Proof.
  unfold Parse.spec_ranked_order. simpl.
  set (valid := Parse.recovered digit_value text n).
  rewrite <- (filter_app_complement (λ i, i ∈ valid) (seqZ 1 n)) at 2.
  apply Permutation_app; [|done].
  apply NoDup_Permutation.
  - apply recovered_NoDup.
  - apply NoDup_filter, NoDup_seqZ.
  - intros x. rewrite list_elem_of_filter. split; [|tauto].
    intros Hx. split; [done|]. by eapply recovered_range.
Qed.

Lemma recovered_complete (text : list char) (n : Z) :
  n ≤ Z.of_nat (length (Parse.recovered digit_value text n)) →
  filter (λ i, i ∉ Parse.recovered digit_value text n) (seqZ 1 n) = [].
Proof.
  intros Hlen.
  set (valid := Parse.recovered digit_value text n) in *.
  assert (valid ⊆+ seqZ 1 n) as Hsub.
  { apply NoDup_submseteq; [apply recovered_NoDup|]. intros x. apply recovered_range. }
  assert (valid ≡ₚ seqZ 1 n) as Hperm.
  { apply submseteq_length_Permutation; [done|]. rewrite length_seqZ. lia. }
  apply filter_none, Forall_forall. intros x Hx Hn. apply Hn.
  by rewrite Hperm.
Qed.

Lemma parse_ranked_order_spec (text : list char) (max_num : Z) :
  Parse._parse_ranked_order digit_value text max_num
  = Parse.spec_ranked_order digit_value text max_num.
Proof.
  unfold Parse._parse_ranked_order.
  pose proof (keep_first_loop max_num (Parse.findall_digits digit_value text) [] ∅) as H.
  simpl in H. destruct H as [H1 H2]; [set_solver|].
  destruct (foldl _ _ _) as [ranked seen]. simpl in *.
  assert (ranked = Parse.recovered digit_value text max_num) as ->.
  { rewrite H1. unfold Parse.recovered. apply filter_all.
    apply Forall_forall. intros x _. set_solver. }
  assert (filter (λ i, i ∉ seen) (seqZ 1 max_num)
          = filter (λ i, i ∉ Parse.recovered digit_value text max_num) (seqZ 1 max_num))
    as Hfill.
  { apply list_filter_iff. intros x. by rewrite H2. }
  pose proof (spec_ranked_order_Permutation text max_num) as Hperm.
  apply Permutation_length in Hperm. rewrite length_seqZ in Hperm.
  assert ((if decide (Z.of_nat (length (Parse.recovered digit_value text max_num)) < max_num)
           then foldl (Parse.fill_missing seen)
                  (Parse.recovered digit_value text max_num) (Py.range 1 (max_num + 1))
           else Parse.recovered digit_value text max_num)
          = Parse.spec_ranked_order digit_value text max_num) as ->.
  { unfold Parse.spec_ranked_order. simpl. case_decide.
    - rewrite fill_missing_loop. unfold Py.range.
      replace (max_num + 1 - 1) with max_num by lia. by rewrite Hfill.
    - rewrite recovered_complete by lia. by rewrite app_nil_r. }
  unfold Py.slice_to. case_decide.
  - apply take_ge. lia.
  - apply take_ge. lia.
Qed.

End ParseFacts.


(** ** The embedding providers *)

(** A failure of the OpenAI request in [embed]: one request, no retry,
    the quota signal exactly for the classified failures. *)
Lemma embed_openai_failure (w : world) (text : string) (tr : trace) (e : exn) :
  openai_embeddings w (length tr) [text] = Raise e →
  Embeddings.embed w Embeddings.OpenAI text tr
  = (Raise (if quota_classified e then Embeddings.openai_quota_error e else e),
     tr ++ [OpenAIEmbeddings [text]]).
Proof.
  intros He. unfold Embeddings.embed, call_openai_embeddings, quota_classified.
  unfold_eff. rewrite He. by destruct (Embeddings.any_keyword _ _).
Qed.

(** A failure of the Gemini request in [embed]: only [quota] and [429]
    give the quota signal. *)
Lemma embed_gemini_failure (w : world) (text : string) (tr : trace) (e : exn) :
  gemini_embed_content w (length tr) text = Raise e →
  Embeddings.embed w Embeddings.Gemini text tr
  = (Raise (if Py.contains "quota" (Py.lower (str_exn e))
               || Py.contains "429" (Py.lower (str_exn e))
            then Embeddings.gemini_quota_error e else e),
     tr ++ [GeminiEmbedContent text]).
Proof.
  intros He. unfold Embeddings.embed, call_gemini_embed_content.
  unfold_eff. rewrite He. by destruct (_ || _).
Qed.

(** A failure inside [embed_batch]: the five markers, for either
    provider, and the loop ends there. *)
Lemma embed_chunk_failure (w : world) (p : Embeddings.provider) (texts : list string)
    (batch_size : Z) (embeddings : list vec) (i : nat) (tr tr1 : trace) (e : exn) :
  Embeddings.provider_batch w p (Py.slice texts i (i + Z.to_nat batch_size)) tr
  = (Raise e, tr1) →
  Embeddings.embed_chunk w p texts batch_size embeddings i tr
  = (Raise (if quota_classified e then Embeddings.quota_error p e else e), tr1).
Proof.
  intros He. unfold Embeddings.embed_chunk, quota_classified. unfold_eff.
  rewrite He. by destruct (Embeddings.any_keyword _ _).
Qed.

(** C2.  At a Gemini failure whose message is [rate_limit exceeded], a
    message the five markers classify as quota, [embed] lets the failure
    through as it is, after one request, where [embed_batch] on the same
    provider and [embed] on OpenAI raise the quota signal. *)
Theorem gemini_embed_rate_limit_unsignaled :
  let w := Examples.failing "rate_limit exceeded" in
  let e := ProviderError "rate_limit exceeded" in
  quota_classified e = true
  ∧ Embeddings.embed w Embeddings.Gemini "java developer" []
    = (Raise e, [GeminiEmbedContent "java developer"])
  ∧ Embeddings.embed_batch w Embeddings.Gemini ["java developer"] 100 []
    = (Raise (Embeddings.gemini_quota_error e), [GeminiEmbedContent "java developer"])
  ∧ Embeddings.embed w Embeddings.OpenAI "java developer" []
    = (Raise (Embeddings.openai_quota_error e), [OpenAIEmbeddings ["java developer"]]).
Proof. vm_compute. done. Qed.

(** ** The fallback of the orchestrator *)

Lemma with_fallback_protocol {A} (w : world) (op : Embeddings.generator → M trace A)
    (s : Recommend.state) :
  Recommend.with_fallback w op s = fallback_protocol w op s.
Proof.
  unfold Recommend.with_fallback, fallback_protocol, Recommend.on_requests,
    Recommend.on_engine, quota_classified, substituted, with_requests, next_generator.
  unfold_eff. destruct s as [self files0 tr]. simpl.
  destruct (op _ tr) as [[a|e] tr1]; [done|].
  destruct (Embeddings.any_keyword _ _); [|done]. simpl.
  by destruct (op _ tr1) as [r2 tr2].
Qed.

(** The chain ends at the local model. *)
Lemma fallback_chain (w : world) (g : Embeddings.generator) :
  (g = Embeddings.EmbeddingGenerator Embeddings.OpenAI
   ∧ Embeddings.get_embedding_generator_with_fallback w g
     = Embeddings.EmbeddingGenerator Embeddings.Gemini)
  ∨ Embeddings.get_embedding_generator_with_fallback w g
    = Embeddings.FallbackEmbeddingGenerator (sentence_transformers_ok w).
Proof.
  destruct g as [[|]|av]; simpl; auto.
  destruct (gemini_api_key w && gemini_client_ok w); auto.
Qed.

(** [embed] of a generator makes at most one request. *)
Lemma generator_embed_requests (w : world) (g : Embeddings.generator) (text : string)
    (tr : trace) :
  ∃ delta, (Embeddings.generator_embed w g text tr).2 = tr ++ delta
           ∧ (length delta ≤ 1)%nat ∧ Forall (λ r, is_embedding r = true) delta.
Proof.
  destruct g as [[|]|[|]]; simpl;
    unfold Embeddings.embed, call_openai_embeddings, call_gemini_embed_content,
      call_local_encode; unfold_eff.
  - exists [OpenAIEmbeddings [text]].
    destruct (openai_embeddings _ _ _) as [data|e]; simpl.
    + destruct (Py.index data 0); simpl; [by repeat constructor|].
      destruct (Embeddings.any_keyword _ _); by repeat constructor.
    + destruct (Embeddings.any_keyword _ _); by repeat constructor.
  - exists [GeminiEmbedContent text].
    destruct (gemini_embed_content _ _ _) as [v|e]; simpl; [by repeat constructor|].
    destruct (_ || _); by repeat constructor.
  - exists [LocalEncode text]. by repeat constructor.
  - exists []. rewrite app_nil_r. by repeat constructor.
Qed.


(** ** The reranker *)

Lemma invoke_once (w : world) (provider : Reranker.backend) (prompt : string) (tr : trace) :
  Reranker.invoke w provider prompt tr
  = (match llm_answer w provider (length tr) prompt with
     | Ok text => Ok (Reranker.strip text)
     | Raise e => Raise e
     end, tr ++ [llm_request provider prompt]).
Proof.
  destruct provider; simpl; unfold call_gemini_generate, call_openai_chat; unfold_eff;
    simpl; by destruct (_ w (length tr) prompt).
Qed.

(** [rerank] on a non-empty candidate list whose prompt is built. *)
Lemma rerank_prompt_built (w : world) (provider : Reranker.backend) (query : string)
    (assessments : list Assessment) (top_k : Z) (tr : trace) (prompt : string) :
  assessments ≠ [] →
  Reranker.build_prompt query assessments = Ok prompt →
  Reranker.rerank w provider query assessments top_k tr
  = (match llm_answer w provider (length tr) prompt with
     | Raise e => Ok (Py.slice_to assessments top_k)
     | Ok text =>
         let ranked_indices :=
           Reranker._parse_ranked_order (Reranker.strip text)
             (Z.of_nat (length assessments)) in
         match Reranker.pick assessments ranked_indices with
         | Raise e => Ok (Py.slice_to assessments top_k)
         | Ok reranked =>
             Ok (Py.slice_to
                   (foldl (Reranker.add_unranked (list_to_set ranked_indices)) reranked
                      (Reranker.enumerate assessments)) top_k)
         end
     end, tr ++ [llm_request provider prompt]).
Proof.
  intros Hne Hp. unfold Reranker.rerank.
  destruct assessments as [|a l]; [done|].
  rewrite Hp. unfold_eff. rewrite invoke_once.
  destruct (llm_answer w provider (length tr) prompt) as [text|e]; [|done].
  by destruct (Reranker.pick _ _).
Qed.


(** The prompt is built outside the [try]: a candidate without a name
    ends [rerank] with the [KeyError], before any request. *)
Lemma rerank_missing_name (w : world) (provider : Reranker.backend) (top_k : Z)
    (tr : trace) :
  Reranker.rerank w provider "python developer" [Examples.java; Examples.unnamed] top_k tr
  = (Raise (KeyError "name"), tr).
Proof. reflexivity. Qed.

(** C8.  [rerank] makes no request or exactly one, to its own backend and
    with the prompt it built; once the prompt is built it returns a list
    and never an error; and when the invocation fails, or when picking
    the ranked candidates fails, the list is the candidates in their
    order, cut to [top_k]. *)
Theorem rerank_fail_open (w : world) (provider : Reranker.backend) (query : string)
    (assessments : list Assessment) (top_k : Z) (tr : trace) :
  let out := Reranker.rerank w provider query assessments top_k tr in
  (out.2 = tr
   ∨ ∃ prompt, Reranker.build_prompt query assessments = Ok prompt
               ∧ out.2 = tr ++ [llm_request provider prompt])
  ∧ (∀ prompt, Reranker.build_prompt query assessments = Ok prompt →
               ∃ l, out.1 = Ok l)
  ∧ (∀ prompt e, Reranker.build_prompt query assessments = Ok prompt →
                 llm_answer w provider (length tr) prompt = Raise e →
                 out.1 = Ok (Py.slice_to assessments top_k))
  ∧ (∀ prompt text e, Reranker.build_prompt query assessments = Ok prompt →
        llm_answer w provider (length tr) prompt = Ok text →
        Reranker.pick assessments
          (Reranker._parse_ranked_order (Reranker.strip text)
             (Z.of_nat (length assessments))) = Raise e →
        out.1 = Ok (Py.slice_to assessments top_k)).
Proof.
  simpl. destruct (decide (assessments = [])) as [->|Hne].
  { unfold Reranker.rerank. unfold_eff. simpl.
    assert (Py.slice_to (A := Assessment) [] top_k = []) as ->
      by (unfold Py.slice_to; case_decide; apply take_nil).
    split; [by left|]. split; [eauto|]. split; intros; done. }
  destruct (Reranker.build_prompt query assessments) as [prompt|e0] eqn:Hp.
  - rewrite (rerank_prompt_built _ _ _ _ _ _ prompt Hne Hp). simpl.
    split; [right; eauto|].
    split; [|split].
    + intros _ _. destruct (llm_answer _ _ _ _); [|eauto].
      destruct (Reranker.pick _ _); eauto.
    + intros p e [= <-] He. by rewrite He.
    + intros p text e [= <-] Ht Hpick. by rewrite Ht, Hpick.
  - split; [left|by repeat split].
    unfold Reranker.rerank. destruct assessments; [done|].
    rewrite Hp. by unfold_eff.
Qed.

(** ** The orchestrator *)



(** ** Batches *)



Lemma mapM_inv {S A B} (f : A → M S B) (P : A → B → Prop) :
  (∀ a s b s', f a s = (Ok b, s') → P a b) →
  ∀ l s bs s', mapM f l s = (Ok bs, s') → Forall2 P l bs.
Proof.
  intros Hf. induction l as [|a l IH]; intros s bs s'; simpl; unfold_eff.
  - intros [= <- _]. constructor.
  - destruct (f a s) as [[b|e] s1] eqn:Hb; [|done].
    destruct (mapM f l s1) as [[bs'|e] s2] eqn:Hbs; [|done].
    intros [= <- _]. constructor; eauto.
Qed.







(** ** The exhaustive search *)

#[local] Instance nearer_total : Total Faiss.nearer.
Proof. intros [a1 a2] [b1 b2]. unfold Faiss.nearer. simpl. lia. Qed.

#[local] Instance nearer_trans : Transitive Faiss.nearer.
Proof. intros [a1 a2] [b1 b2] [c1 c2]. unfold Faiss.nearer. simpl. lia. Qed.




Lemma scan_elem (index : Faiss.IndexFlatL2) (q : vec) (p : Z * Z) :
  p ∈ Faiss.scan index q
  ↔ ∃ i v, Faiss.xb index !! i = Some v ∧ p = (Faiss.fvec_L2sqr q v, Z.of_nat i).
Proof. unfold Faiss.scan. rewrite elem_of_lookup_imap. naive_solver. Qed.

Lemma scan_labels (index : Faiss.IndexFlatL2) (q : vec) :
  (Faiss.scan index q).*2 = Z.of_nat <$> seq 0 (Faiss.ntotal index).
Proof.
  unfold Faiss.scan, Faiss.ntotal. rewrite fmap_imap.
  rewrite <- (imap_seq_0 (Faiss.xb index) Z.of_nat). by apply imap_ext.
Qed.

Lemma nearest_length (index : Faiss.IndexFlatL2) (q : vec) (k : Z) :
  length (nearest index q k) = (Z.to_nat k `min` Faiss.ntotal index)%nat.
Proof.
  unfold nearest. rewrite length_take.
  rewrite (Permutation_length (merge_sort_Permutation _ _)).
  unfold Faiss.scan. by rewrite length_imap.
Qed.

Lemma nearest_sorted (index : Faiss.IndexFlatL2) (q : vec) (k : Z) :
  StronglySorted Faiss.nearer (nearest index q k).
Proof.
  unfold nearest.
  pose proof (StronglySorted_merge_sort Faiss.nearer (Faiss.scan index q)) as Hs.
  rewrite <- (take_drop (Z.to_nat k)) in Hs.
  by apply StronglySorted_app_1_l in Hs.
Qed.

Lemma nearest_elem (index : Faiss.IndexFlatL2) (q : vec) (k : Z) (p : Z * Z) :
  p ∈ nearest index q k → p ∈ Faiss.scan index q.
Proof.
  unfold nearest. intros Hp%subseteq_take. by rewrite merge_sort_Permutation in Hp.
Qed.



Lemma faiss_search_nearest (index : Faiss.IndexFlatL2) (q : vec) (k : Z) :
  length q = Faiss.d index → 0 < k → k ≤ Z.of_nat (Faiss.ntotal index) →
  Faiss.search index q k = Ok ((nearest index q k).*1, (nearest index q k).*2).
Proof.
  intros Hd Hk Hn. unfold Faiss.search.
  rewrite decide_False by (intros ?; done). rewrite decide_False by lia.
  fold (nearest index q k). rewrite nearest_length.
  replace (Z.to_nat k - Z.to_nat k `min` Faiss.ntotal index)%nat with 0%nat by lia.
  simpl. by rewrite app_nil_r.
Qed.

Lemma faiss_search_inv (index : Faiss.IndexFlatL2) (q : vec) (k : Z) (res : list Z * list Z) :
  Faiss.search index q k = Ok res → length q = Faiss.d index ∧ 0 < k.
Proof.
  unfold Faiss.search. repeat case_decide; try done. intros _. split; [done|lia].
Qed.

Lemma zip_snd_fst {A B} (l : list (A * B)) : zip l.*2 l.*1 = prod_swap <$> l.
Proof. induction l as [|[a b] l IH]; [done|]. csimpl. by rewrite IH. Qed.

(** Labels of stored entries pass the guard of the loop of [search]. *)
Lemma collect_entries (assessments0 : list Assessment) (found : list (Z * Z)) :
  Forall (λ p, ∃ i, p.2 = Z.of_nat i ∧ is_Some (assessments0 !! i)) found →
  ∃ results,
    VectorStore.collect assessments0 (prod_swap <$> found) = Ok results
    ∧ Forall2 (λ p r, r.2 = p.1 ∧ assessments0 !! Z.to_nat p.2 = Some r.1) found results.
Proof.
  induction 1 as [|[dist idx] found (i & Hi & [a Ha]) _ (results & Hc & Hr)]; csimpl.
  - by exists [].
  - simpl in Hi. subst idx.
    apply lookup_lt_Some in Ha as Hlt.
    rewrite decide_True by lia.
    rewrite (index_nat _ _ _ Ha), Hc.
    exists ((a, dist) :: results). split; [done|].
    constructor; [|done]. simpl. by rewrite Nat2Z.id.
Qed.

(** The successful searches of a consistent, non-empty store. *)
Lemma search_nearest (self : VectorStore.FAISSVectorStore) (q : vec) (k : Z) :
  VectorStore.consistent self →
  Faiss.ntotal (VectorStore.index self) ≠ 0%nat →
  length q = Faiss.d (VectorStore.index self) → 0 < k →
  ∃ results,
    VectorStore.search self q k = Ok results
    ∧ Forall2 (λ p r, r.2 = p.1 ∧ VectorStore.assessments self !! Z.to_nat p.2 = Some r.1)
        (nearest (VectorStore.index self) q
           (Z.min k (Z.of_nat (length (VectorStore.assessments self))))) results.
Proof.
  intros Hc Hn Hd Hk. unfold VectorStore.search, VectorStore.consistent in *.
  rewrite decide_False by done.
  rewrite faiss_search_nearest by lia.
  rewrite zip_snd_fst.
  apply collect_entries, Forall_forall. intros [dist idx] Hp.
  apply nearest_elem, scan_elem in Hp as (i & v & Hv & [= -> ->]).
  exists i. split; [done|]. apply lookup_lt_is_Some. apply lookup_lt_Some in Hv.
  unfold Faiss.ntotal in Hc. lia.
Qed.

Lemma search_ok_inv (self : VectorStore.FAISSVectorStore) (q : vec) (k : Z)
    (results : list (Assessment * Z)) :
  VectorStore.search self q k = Ok results →
  Faiss.ntotal (VectorStore.index self) ≠ 0%nat →
  length q = Faiss.d (VectorStore.index self) ∧ 0 < k.
Proof.
  unfold VectorStore.search. intros Hs Hn. rewrite decide_False in Hs by done.
  destruct (Faiss.search _ _ _) as [res|e] eqn:Hf; [|done].
  apply faiss_search_inv in Hf. lia.
Qed.

Lemma Forall2_and_l {A B} (P : A → B → Prop) (Q : A → Prop) (l : list A) (k : list B) :
  Forall2 P l k → Forall Q l → Forall2 (λ a b, P a b ∧ Q a) l k.
Proof. induction 1; inversion 1; constructor; auto. Qed.



(** ** The store: add, save, load *)

(** What a successful [add_assessments] has checked and installed. *)
Lemma add_assessments_ok (self self' : VectorStore.FAISSVectorStore)
    (assessments0 : list Assessment) (embeddings : list vec) :
  VectorStore.add_assessments self assessments0 embeddings = (Ok tt, self') →
  length assessments0 = length embeddings
  ∧ embeddings ≠ []
  ∧ Forall (λ v, length v = VectorStore.dimension self) embeddings
  ∧ VectorStore.assessments self' = assessments0
  ∧ VectorStore.index self'
    = {| Faiss.d := VectorStore.dimension self; Faiss.xb := embeddings |}
  ∧ VectorStore.dimension self' = VectorStore.dimension self.
Proof.
  unfold VectorStore.add_assessments. case_decide as Hlen; [done|].
  destruct embeddings as [|v vs]; [done|].
  unfold Faiss.np_array.
  destruct (forallb _ _) eqn:Hrect; [|done].
  unfold Faiss.add. simpl. case_decide as Hd; [|done].
  intros [= <-]. simpl. repeat split; try done.
  apply Is_true_eq_left, forallb_True in Hrect.
  rewrite Forall_forall in Hrect. rewrite Forall_forall.
  intros u Hu. specialize (Hrect u Hu). apply bool_decide_unpack in Hrect. lia.
Qed.


Lemma load_save (self other : VectorStore.FAISSVectorStore)
    (index_path metadata_path : string) (fs : VectorStore.files) :
  index_path ≠ metadata_path →
  VectorStore.load other index_path metadata_path
    (VectorStore.save self index_path metadata_path fs)
  = (Ok tt,
     {| VectorStore.dimension :=
          if bool_decide (VectorStore.assessments self ≠ [])
             && bool_decide (0 < Faiss.ntotal (VectorStore.index self))%nat
          then Faiss.d (VectorStore.index self) else VectorStore.dimension other;
        VectorStore.index := VectorStore.index self;
        VectorStore.assessments := VectorStore.assessments self;
        VectorStore.embeddings_array := VectorStore.embeddings_array other |}).
Proof.
  intros Hne. unfold VectorStore.load, VectorStore.save, VectorStore.exists_.
  rewrite lookup_insert_eq, lookup_insert_ne, lookup_insert_eq by done.
  rewrite !bool_decide_eq_true_2 by eauto. done.
Qed.

Lemma search_same_contents (self1 self2 : VectorStore.FAISSVectorStore) (q : vec) (k : Z) :
  VectorStore.index self1 = VectorStore.index self2 →
  VectorStore.assessments self1 = VectorStore.assessments self2 →
  VectorStore.search self1 q k = VectorStore.search self2 q k.
Proof. unfold VectorStore.search. by intros -> ->. Qed.

(** C6.  [save] to two distinct paths and then [load] from them, into any
    store, succeeds and gives a store with the same assessments in the
    same order, the same index, and the same answer to every search. *)
Theorem save_load_roundtrip (self other : VectorStore.FAISSVectorStore)
    (index_path metadata_path : string) (fs : VectorStore.files) :
  index_path ≠ metadata_path →
  ∃ loaded,
    VectorStore.load other index_path metadata_path
      (VectorStore.save self index_path metadata_path fs) = (Ok tt, loaded)
    ∧ VectorStore.assessments loaded = VectorStore.assessments self
    ∧ length (VectorStore.assessments loaded) = length (VectorStore.assessments self)
    ∧ VectorStore.index loaded = VectorStore.index self
    ∧ ∀ q k, VectorStore.search loaded q k = VectorStore.search self q k.
Proof.
  intros Hne. eexists. split; [by apply load_save|].
  split; [done|]. split; [done|]. split; [done|].
  intros q k. by apply search_same_contents.
Qed.

(** ** The invariant of the store *)

Lemma load_absent (self : VectorStore.FAISSVectorStore) (index_path metadata_path : string)
    (fs : VectorStore.files) :
  fs !! index_path = None ∨ fs !! metadata_path = None →
  VectorStore.load self index_path metadata_path fs = (Ok tt, self).
Proof.
  intros Habs. unfold VectorStore.load, VectorStore.exists_.
  destruct Habs as [-> | ->].
  - by rewrite (bool_decide_eq_false_2 (is_Some None)) by (by intros [? ?]).
  - rewrite (bool_decide_eq_false_2 (is_Some None)) by (by intros [? ?]).
    by rewrite andb_false_r.
Qed.

(** A [load] that returns either found a file missing and changed
    nothing, or installed the index and the metadata it found, whatever
    their counts. *)
Lemma load_ok (self self' : VectorStore.FAISSVectorStore) (index_path metadata_path : string)
    (fs : VectorStore.files) :
  VectorStore.load self index_path metadata_path fs = (Ok tt, self') →
  ((fs !! index_path = None ∨ fs !! metadata_path = None) ∧ self' = self)
  ∨ (fs !! index_path = Some (VectorStore.IndexFile (VectorStore.index self'))
     ∧ fs !! metadata_path = Some (VectorStore.JsonFile (VectorStore.assessments self'))).
Proof.
  unfold VectorStore.load, VectorStore.exists_.
  destruct (fs !! index_path) as [fi|] eqn:Hi; cycle 1.
  { rewrite (bool_decide_eq_false_2 (is_Some None)) by (by intros [? ?]).
    simpl. intros [= <-]. left. auto. }
  destruct (fs !! metadata_path) as [fm|] eqn:Hm; cycle 1.
  { rewrite (bool_decide_eq_false_2 (is_Some None)) by (by intros [? ?]).
    rewrite andb_false_r. intros [= <-]. left. auto. }
  rewrite !bool_decide_eq_true_2 by eauto. simpl.
  destruct fi as [index'| |]; try done.
  destruct fm as [|doc|]; try done.
  intros [= <-]. right. done.
Qed.

(** An [add_assessments] that fails after the length check has already
    replaced the assessments: with vectors of another dimension than the
    index, the store is left with the new assessments and no vector. *)
Lemma add_wrong_dimension :
  ∃ self',
    VectorStore.add_assessments (VectorStore.init 3) Examples.catalog Examples.vectors
    = (Raise AssertionError, self')
    ∧ Faiss.ntotal (VectorStore.index self') = 0%nat
    ∧ length (VectorStore.assessments self') = 3%nat.
Proof. eexists. split; [vm_compute; reflexivity|]. done. Qed.

(** C7, the part that fails: [load] installs the files it finds without
    comparing their counts.  From the index saved with a store of three
    entries and the metadata saved with an empty store, both written by
    [save], it returns normally and leaves a store of three vectors and
    no assessment. *)
Lemma load_installs_unmatched_pair :
  VectorStore.consistent (VectorStore.init 2)
  ∧ VectorStore.consistent Examples.store
  ∧ ∃ loaded,
      VectorStore.load (VectorStore.init 2) "a.faiss" "b.json" Examples.two_saves
      = (Ok tt, loaded)
      ∧ Faiss.ntotal (VectorStore.index loaded) = 3%nat
      ∧ length (VectorStore.assessments loaded) = 0%nat
      ∧ ¬ VectorStore.consistent loaded.
Proof.
  split; [done|]. split; [done|].
  eexists. split; [vm_compute; reflexivity|].
  split; [done|]. split; [done|]. intros Hc. vm_compute in Hc. discriminate.
Qed.

(** C7, amended.  The empty store is consistent.  [add_assessments] with
    lists of different lengths raises the validation error and leaves the
    store as it was; when it succeeds the store holds exactly the given
    assessments and vectors, of equal number.  [load] changes nothing when
    a file is absent; when it returns after finding both, the store holds
    the index and the metadata found, and is consistent exactly when
    these have equal counts, as have the two files that [save] wrote from
    a consistent store. *)
Theorem store_invariant_amended :
  (∀ dimension, VectorStore.consistent (VectorStore.init dimension))
  ∧ (∀ self assessments0 embeddings,
        length assessments0 ≠ length embeddings →
        VectorStore.add_assessments self assessments0 embeddings
        = (Raise (ValueError "Number of assessments must match number of embeddings"), self))
  ∧ (∀ self self' assessments0 embeddings,
        VectorStore.add_assessments self assessments0 embeddings = (Ok tt, self') →
        length assessments0 = length embeddings
        ∧ VectorStore.assessments self' = assessments0
        ∧ Faiss.xb (VectorStore.index self') = embeddings
        ∧ VectorStore.consistent self')
  ∧ (∀ self index_path metadata_path fs,
        fs !! index_path = None ∨ fs !! metadata_path = None →
        VectorStore.load self index_path metadata_path fs = (Ok tt, self))
  ∧ (∀ self self' index_path metadata_path fs index' doc,
        fs !! index_path = Some (VectorStore.IndexFile index') →
        fs !! metadata_path = Some (VectorStore.JsonFile doc) →
        VectorStore.load self index_path metadata_path fs = (Ok tt, self') →
        VectorStore.index self' = index'
        ∧ VectorStore.assessments self' = doc
        ∧ (VectorStore.consistent self' ↔ Faiss.ntotal index' = length doc))
  ∧ (∀ self other index_path metadata_path fs,
        index_path ≠ metadata_path →
        VectorStore.consistent self →
        VectorStore.consistent
          (VectorStore.load other index_path metadata_path
             (VectorStore.save self index_path metadata_path fs)).2).
Proof.
  split; [done|]. split; [|split; [|split; [|split]]].
  - intros self a e Hlen. unfold VectorStore.add_assessments. by rewrite decide_True.
  - intros self self' a e Hadd.
    apply add_assessments_ok in Hadd as (Hlen & _ & _ & Ha & Hidx & _).
    unfold VectorStore.consistent, Faiss.ntotal. rewrite Hidx, Ha. done.
  - apply load_absent.
  - intros self self' ip mp fs index' doc Hi Hm Hload.
    apply load_ok in Hload as [[[Hn|Hn] _]|[Hi' Hm']]; try congruence.
    rewrite Hi in Hi'. rewrite Hm in Hm'. injection Hi' as ->. injection Hm' as ->.
    done.
  - intros self other ip mp fs Hne Hc. by rewrite load_save.
Qed.

(** * The statements at concrete inputs *)




Lemma save_load_example :
  ∃ loaded,
    VectorStore.load (VectorStore.init 384) "a.faiss" "a.json"
      (VectorStore.save Examples.store "a.faiss" "a.json" ∅) = (Ok tt, loaded)
    ∧ VectorStore.assessments loaded = VectorStore.assessments Examples.store
    ∧ length (VectorStore.assessments loaded)
      = length (VectorStore.assessments Examples.store)
    ∧ VectorStore.index loaded = VectorStore.index Examples.store
    ∧ ∀ q k, VectorStore.search loaded q k = VectorStore.search Examples.store q k.
Proof.
  apply (save_load_roundtrip Examples.store (VectorStore.init 384) "a.faiss" "a.json" ∅).
  discriminate.
Defined.

Lemma save_load_keeps_consistent :
  VectorStore.consistent
    (VectorStore.load (VectorStore.init 384) "a.faiss" "a.json"
       (VectorStore.save Examples.store "a.faiss" "a.json" ∅)).2.
Proof.
  apply (proj2 (proj2 (proj2 (proj2 (proj2 store_invariant_amended))))
           Examples.store (VectorStore.init 384) "a.faiss" "a.json" ∅);
    [discriminate|reflexivity].
Defined.

Lemma rerank_example :
  ∃ prompt,
    Reranker.build_prompt "python developer" Examples.catalog = Ok prompt
    ∧ (Reranker.rerank (Examples.failing "503 unavailable") Reranker.GeminiLLM
         "python developer" Examples.catalog 2 []).1
      = Ok [Examples.java; Examples.python].
Proof.
  eexists. split; [vm_compute; reflexivity|].
  eapply (proj1 (proj2 (proj2 (rerank_fail_open (Examples.failing "503 unavailable")
            Reranker.GeminiLLM "python developer" Examples.catalog 2 []))));
    vm_compute; reflexivity.
Defined.




(** * Further properties *)

(** ** The reranker beyond the failing invocation *)

Lemma mapM_raise_inv {S A B} (f : A → M S B) (l : list A) (s s' : S) (e : exn) :
  mapM f l s = (Raise e, s') → ∃ a s0 s1, a ∈ l ∧ f a s0 = (Raise e, s1).
Proof.
  revert s. induction l as [|a l IH]; intros s; simpl; unfold_eff; [done|].
  destruct (f a s) as [[b|e0] s1] eqn:Hb.
  - destruct (mapM f l s1) as [[bs|e1] s2] eqn:Hbs; [done|].
    intros [= -> ->]. destruct (IH _ Hbs) as (a' & s0 & s3 & Ha' & Hf).
    exists a', s0, s3. split; [by right|done].
  - intros [= -> ->]. exists a, s, s'. split; [by left|done].
Qed.

Lemma mapM_lift_ok {A B} (f : A → result B) (l : list A) :
  Forall (λ a, ∃ b, f a = Ok b) l →
  ∃ bs, mapM (S := unit) (λ a, lift (f a)) l tt = (Ok bs, tt).
Proof.
  induction 1 as [|a l [b Hb] _ [bs IH]]; simpl; unfold_eff; [by eexists|].
  rewrite Hb, IH. by eexists.
Qed.

(** The prompt is built exactly when every candidate has a name; the only
    error of the builder is the [KeyError] of the name. *)
Lemma build_prompt_ok (query : string) (assessments : list Assessment) :
  Forall (λ a : Assessment, is_Some (a !! "name")) assessments →
  ∃ prompt, Reranker.build_prompt query assessments = Ok prompt.
Proof.
  intros Hall. unfold Reranker.build_prompt.
  destruct (mapM_lift_ok Reranker.assessment_line (Reranker.enumerate assessments))
    as [lines ->]; [|by eexists].
  apply Forall_forall. intros [i a] Hia.
  apply elem_of_lookup_imap in Hia as (j & a' & [= -> ->] & Ha%list_elem_of_lookup_2).
  eapply Forall_forall in Hall as [name Hname]; [|exact Ha].
  unfold Reranker.assessment_line, dict_item. rewrite Hname. by eexists.
Qed.

Lemma build_prompt_raise (query : string) (assessments : list Assessment) (e : exn) :
  Reranker.build_prompt query assessments = Raise e →
  e = KeyError "name" ∧ Exists (λ a : Assessment, a !! "name" = None) assessments.
Proof.
  unfold Reranker.build_prompt.
  destruct (mapM _ _ tt) as [[lines|e0] []] eqn:Hm; [done|].
  intros [= ->].
  apply mapM_raise_inv in Hm as ([i a] & s0 & s1 & Hia & Hf).
  apply elem_of_lookup_imap in Hia as (j & a' & [= -> ->] & Ha%list_elem_of_lookup_2).
  unfold Reranker.assessment_line, dict_item in Hf. unfold_eff.
  destruct (a' !! "name") eqn:Hname; [done|].
  injection Hf as <- _. split; [done|]. apply Exists_exists. eauto.
Qed.

Lemma mapM_lift_raise {A B} (f : A → result B) (l : list A) :
  Exists (λ a, ∃ e, f a = Raise e) l →
  ∃ e, mapM (S := unit) (λ a, lift (f a)) l tt = (Raise e, tt).
Proof.
  induction l as [|a l IH]; intros Hex; [by apply Exists_nil in Hex|].
  simpl. unfold_eff. destruct (f a) as [b|e] eqn:Hfa; [|by eexists].
  apply Exists_cons in Hex as [[e He]|Hex]; [congruence|].
  destruct (IH Hex) as [e ->]. by eexists.
Qed.

Lemma build_prompt_nameless (query : string) (assessments : list Assessment) :
  Exists (λ a : Assessment, a !! "name" = None) assessments →
  ∃ e, Reranker.build_prompt query assessments = Raise e.
Proof.
  intros Hex. unfold Reranker.build_prompt.
  destruct (mapM_lift_raise Reranker.assessment_line (Reranker.enumerate assessments))
    as [e ->]; [|by eexists].
  apply Exists_exists in Hex as (a & Ha & Hname).
  apply list_elem_of_lookup in Ha as [i Hi].
  apply Exists_exists. exists (i, a). split.
  - apply elem_of_lookup_imap. eauto.
  - unfold Reranker.assessment_line, dict_item. rewrite Hname. by eexists.
Qed.

(** X1.  [rerank] raises exactly when a candidate has no [name], then the
    [KeyError] of that key, and it has made no request by then. *)
Theorem rerank_raises_iff_nameless (w : world) (provider : Reranker.backend)
    (query : string) (assessments : list Assessment) (top_k : Z) (tr : trace) (e : exn) :
  ((Reranker.rerank w provider query assessments top_k tr).1 = Raise e
   ↔ e = KeyError "name" ∧ Exists (λ a : Assessment, a !! "name" = None) assessments)
  ∧ ((Reranker.rerank w provider query assessments top_k tr).1 = Raise e →
     (Reranker.rerank w provider query assessments top_k tr).2 = tr).
Proof.
  destruct (decide (assessments = [])) as [->|Hne].
  { unfold Reranker.rerank. unfold_eff. simpl. split; [|done].
    split; [done|]. intros [_ H]. by apply Exists_nil in H. }
  destruct (Reranker.build_prompt query assessments) as [prompt|e0] eqn:Hp.
  - rewrite (rerank_prompt_built _ _ _ _ _ _ prompt Hne Hp). simpl.
    assert (∀ r : result (list Assessment),
              r = match llm_answer w provider (length tr) prompt with
                  | Ok text =>
                      match Reranker.pick assessments
                              (Reranker._parse_ranked_order (Reranker.strip text)
                                 (Z.of_nat (length assessments))) with
                      | Ok reranked =>
                          Ok (Py.slice_to
                                (foldl (Reranker.add_unranked
                                          (list_to_set
                                             (Reranker._parse_ranked_order
                                                (Reranker.strip text)
                                                (Z.of_nat (length assessments)))))
                                   reranked (Reranker.enumerate assessments)) top_k)
                      | Raise _ => Ok (Py.slice_to assessments top_k)
                      end
                  | Raise _ => Ok (Py.slice_to assessments top_k)
                  end → r ≠ Raise e) as Hok.
    { intros r ->. destruct (llm_answer _ _ _ _); [|done].
      by destruct (Reranker.pick _ _). }
    split; [split|].
    + intros H. by eapply Hok in H.
    + intros [_ Hex]. apply (build_prompt_nameless query) in Hex as [e1 He1]. congruence.
    + intros H. by eapply Hok in H.
  - apply build_prompt_raise in Hp as Hp'. destruct Hp' as [-> Hex].
    assert (Reranker.rerank w provider query assessments top_k tr
            = (Raise (KeyError "name"), tr)) as ->.
    { unfold Reranker.rerank. destruct assessments; [done|]. rewrite Hp. by unfold_eff. }
    simpl. split; [|done]. split; [by intros [= <-]|by intros [-> _]].
Qed.

Lemma index_nonneg_inv {A} (l : list A) (i : Z) (a : A) :
  0 ≤ i → Py.index l i = Ok a → l !! Z.to_nat i = Some a.
Proof.
  intros Hi. unfold Py.index. cbv zeta. repeat case_decide; try lia; try done.
  by destruct (l !! Z.to_nat i) eqn:Hl; intros [= ->].
Qed.

Lemma pick_inv (assessments : list Assessment) (ranked_indices : list Z)
    (reranked : list Assessment) :
  Reranker.pick assessments ranked_indices = Ok reranked →
  Forall2 (λ i a, assessments !! Z.to_nat (i - 1) = Some a)
    (filter (λ i, 1 ≤ i ≤ Z.of_nat (length assessments)) ranked_indices) reranked.
Proof.
  unfold Reranker.pick.
  destruct (mapM _ _ tt) as [[bs|e] []] eqn:Hm; simpl; [|done]. intros [= ->].
  eapply (mapM_inv _ (λ i a, Py.index assessments (i - 1) = Ok a)) in Hm.
  - eapply Forall2_impl.
    + apply (Forall2_and_l _ (λ i, 1 ≤ i ≤ Z.of_nat (length assessments)) _ _ Hm).
      apply Forall_forall. intros i Hi. by apply list_elem_of_filter in Hi as [Hi _].
    + intros i a [Hidx Hi]. simpl in *. apply index_nonneg_inv; [lia|done].
  - intros i s b s'. unfold_eff. by intros [= -> _].
Qed.

Lemma omap_Some_fmap {A} (l : list A) : omap id (Some <$> l) = l.
Proof. induction l as [|a l IH]; [done|]. csimpl. by rewrite IH. Qed.

(** Reading a list at a permutation of its positions permutes it. *)
Lemma lookup_permutation {A} (l r : list A) (perm : list Z) :
  Forall2 (λ i a, l !! Z.to_nat (i - 1) = Some a) perm r →
  perm ≡ₚ seqZ 1 (Z.of_nat (length l)) →
  r ≡ₚ l.
Proof.
  intros Hr Hperm.
  assert (Some <$> r = (λ i, l !! Z.to_nat (i - 1)) <$> perm) as Hsome.
  { clear Hperm. induction Hr as [|i a perm r Hi _ IH]; [done|]. csimpl.
    by rewrite Hi, IH. }
  assert ((λ i, l !! Z.to_nat (i - 1)) <$> seqZ 1 (Z.of_nat (length l)) = Some <$> l)
    as Hall.
  { apply list_eq. intros j. rewrite !list_lookup_fmap.
    destruct (l !! j) as [a|] eqn:Hj; simpl.
    - rewrite lookup_seqZ_lt by (apply lookup_lt_Some in Hj; lia). simpl.
      replace (Z.to_nat (1 + Z.of_nat j - 1)) with j by lia. by rewrite Hj.
    - rewrite lookup_seqZ_ge; [done|]. apply lookup_ge_None in Hj. lia. }
  rewrite <- (omap_Some_fmap r), <- (omap_Some_fmap l).
  by rewrite Hsome, Hperm, Hall.
Qed.

Lemma add_unranked_all_ranked (ranked_set : gset Z) (assessments : list Assessment)
    (reranked : list Assessment) :
  (∀ i : nat, (i < length assessments)%nat → Z.of_nat i + 1 ∈ ranked_set) →
  foldl (Reranker.add_unranked ranked_set) reranked (Reranker.enumerate assessments)
  = reranked.
Proof.
  intros Hall.
  assert (Forall (λ ia : nat * Assessment, Z.of_nat ia.1 + 1 ∈ ranked_set)
            (Reranker.enumerate assessments)) as Hin.
  { apply Forall_forall. intros [i a] Hia.
    apply elem_of_lookup_imap in Hia as (j & a' & [= -> ->] & Ha). simpl.
    apply Hall. by eapply lookup_lt_Some. }
  induction Hin as [|ia l Hia _ IH]; simpl; [done|].
  unfold Reranker.add_unranked at 2. by rewrite decide_False by (by intros []).
Qed.

Lemma reranker_parse_Permutation (text : string) (n : Z) :
  Reranker._parse_ranked_order text n ≡ₚ seqZ 1 n.
Proof.
  unfold Reranker._parse_ranked_order. rewrite parse_ranked_order_spec.
  apply spec_ranked_order_Permutation.
Qed.

Lemma slice_to_elements {A} (l : list A) (n : Z) (a : A) : a ∈ Py.slice_to l n → a ∈ l.
Proof. unfold Py.slice_to. case_decide; apply subseteq_take. Qed.

Lemma slice_to_all {A} (l : list A) (n : Z) :
  Z.of_nat (length l) ≤ n → Py.slice_to l n = l.
Proof. intros Hn. unfold Py.slice_to. case_decide; [lia|]. apply take_ge. lia. Qed.

(** The list [rerank] cuts to [top_k] on the successful path. *)
Lemma rerank_success_full (assessments : list Assessment) (text : string)
    (reranked : list Assessment) :
  Reranker.pick assessments
    (Reranker._parse_ranked_order text (Z.of_nat (length assessments))) = Ok reranked →
  foldl (Reranker.add_unranked
           (list_to_set (Reranker._parse_ranked_order text (Z.of_nat (length assessments)))))
    reranked (Reranker.enumerate assessments) = reranked
  ∧ Forall2 (λ i a, assessments !! Z.to_nat (i - 1) = Some a)
      (Reranker._parse_ranked_order text (Z.of_nat (length assessments))) reranked
  ∧ reranked ≡ₚ assessments.
Proof.
  intros Hpick.
  pose proof (reranker_parse_Permutation text (Z.of_nat (length assessments))) as Hperm.
  apply pick_inv in Hpick. rewrite filter_all in Hpick.
  2:{ apply Forall_forall. intros i Hi. rewrite Hperm in Hi.
      apply elem_of_seqZ in Hi. lia. }
  split; [|split; [done|by eapply lookup_permutation]].
  apply add_unranked_all_ranked. intros i Hi.
  apply elem_of_list_to_set. rewrite Hperm. apply elem_of_seqZ. lia.
Qed.

(** A list returned by [rerank] is a permutation of the candidates, cut. *)
Lemma rerank_ok_full (w : world) (provider : Reranker.backend)
    (query : string) (assessments : list Assessment) (top_k : Z) (tr : trace)
    (l : list Assessment) :
  (Reranker.rerank w provider query assessments top_k tr).1 = Ok l →
  ∃ full, full ≡ₚ assessments ∧ l = Py.slice_to full top_k.
Proof.
  intros Hl.
  destruct (decide (assessments = [])) as [->|Hne].
  { unfold Reranker.rerank in Hl. unfold_eff. simpl in Hl. injection Hl as <-.
    exists []. split; [done|]. unfold Py.slice_to. case_decide; by rewrite take_nil. }
  destruct (Reranker.build_prompt query assessments) as [prompt|e0] eqn:Hp.
  2:{ unfold Reranker.rerank in Hl. destruct assessments; [done|].
      rewrite Hp in Hl. by unfold_eff. }
  rewrite (rerank_prompt_built _ _ _ _ _ _ prompt Hne Hp) in Hl. simpl in Hl.
  destruct (llm_answer _ _ _ _) as [text|e]; [|injection Hl as <-; eauto].
  destruct (Reranker.pick _ _) as [reranked|e] eqn:Hpick; [|injection Hl as <-; eauto].
  apply rerank_success_full in Hpick as (Hfold & _ & Hperm).
  rewrite Hfold in Hl. injection Hl as <-. eauto.
Qed.

Lemma rerank_ok_sub (w : world) (provider : Reranker.backend)
    (query : string) (assessments : list Assessment) (top_k : Z) (tr : trace)
    (l : list Assessment) :
  (Reranker.rerank w provider query assessments top_k tr).1 = Ok l → l ⊆ assessments.
Proof.
  intros (full & Hperm & ->)%rerank_ok_full a Ha%slice_to_elements.
  by rewrite <- Hperm.
Qed.

(** X2.  Whatever the model answers, a list returned by [rerank] is a
    permutation of the candidates cut to [top_k]: it holds candidates
    only, none more often than the candidate list does, and all of them
    when [top_k] is at least their number. *)
Theorem rerank_keeps_candidates (w : world) (provider : Reranker.backend)
    (query : string) (assessments : list Assessment) (top_k : Z) (tr : trace)
    (l : list Assessment) :
  (Reranker.rerank w provider query assessments top_k tr).1 = Ok l →
  (∃ full, full ≡ₚ assessments ∧ l = Py.slice_to full top_k)
  ∧ (Z.of_nat (length assessments) ≤ top_k → l ≡ₚ assessments).
Proof.
  intros Hl. destruct (rerank_ok_full _ _ _ _ _ _ _ Hl) as (full & Hperm & ->).
  split; [eauto|]. intros Hk. rewrite slice_to_all; [done|].
  by rewrite (Permutation_length Hperm).
Qed.

Lemma rerank_keeps_candidates_example :
  (Reranker.rerank (Examples.steady "3, 1") Reranker.OpenAILLM "python developer"
     Examples.catalog 3 []).1 = Ok [Examples.teamwork; Examples.java; Examples.python]
  ∧ [Examples.teamwork; Examples.java; Examples.python] ≡ₚ Examples.catalog.
Proof.
  assert ((Reranker.rerank (Examples.steady "3, 1") Reranker.OpenAILLM "python developer"
             Examples.catalog 3 []).1
          = Ok [Examples.teamwork; Examples.java; Examples.python]) as H
    by (vm_compute; reflexivity).
  split; [exact H|].
  apply (proj2 (rerank_keeps_candidates _ _ _ _ _ _ _ H)). simpl. lia.
Defined.

Lemma rerank_raises_example :
  (Reranker.rerank (Examples.steady "1") Reranker.GeminiLLM "python developer"
     [Examples.java; Examples.unnamed] 2 []).1 = Raise (KeyError "name").
Proof.
  apply (proj1 (rerank_raises_iff_nameless (Examples.steady "1") Reranker.GeminiLLM
                  "python developer" [Examples.java; Examples.unnamed] 2 []
                  (KeyError "name"))).
  split; [reflexivity|]. apply Exists_cons_tl, Exists_cons_hd. reflexivity.
Defined.

(** ** A well-formed answer *)
















(** ** The requests of a batch *)

Lemma mapM_gemini_requests (w : world) (batch : list string) (tr : trace) :
  ∃ delta,
    (mapM (call_gemini_embed_content w) batch tr).2 = tr ++ delta
    ∧ delta `prefix_of` (GeminiEmbedContent <$> batch)
    ∧ (∀ l, (mapM (call_gemini_embed_content w) batch tr).1 = Ok l →
            delta = GeminiEmbedContent <$> batch).
Proof.
  revert tr. induction batch as [|text batch IH]; intros tr; simpl; unfold_eff.
  - exists []. by rewrite app_nil_r.
  - destruct (call_gemini_embed_content w text tr) as [[v|e] tr1] eqn:Hc;
      unfold call_gemini_embed_content in Hc; injection Hc as Hv <-.
    + destruct (IH (tr ++ [GeminiEmbedContent text])) as (d & Hd & Hpre & Hok).
      destruct (mapM _ batch _) as [[vs|e] tr2]; simpl in *; subst tr2;
        exists (GeminiEmbedContent text :: d); rewrite <- app_assoc;
        (split; [done|]); (split; [by apply prefix_cons|]).
      * intros l _. f_equal. by eapply Hok.
      * done.
    + exists [GeminiEmbedContent text]. simpl. split; [done|].
      split; [|done]. apply prefix_cons, prefix_nil.
Qed.

Lemma provider_batch_requests (w : world) (p : Embeddings.provider) (batch : list string)
    (tr : trace) :
  ∃ delta,
    (Embeddings.provider_batch w p batch tr).2 = tr ++ delta
    ∧ delta `prefix_of` batch_requests p batch
    ∧ (∀ l, (Embeddings.provider_batch w p batch tr).1 = Ok l →
            delta = batch_requests p batch).
Proof.
  destruct p; simpl.
  - exists [OpenAIEmbeddings batch]. by unfold call_openai_embeddings.
  - apply mapM_gemini_requests.
Qed.

Lemma embed_chunk_requests (w : world) (p : Embeddings.provider) (texts : list string)
    (batch_size : Z) (embeddings : list vec) (i : nat) (tr : trace) :
  ∃ delta,
    (Embeddings.embed_chunk w p texts batch_size embeddings i tr).2 = tr ++ delta
    ∧ delta `prefix_of` batch_requests p (Py.slice texts i (i + Z.to_nat batch_size))
    ∧ (∀ l, (Embeddings.embed_chunk w p texts batch_size embeddings i tr).1 = Ok l →
            delta = batch_requests p (Py.slice texts i (i + Z.to_nat batch_size))).
Proof.
  destruct (provider_batch_requests w p (Py.slice texts i (i + Z.to_nat batch_size)) tr)
    as (d & Hd & Hpre & Hok).
  exists d. unfold Embeddings.embed_chunk. unfold_eff.
  destruct (Embeddings.provider_batch _ _ _ _) as [[part|e] tr1]; simpl in *.
  - split; [done|]. split; [done|]. intros l _. by eapply Hok.
  - destruct (Embeddings.any_keyword _ _); simpl; by repeat split.
Qed.

Lemma embed_loop_requests (w : world) (p : Embeddings.provider) (texts : list string)
    (batch_size : Z) (starts : list nat) (embeddings : list vec) (tr : trace) :
  ∃ delta,
    (foldM (Embeddings.embed_chunk w p texts batch_size) embeddings starts tr).2
    = tr ++ delta
    ∧ delta `prefix_of`
        concat ((λ i, batch_requests p (Py.slice texts i (i + Z.to_nat batch_size)))
                  <$> starts)
    ∧ (∀ l, (foldM (Embeddings.embed_chunk w p texts batch_size) embeddings starts tr).1
            = Ok l →
            delta = concat ((λ i, batch_requests p
                                    (Py.slice texts i (i + Z.to_nat batch_size)))
                              <$> starts)).
Proof.
  revert embeddings tr. induction starts as [|i starts IH]; intros acc tr; simpl; unfold_eff.
  - exists []. by rewrite app_nil_r.
  - destruct (embed_chunk_requests w p texts batch_size acc i tr) as (d & Hd & Hpre & Hok).
    destruct (Embeddings.embed_chunk _ _ _ _ _ _ _) as [[acc'|e] tr1]; simpl in *; subst tr1.
    + rewrite (Hok acc' eq_refl).
      destruct (IH acc' (tr ++ batch_requests p (Py.slice texts i (i + Z.to_nat batch_size))))
        as (d' & Hd' & Hpre' & Hok').
      exists (batch_requests p (Py.slice texts i (i + Z.to_nat batch_size)) ++ d').
      rewrite Hd', <- app_assoc. split; [done|]. split; [by apply prefix_app|].
      intros l Hl. f_equal. by eapply Hok'.
    + exists d. split; [done|]. split; [by apply prefix_app_r|done].
Qed.

Lemma concat_batch_requests (p : Embeddings.provider) (texts : list string) (batch_size : Z)
    (starts : list nat) :
  Py.range_step (length texts) batch_size = Ok starts →
  concat ((λ i, batch_requests p (Py.slice texts i (i + Z.to_nat batch_size))) <$> starts)
  = chunk_requests p texts batch_size.
Proof.
  intros Hs. unfold chunk_requests, batches. rewrite Hs. clear Hs.
  destruct p; simpl; induction starts as [|i l IH]; csimpl; try done.
  - by rewrite IH.
  - by rewrite fmap_app, IH.
Qed.

(** X5.  The requests of [embed_batch] are an initial part of the
    requests of its chunks in order (one per chunk for OpenAI, one per
    text for Gemini), and all of them when it succeeds: nothing is
    requested twice and nothing after a failure.  With a negative batch
    size it returns the empty list, and with size 0 the [ValueError] of
    [range], both without a request. *)
Theorem embed_batch_requests (w : world) (p : Embeddings.provider) (texts : list string)
    (batch_size : Z) (tr : trace) :
  (∃ delta,
      (Embeddings.embed_batch w p texts batch_size tr).2 = tr ++ delta
      ∧ delta `prefix_of` chunk_requests p texts batch_size
      ∧ (∀ l, (Embeddings.embed_batch w p texts batch_size tr).1 = Ok l →
              delta = chunk_requests p texts batch_size))
  ∧ (batch_size < 0 → Embeddings.embed_batch w p texts batch_size tr = (Ok [], tr))
  ∧ (batch_size = 0 →
     Embeddings.embed_batch w p texts batch_size tr
     = (Raise (ValueError "range() arg 3 must not be zero"), tr)).
Proof.
  split; [|split].
  - unfold Embeddings.embed_batch. unfold_eff.
    destruct (Py.range_step (length texts) batch_size) as [starts|e] eqn:Hs.
    + rewrite <- (concat_batch_requests p texts batch_size starts Hs).
      apply embed_loop_requests.
    + exists []. simpl. rewrite app_nil_r. split; [done|]. split; [apply prefix_nil|done].
  - intros Hb. unfold Embeddings.embed_batch, Py.range_step. unfold_eff.
    rewrite decide_False, decide_True by lia. done.
  - intros ->. done.
Qed.

Lemma embed_batch_requests_example :
  Embeddings.embed_batch (Examples.steady "") Embeddings.Gemini ["a"; "bb"; "ccc"] (-5) []
  = (Ok [], []).
Proof.
  apply (proj1 (proj2 (embed_batch_requests (Examples.steady "") Embeddings.Gemini
                         ["a"; "bb"; "ccc"] (-5) []))).
  lia.
Defined.

(** ** The quota signal and the orchestrator's check *)

Lemma append_cons (c : ascii) (a b : string) : String c a +:+ b = String c (a +:+ b).
Proof. reflexivity. Qed.

Lemma lower_append (a b : string) : Py.lower (a +:+ b) = Py.lower a +:+ Py.lower b.
Proof. induction a as [|c a IH]; [done|]. rewrite append_cons. simpl. by rewrite IH. Qed.

Lemma prefix_empty (s : string) : String.prefix "" s = true.
Proof. by destruct s. Qed.

Lemma prefix_append (kw a b : string) :
  String.prefix kw a = true → String.prefix kw (a +:+ b) = true.
Proof.
  revert a. induction kw as [|k kw IH]; intros a; [intros _; apply prefix_empty|].
  destruct a as [|c a]; [done|]. rewrite append_cons. simpl.
  destruct (ascii_dec k c); [apply IH|done].
Qed.

Lemma contains_append (kw a b : string) :
  Py.contains kw a = true → Py.contains kw (a +:+ b) = true.
Proof.
  induction a as [|c a IH].
  - simpl. rewrite orb_false_r. intros H. destruct kw; [|done].
    destruct (""%string +:+ b); by rewrite ?prefix_empty.
  - rewrite append_cons. simpl. intros [H|H]%orb_true_iff.
    + apply orb_true_iff. left. by apply (prefix_append kw (String c a) b).
    + apply orb_true_iff. right. by apply IH.
Qed.

Lemma quota_error_classified (p : Embeddings.provider) (e : exn) :
  quota_classified (Embeddings.quota_error p e) = true.
Proof.
  unfold quota_classified, Embeddings.any_keyword, Embeddings.quota_keywords.
  cbn [existsb]. apply orb_true_iff. left.
  destruct p; cbn [Embeddings.quota_error Embeddings.openai_quota_error
                   Embeddings.gemini_quota_error str_exn];
    rewrite lower_append; by apply contains_append.
Qed.

Lemma gemini_check_classified (e : exn) :
  Py.contains "quota" (Py.lower (str_exn e)) || Py.contains "429" (Py.lower (str_exn e))
  = true →
  quota_classified e = true.
Proof.
  unfold quota_classified, Embeddings.any_keyword, Embeddings.quota_keywords.
  cbn [existsb]. intros [H|H]%orb_true_iff; rewrite H; by rewrite ?orb_true_r.
Qed.

(** What [embed] raises at a failure of its attempt. *)
Lemma embed_failure_raised (w : world) (p : Embeddings.provider) (text : string)
    (tr : trace) (e : exn) :
  embed_failure w p (length tr) text e →
  ∃ e', (Embeddings.embed w p text tr).1 = Raise e'
        ∧ (e' = e ∨ e' = Embeddings.quota_error p e)
        ∧ quota_classified e' = quota_classified e.
Proof.
  destruct p; simpl; unfold Embeddings.embed, call_openai_embeddings,
    call_gemini_embed_content; unfold_eff.
  - intros Hfail.
    assert ((match openai_embeddings w (length tr) [text] with
             | Ok a => (Py.index a 0, tr ++ [OpenAIEmbeddings [text]])
             | Raise e0 => (Raise e0, tr ++ [OpenAIEmbeddings [text]])
             end) = (Raise e, tr ++ [OpenAIEmbeddings [text]])) as ->.
    { destruct Hfail as [->|(data & -> & ->)]; done. }
    fold (quota_classified e). destruct (quota_classified e) eqn:Hq; simpl.
    + eexists. split; [done|]. split; [by right|].
      apply (quota_error_classified Embeddings.OpenAI).
    + eexists. split; [done|]. split; [by left|done].
  - intros ->.
    destruct (_ || _) eqn:Hq; simpl.
    + eexists. split; [done|]. split; [by right|].
      rewrite (quota_error_classified Embeddings.Gemini).
      symmetry. by apply gemini_check_classified.
    + eexists. split; [done|]. split; [by left|done].
Qed.

Lemma embed_loop_raise (w : world) (p : Embeddings.provider) (texts : list string)
    (batch_size : Z) (starts : list nat) (embeddings : list vec) (tr : trace) (e' : exn) :
  (foldM (Embeddings.embed_chunk w p texts batch_size) embeddings starts tr).1 = Raise e' →
  ∃ e batch tr0 tr1,
    Embeddings.provider_batch w p batch tr0 = (Raise e, tr1)
    ∧ e' = (if quota_classified e then Embeddings.quota_error p e else e).
Proof.
  revert embeddings tr. induction starts as [|i starts IH]; intros acc tr; simpl; unfold_eff;
    [done|].
  destruct (Embeddings.embed_chunk _ _ _ _ _ _ _) as [[acc'|e0] tr1] eqn:Hc; simpl.
  - apply IH.
  - intros [= ->].
    unfold Embeddings.embed_chunk in Hc. unfold_eff.
    destruct (Embeddings.provider_batch _ _ _ _) as [[part|e] tr2] eqn:Hpb; [done|].
    exists e, (Py.slice texts i (i + Z.to_nat batch_size)), tr, tr2.
    split; [done|]. unfold quota_classified.
    destruct (Embeddings.any_keyword _ _); by injection Hc as <- _.
Qed.

(** X6.  The quota signal of either provider is itself classified by the
    five markers, and what [embed] and [embed_batch] raise is the failure
    they met, or its quota signal, with the classification of the failure
    they met: wrapping never changes what the orchestrator's check
    decides, also not in the Gemini branch of [embed], which wraps on two
    markers only. *)
Theorem generator_failure_classification (w : world) (p : Embeddings.provider) :
  (∀ e, quota_classified (Embeddings.quota_error p e) = true)
  ∧ (∀ text tr e,
        embed_failure w p (length tr) text e →
        ∃ e', (Embeddings.embed w p text tr).1 = Raise e'
              ∧ (e' = e ∨ e' = Embeddings.quota_error p e)
              ∧ quota_classified e' = quota_classified e)
  ∧ (∀ texts batch_size tr e',
        batch_size ≠ 0 →
        (Embeddings.embed_batch w p texts batch_size tr).1 = Raise e' →
        ∃ e batch tr0 tr1,
          Embeddings.provider_batch w p batch tr0 = (Raise e, tr1)
          ∧ (e' = e ∨ e' = Embeddings.quota_error p e)
          ∧ quota_classified e' = quota_classified e).
Proof.
  split; [apply quota_error_classified|]. split; [apply embed_failure_raised|].
  intros texts batch_size tr e' Hb Hraise.
  unfold Embeddings.embed_batch, Py.range_step in Hraise. unfold_eff.
  rewrite decide_False in Hraise by done.
  assert (∃ starts, (foldM (Embeddings.embed_chunk w p texts batch_size) [] starts tr).1
                    = Raise e') as [starts Hloop].
  { case_decide; eauto. }
  apply embed_loop_raise in Hloop as (e & batch & tr0 & tr1 & Hpb & ->).
  exists e, batch, tr0, tr1. split; [done|].
  destruct (quota_classified e) eqn:Hq.
  - split; [by right|]. apply quota_error_classified.
  - split; [by left|done].
Qed.

Lemma generator_failure_example :
  ∃ e', (Embeddings.embed (Examples.failing "too_many_requests") Embeddings.Gemini
           "python developer" []).1 = Raise e'
        ∧ (e' = ProviderError "too_many_requests"
           ∨ e' = Embeddings.quota_error Embeddings.Gemini (ProviderError "too_many_requests"))
        ∧ quota_classified e' = quota_classified (ProviderError "too_many_requests").
Proof.
  apply (proj1 (proj2 (generator_failure_classification
                         (Examples.failing "too_many_requests") Embeddings.Gemini))
           "python developer" [] (ProviderError "too_many_requests")).
  reflexivity.
Defined.

(** X7.  When the attempt of a hosted generator on the query fails, the
    orchestrator replaces the generator exactly when the message of that
    failure carries one of the five markers, whichever the provider; when
    it does not, the failure itself is what [embed_query] raises, after
    the one request. *)
Theorem substitution_iff_marker (w : world) (query : string) (s : Recommend.state)
    (p : Embeddings.provider) (e : exn) :
  Recommend.embedding_generator (Recommend.engine s) = Embeddings.EmbeddingGenerator p →
  embed_failure w p (length (Recommend.requests s)) query e →
  Recommend.embedding_generator (Recommend.engine (Recommend.embed_query w query s).2)
  = (if quota_classified e then next_generator w s else Embeddings.EmbeddingGenerator p)
  ∧ (quota_classified e = false →
     (Recommend.embed_query w query s).1 = Raise e
     ∧ ∃ r, Recommend.requests (Recommend.embed_query w query s).2
            = Recommend.requests s ++ [r]).
Proof.
  intros Hg Hfail. unfold Recommend.embed_query.
  rewrite with_fallback_protocol. unfold fallback_protocol. rewrite Hg. simpl.
  destruct (embed_failure_raised w p query (Recommend.requests s) e Hfail)
    as (e' & He' & Hwrap & Hq).
  destruct (generator_embed_requests w (Embeddings.EmbeddingGenerator p) query
              (Recommend.requests s)) as (d & Hd & Hlen & _). simpl in Hd.
  destruct (Embeddings.embed w p query (Recommend.requests s)) as [r1 tr1] eqn:Hrun.
  simpl in He', Hd. subst r1 tr1. rewrite Hq.
  destruct (quota_classified e) eqn:Hqe.
  - split; [|done]. by destruct (Embeddings.generator_embed _ _ _ _).
  - simpl. split; [done|]. intros _.
    destruct Hwrap as [-> | ->]; [|by rewrite quota_error_classified in Hq].
    split; [done|].
    assert (length d = 1%nat) as Hone.
    { destruct p; unfold Embeddings.embed, call_openai_embeddings,
        call_gemini_embed_content in Hrun; unfold_eff.
      - destruct (openai_embeddings _ _ _); simpl in Hrun;
          [destruct (Py.index _ _)|]; simpl in Hrun;
          try destruct (Embeddings.any_keyword _ _);
          injection Hrun as _ Htr; apply app_inv_head in Htr; by subst d.
      - destruct (gemini_embed_content _ _ _); simpl in Hrun;
          try destruct (_ || _);
          injection Hrun as _ Htr; apply app_inv_head in Htr; by subst d. }
    destruct d as [|r [|]]; try done. eauto.
Qed.

Lemma substitution_example :
  Recommend.embedding_generator
    (Recommend.engine
       (Recommend.embed_query (Examples.failing "rate_limit exceeded") "python developer"
          Examples.state0).2)
  = Embeddings.EmbeddingGenerator Embeddings.Gemini.
Proof.
  apply (proj1 (substitution_iff_marker (Examples.failing "rate_limit exceeded")
                  "python developer" Examples.state0 Embeddings.OpenAI
                  (ProviderError "rate_limit exceeded") eq_refl (or_introl eq_refl))).
Defined.

(** ** More on the search *)

(** A successful search of a consistent store, empty or not, reads its
    results off the nearest labels. *)
Lemma search_found (self : VectorStore.FAISSVectorStore) (q : vec) (k : Z)
    (results : list (Assessment * Z)) :
  VectorStore.consistent self →
  VectorStore.search self q k = Ok results →
  Forall2 (λ p r, r.2 = p.1 ∧ VectorStore.assessments self !! Z.to_nat p.2 = Some r.1)
    (nearest (VectorStore.index self) q
       (Z.min k (Z.of_nat (length (VectorStore.assessments self))))) results.
Proof.
  intros Hc Hs.
  destruct (decide (Faiss.ntotal (VectorStore.index self) = 0%nat)) as [H0|Hn].
  - unfold VectorStore.search in Hs. rewrite decide_True in Hs by done.
    injection Hs as <-.
    assert (nearest (VectorStore.index self) q
              (Z.min k (Z.of_nat (length (VectorStore.assessments self)))) = []) as ->;
      [|constructor].
    apply length_zero_iff_nil. rewrite nearest_length. lia.
  - destruct (search_ok_inv _ _ _ _ Hs Hn) as [Hd Hk].
    destruct (search_nearest self q k Hc Hn Hd Hk) as (results' & Hs' & Hfound).
    congruence.
Qed.

Lemma found_functional (self : VectorStore.FAISSVectorStore) (found : list (Z * Z))
    (r1 r2 : list (Assessment * Z)) :
  Forall2 (λ p r, r.2 = p.1 ∧ VectorStore.assessments self !! Z.to_nat p.2 = Some r.1)
    found r1 →
  Forall2 (λ p r, r.2 = p.1 ∧ VectorStore.assessments self !! Z.to_nat p.2 = Some r.1)
    found r2 →
  r1 = r2.
Proof.
  intros H1. revert r2. induction H1 as [|p [a1 d1] found r1 [Hd1 Ha1] _ IH];
    intros r2 H2; inversion H2 as [|? [a2 d2] ? r2' [Hd2 Ha2] H2']; subst; [done|].
  simpl in *. f_equal; [|by apply IH]. f_equal; congruence.
Qed.



(** X9.  Asking for more only extends the answer: the results for [k]
    are the first results for any larger [k']. *)
Theorem search_prefix (self : VectorStore.FAISSVectorStore) (q : vec) (k k' : Z)
    (results results' : list (Assessment * Z)) :
  VectorStore.consistent self →
  VectorStore.search self q k = Ok results →
  VectorStore.search self q k' = Ok results' →
  k ≤ k' →
  results `prefix_of` results'.
Proof.
  intros Hc Hs Hs' Hk.
  pose proof (search_found self q k results Hc Hs) as Hf.
  pose proof (search_found self q k' results' Hc Hs') as Hf'.
  unfold nearest in *.
  set (n := Z.of_nat (length (VectorStore.assessments self))) in *.
  apply (Forall2_take _ _ _ (Z.to_nat (Z.min k n))) in Hf'.
  rewrite take_take in Hf'.
  replace (Z.to_nat (Z.min k n) `min` Z.to_nat (Z.min k' n))%nat
    with (Z.to_nat (Z.min k n)) in Hf' by lia.
  rewrite (found_functional self _ _ _ Hf Hf'). apply prefix_take.
Qed.

Lemma search_prefix_example :
  [(Examples.java, 0)] `prefix_of` [(Examples.java, 0); (Examples.teamwork, 0)].
Proof.
  apply (search_prefix Examples.store [1; 0] 1 2); [reflexivity|reflexivity|reflexivity|lia].
Defined.

(** X10.  A search for at least as many results as there are entries
    returns every assessment of the store, each once. *)
Theorem search_all (self : VectorStore.FAISSVectorStore) (q : vec) (k : Z)
    (results : list (Assessment * Z)) :
  VectorStore.consistent self →
  VectorStore.search self q k = Ok results →
  Z.of_nat (length (VectorStore.assessments self)) ≤ k →
  results.*1 ≡ₚ VectorStore.assessments self.
Proof.
  intros Hc Hs Hk. pose proof (search_found self q k results Hc Hs) as Hfound.
  unfold nearest in Hfound. unfold VectorStore.consistent in Hc.
  rewrite take_ge in Hfound.
  2:{ rewrite (Permutation_length (merge_sort_Permutation _ _)).
      unfold Faiss.scan. rewrite length_imap. fold (Faiss.ntotal (VectorStore.index self)).
      lia. }
  set (sorted := merge_sort Faiss.nearer (Faiss.scan (VectorStore.index self) q)) in *.
  apply (lookup_permutation _ _ ((λ p : Z * Z, p.2 + 1) <$> sorted)).
  - apply Forall2_fmap_l, Forall2_fmap_r.
    eapply Forall2_impl; [exact Hfound|]. intros p r [_ Ha]. simpl.
    by replace (p.2 + 1 - 1) with p.2 by lia.
  - unfold sorted. rewrite (merge_sort_Permutation Faiss.nearer).
    assert ((λ p : Z * Z, p.2 + 1) <$> Faiss.scan (VectorStore.index self) q
            = (λ z, z + 1) <$> (Faiss.scan (VectorStore.index self) q).*2) as ->
      by (by rewrite <- list_fmap_compose).
    rewrite scan_labels, Hc.
    unfold seqZ. rewrite Nat2Z.id, <- list_fmap_compose. done.
Qed.

Lemma search_all_example :
  [Examples.java; Examples.teamwork; Examples.python] ≡ₚ Examples.catalog.
Proof.
  apply (search_all Examples.store [1; 0] 10
           [(Examples.java, 0); (Examples.teamwork, 0); (Examples.python, 2)]);
    [reflexivity|reflexivity|simpl; lia].
Defined.

(** ** Failures of add and load *)

Lemma forallb_false_exists {A} (f : A → bool) (l : list A) :
  forallb f l = false → ∃ x, x ∈ l ∧ f x = false.
Proof.
  induction l as [|a l IH]; simpl; [done|].
  destruct (f a) eqn:Ha; simpl.
  - intros (x & Hx & Hf)%IH. exists x. split; [by right|done].
  - intros _. exists a. split; [by left|done].
Qed.

(** X11.  A failing [add_assessments] is not undone.  On a length
    mismatch nothing has changed; otherwise the assessments are already
    replaced and the new vectors are not stored: with no vector at all or
    with vectors of another dimension than the store the index is left
    empty, so that every later search returns the empty list; with rows
    of unequal lengths the old index stays. *)
Theorem add_failure_modes (self self' : VectorStore.FAISSVectorStore)
    (assessments0 : list Assessment) (embeddings : list vec) (err : exn) :
  VectorStore.add_assessments self assessments0 embeddings = (Raise err, self') →
  (length assessments0 ≠ length embeddings ∧ self' = self)
  ∨ (length assessments0 = length embeddings
     ∧ VectorStore.assessments self' = assessments0
     ∧ ((VectorStore.index self' = Faiss.new_index (VectorStore.dimension self)
         ∧ (embeddings = []
            ∨ ∃ m, m ≠ VectorStore.dimension self ∧ Forall (λ v, length v = m) embeddings)
         ∧ ∀ q k, VectorStore.search self' q k = Ok [])
        ∨ (VectorStore.index self' = VectorStore.index self
           ∧ ∃ u v, u ∈ embeddings ∧ v ∈ embeddings ∧ length u ≠ length v))).
Proof.
  unfold VectorStore.add_assessments. case_decide as Hlen.
  { intros [= _ <-]. by left. }
  intros Hadd. right. split; [done|].
  destruct embeddings as [|v vs].
  { simpl in Hadd. injection Hadd as _ <-. simpl. split; [done|]. left.
    split; [done|]. split; [by left|]. intros q k. unfold VectorStore.search.
    by rewrite decide_True. }
  unfold Faiss.np_array in Hadd.
  destruct (forallb _ _) eqn:Hrect.
  - unfold Faiss.add in Hadd. simpl in Hadd. case_decide as Hd; [done|].
    injection Hadd as _ <-. simpl. split; [done|]. left. split; [done|]. split.
    + right. exists (length v). split; [done|].
      apply Is_true_eq_left, forallb_True in Hrect.
      eapply Forall_impl; [exact Hrect|]. intros u Hu. by apply bool_decide_unpack in Hu.
    + intros q k. unfold VectorStore.search. by rewrite decide_True.
  - injection Hadd as _ <-. simpl. split; [done|]. right. split; [done|].
    apply forallb_false_exists in Hrect as (u & Hu & Hne).
    exists u, v. split; [done|]. split; [by left|].
    intros Heq. by rewrite bool_decide_eq_true_2 in Hne.
Qed.

Lemma add_failure_example :
  (length Examples.catalog ≠ length Examples.vectors
   ∧ (VectorStore.add_assessments (VectorStore.init 3) Examples.catalog Examples.vectors).2
     = VectorStore.init 3)
  ∨ (length Examples.catalog = length Examples.vectors
     ∧ VectorStore.assessments
         (VectorStore.add_assessments (VectorStore.init 3) Examples.catalog
            Examples.vectors).2 = Examples.catalog
     ∧ ((VectorStore.index
           (VectorStore.add_assessments (VectorStore.init 3) Examples.catalog
              Examples.vectors).2 = Faiss.new_index 3
         ∧ (Examples.vectors = []
            ∨ ∃ m, m ≠ 3%nat ∧ Forall (λ v, length v = m) Examples.vectors)
         ∧ ∀ q k, VectorStore.search
                    (VectorStore.add_assessments (VectorStore.init 3) Examples.catalog
                       Examples.vectors).2 q k = Ok [])
        ∨ (VectorStore.index
             (VectorStore.add_assessments (VectorStore.init 3) Examples.catalog
                Examples.vectors).2 = VectorStore.index (VectorStore.init 3)
           ∧ ∃ u v, u ∈ Examples.vectors ∧ v ∈ Examples.vectors ∧ length u ≠ length v))).
Proof.
  apply (add_failure_modes (VectorStore.init 3) _ Examples.catalog Examples.vectors
           AssertionError).
  reflexivity.
Defined.

(** X12.  A failing [load] found both files.  When the index file is not
    an index nothing has changed; when it is and the metadata cannot be
    read, the index is already replaced while the assessments are the old
    ones. *)
Theorem load_failure_modes (self self' : VectorStore.FAISSVectorStore)
    (index_path metadata_path : string) (fs : VectorStore.files) (err : exn) :
  VectorStore.load self index_path metadata_path fs = (Raise err, self') →
  is_Some (fs !! index_path) ∧ is_Some (fs !! metadata_path)
  ∧ (((∀ index', fs !! index_path ≠ Some (VectorStore.IndexFile index')) ∧ self' = self)
     ∨ (fs !! index_path = Some (VectorStore.IndexFile (VectorStore.index self'))
        ∧ (∀ doc, fs !! metadata_path ≠ Some (VectorStore.JsonFile doc))
        ∧ VectorStore.assessments self' = VectorStore.assessments self
        ∧ VectorStore.dimension self' = VectorStore.dimension self)).
Proof.
  unfold VectorStore.load, VectorStore.exists_.
  destruct (fs !! index_path) as [fi|] eqn:Hi; cycle 1.
  { by rewrite (bool_decide_eq_false_2 (is_Some None)) by (by intros [? ?]). }
  destruct (fs !! metadata_path) as [fm|] eqn:Hm; cycle 1.
  { rewrite (bool_decide_eq_false_2 (is_Some None)) by (by intros [? ?]).
    by rewrite andb_false_r. }
  rewrite !bool_decide_eq_true_2 by eauto. simpl.
  intros Hload. split; [eauto|]. split; [eauto|].
  destruct fi as [index'| |]; [|injection Hload as _ <-; left; by split..].
  destruct fm as [|doc|]; try done; injection Hload as _ <-; right; by repeat split.
Qed.

Lemma load_failure_example :
  is_Some (Examples.two_saves !! "a.json") ∧ is_Some (Examples.two_saves !! "b.json")
  ∧ (((∀ index', Examples.two_saves !! "a.json" ≠ Some (VectorStore.IndexFile index'))
      ∧ (VectorStore.load Examples.store "a.json" "b.json" Examples.two_saves).2
        = Examples.store)
     ∨ (Examples.two_saves !! "a.json"
        = Some (VectorStore.IndexFile
                  (VectorStore.index
                     (VectorStore.load Examples.store "a.json" "b.json"
                        Examples.two_saves).2))
        ∧ (∀ doc, Examples.two_saves !! "b.json" ≠ Some (VectorStore.JsonFile doc))
        ∧ VectorStore.assessments
            (VectorStore.load Examples.store "a.json" "b.json" Examples.two_saves).2
          = VectorStore.assessments Examples.store
        ∧ VectorStore.dimension
            (VectorStore.load Examples.store "a.json" "b.json" Examples.two_saves).2
          = VectorStore.dimension Examples.store)).
Proof.
  apply (load_failure_modes Examples.store _ "a.json" "b.json" Examples.two_saves
           (RuntimeError "Error in faiss::read_index")).
  vm_compute. reflexivity.
Defined.

(** ** Startup *)

Lemma try_load_persisted (s : Recommend.state) (index' : Faiss.IndexFlatL2)
    (doc : list Assessment) :
  persisted s index' doc →
  ∃ vs, Recommend.try_load s = (Ok true, with_store s vs)
        ∧ VectorStore.index vs = index' ∧ VectorStore.assessments vs = doc.
Proof.
  intros [Hi Hm]. unfold Recommend.try_load. unfold_state. simpl.
  unfold VectorStore.exists_. rewrite !bool_decide_eq_true_2 by eauto. simpl.
  unfold VectorStore.load, VectorStore.exists_.
  rewrite !bool_decide_eq_true_2 by eauto. simpl. rewrite Hi, Hm. simpl.
  eexists. split; [reflexivity|]. done.
Qed.

Lemma try_load_not_persisted (s : Recommend.state) :
  (∀ index' doc, ¬ persisted s index' doc) →
  ∃ vs, Recommend.try_load s = (Ok false, with_store s vs).
Proof.
  intros Hnot. unfold Recommend.try_load. unfold_state. simpl.
  destruct (VectorStore.exists_ _ _ && VectorStore.exists_ _ _) eqn:Hex;
    [|by eexists].
  destruct (VectorStore.load _ _ _ _) as [[[]|e] vs] eqn:Hload; simpl; [|by eexists].
  exfalso. apply load_ok in Hload as [[Habs _]|[Hi Hm]].
  - apply andb_true_iff in Hex as [H1%bool_decide_eq_true H2%bool_decide_eq_true].
    destruct Habs as [Habs|Habs]; rewrite Habs in *; by destruct H1, H2.
  - by eapply Hnot.
Qed.

Lemma load_or_build_persisted (w : world) (s : Recommend.state)
    (index' : Faiss.IndexFlatL2) (doc : list Assessment) :
  persisted s index' doc →
  ∃ vs, Recommend._load_or_build_index w s = (Ok tt, with_store s vs)
        ∧ VectorStore.index vs = index' ∧ VectorStore.assessments vs = doc.
Proof.
  intros Hp. destruct (try_load_persisted s index' doc Hp) as (vs & Hload & Hi & Ha).
  exists vs. unfold Recommend._load_or_build_index. unfold_eff. by rewrite Hload.
Qed.

(** X13.  When the two files of the engine hold an index and a metadata
    document, startup installs them and does nothing else: no request,
    no file written, the generator kept, the catalog not read. *)
Theorem startup_reloads (w : world) (s : Recommend.state) (index' : Faiss.IndexFlatL2)
    (doc : list Assessment) :
  persisted s index' doc →
  ∃ vs, Recommend._load_or_build_index w s = (Ok tt, with_store s vs)
        ∧ VectorStore.index vs = index' ∧ VectorStore.assessments vs = doc.
Proof. apply load_or_build_persisted. Qed.

Lemma mapM_lift_run {S A B} (f : A → result B) (l : list A) (s : S) :
  mapM (λ a, lift (f a)) l s = ((mapM (S := unit) (λ a, lift (f a)) l tt).1, s).
Proof.
  induction l as [|a l IH]; simpl; unfold_eff; [done|].
  destruct (f a); [|done]. rewrite IH.
  by destruct (mapM _ l tt) as [[bs|e] []].
Qed.

Lemma catalog_texts_raise (doc : list Assessment) (e : exn) :
  (mapM (S := unit) (λ a, lift (Recommend.catalog_text a)) doc tt).1 = Raise e →
  e = KeyError "name".
Proof.
  destruct (mapM _ doc tt) as [r []] eqn:Hm. simpl. intros ->.
  apply mapM_raise_inv in Hm as (a & s0 & s1 & _ & Hf).
  unfold Recommend.catalog_text, dict_item in Hf. unfold_eff.
  destruct (a !! "name"); [done|]. by injection Hf as <- _.
Qed.

Lemma catalog_texts_nameless (doc : list Assessment) :
  Exists (λ a : Assessment, a !! "name" = None) doc →
  (mapM (S := unit) (λ a, lift (Recommend.catalog_text a)) doc tt).1
  = Raise (KeyError "name").
Proof.
  intros Hex.
  destruct (mapM_lift_raise Recommend.catalog_text doc) as [e He].
  - eapply Exists_impl; [exact Hex|]. intros a Ha.
    unfold Recommend.catalog_text, dict_item. rewrite Ha. by eexists.
  - pose proof (catalog_texts_raise doc e) as Hk. rewrite He in *. simpl in *.
    by rewrite Hk.
Qed.

(** The fallback protocol touches the generator and the requests only. *)
Lemma fallback_protocol_frame {A} (w : world) (op : Embeddings.generator → M trace A)
    (s : Recommend.state) :
  ∃ g tr,
    (fallback_protocol w op s).2
    = {| Recommend.engine := Recommend.set_generator g (Recommend.engine s);
         Recommend.fs := Recommend.fs s; Recommend.requests := tr |}.
Proof.
  unfold fallback_protocol, substituted, with_requests.
  destruct (op _ _) as [[a|e] tr1].
  - exists (Recommend.embedding_generator (Recommend.engine s)), tr1.
    simpl. by destruct s as [[] ? ?].
  - destruct (quota_classified e).
    + destruct (op _ tr1) as [r2 tr2]. by eexists _, _.
    + exists (Recommend.embedding_generator (Recommend.engine s)), tr1.
      simpl. by destruct s as [[] ? ?].
Qed.

(** The part of [_load_or_build_index] after a [try_load] that did not load. *)
Lemma build_run (w : world) (s s0 : Recommend.state) :
  Recommend.try_load s = (Ok false, s0) →
  Recommend._load_or_build_index w s
  = (let self := Recommend.engine s0 in
     match Recommend.fs s0 !! Recommend.catalog_path self with
     | None =>
         (Raise (FileNotFoundError ("Catalog file not found: " +:+ Recommend.catalog_path self)),
          s0)
     | Some (VectorStore.JsonFile doc) =>
         if bool_decide (doc = []) then (Raise (ValueError "Catalog is empty"), s0)
         else
           match (mapM (S := unit) (λ a, lift (Recommend.catalog_text a)) doc tt).1 with
           | Raise e => (Raise e, s0)
           | Ok texts =>
               match Recommend.embed_catalog w texts s0 with
               | (Raise e, s1) => (Raise e, s1)
               | (Ok embeddings, s1) =>
                   match Py.index embeddings 0 with
                   | Raise e => (Raise e, s1)
                   | Ok first =>
                       match VectorStore.add_assessments
                               (VectorStore.init (length first)) doc embeddings with
                       | (Raise e, vs) => (Raise e, with_store s1 vs)
                       | (Ok _, vs) =>
                           (Ok tt,
                            {| Recommend.engine := Recommend.set_store vs (Recommend.engine s1);
                               Recommend.fs :=
                                 VectorStore.save vs (Recommend.index_path self)
                                   (Recommend.metadata_path self) (Recommend.fs s1);
                               Recommend.requests := Recommend.requests s1 |})
                       end
                   end
               end
           end
     | Some _ => (Raise (ValueError "JSONDecodeError"), s0)
     end).
Proof.
  intros Hload. unfold Recommend._load_or_build_index. unfold_eff. rewrite Hload.
  cbv zeta. unfold VectorStore.exists_, Recommend.read_catalog.
  destruct (Recommend.fs s0 !! Recommend.catalog_path (Recommend.engine s0))
    as [[idx|doc|]|] eqn:Hcat; simpl;
    rewrite ?(bool_decide_eq_true_2 (is_Some (Some _))) by eauto;
    rewrite ?(bool_decide_eq_false_2 (is_Some None)) by (by intros [? ?]); simpl;
    try done.
  destruct (bool_decide (doc = [])); [done|].
  pose proof (mapM_lift_run Recommend.catalog_text doc s0) as Hrun.
  unfold Eff.lift in Hrun. rewrite Hrun. clear Hrun.
  destruct (mapM _ doc tt).1 as [texts|e]; [|done].
  destruct (Recommend.embed_catalog w texts s0) as [[embeddings|e] s1]; [|done].
  destruct (Py.index embeddings 0) as [first|e]; [|done].
  unfold_state. simpl.
  destruct (VectorStore.add_assessments _ _ _) as [[[]|e] vs]; simpl; [|done].
  done.
Qed.

(** X14.  Without a loadable pair of files and without a usable catalog,
    startup fails before any request and writes nothing: with the
    [FileNotFoundError] when the catalog file is absent, the [ValueError]
    of the empty catalog when it holds no entry, and the [KeyError] of
    the name when an entry has none. *)
Theorem startup_fails_early (w : world) (s : Recommend.state) :
  (∀ index' doc, ¬ persisted s index' doc) →
  ∃ vs,
    (Recommend.fs s !! Recommend.catalog_path (Recommend.engine s) = None →
     Recommend._load_or_build_index w s
     = (Raise (FileNotFoundError
                 ("Catalog file not found: " +:+ Recommend.catalog_path (Recommend.engine s))),
        with_store s vs))
    ∧ (Recommend.fs s !! Recommend.catalog_path (Recommend.engine s)
       = Some (VectorStore.JsonFile []) →
       Recommend._load_or_build_index w s
       = (Raise (ValueError "Catalog is empty"), with_store s vs))
    ∧ (∀ doc,
         Recommend.fs s !! Recommend.catalog_path (Recommend.engine s)
         = Some (VectorStore.JsonFile doc) →
         Exists (λ a : Assessment, a !! "name" = None) doc →
         Recommend._load_or_build_index w s = (Raise (KeyError "name"), with_store s vs)).
Proof.
  intros Hnot. destruct (try_load_not_persisted s Hnot) as [vs Hload].
  exists vs. rewrite (build_run w s _ Hload). simpl.
  split; [|split].
  - by intros ->.
  - by intros ->.
  - intros doc -> Hex. rewrite bool_decide_eq_false_2.
    + by rewrite catalog_texts_nameless.
    + intros ->. by apply Exists_nil in Hex.
Qed.

Lemma startup_fails_example :
  ∃ vs, Recommend._load_or_build_index (Examples.steady "") Examples.state0
        = (Raise (FileNotFoundError "Catalog file not found: catalog.json"),
           with_store Examples.state0 vs).
Proof.
  destruct (startup_fails_early (Examples.steady "") Examples.state0) as (vs & H & _).
  - intros idx doc [Hi _]. discriminate Hi.
  - exists vs. apply H. reflexivity.
Defined.






Lemma startup_reloads_example :
  ∃ vs,
    Recommend._load_or_build_index (Examples.failing "offline")
      {| Recommend.engine := Examples.engine0; Recommend.fs := Examples.two_saves;
         Recommend.requests := [] |}
    = (Ok tt, with_store {| Recommend.engine := Examples.engine0;
                            Recommend.fs := Examples.two_saves;
                            Recommend.requests := [] |} vs)
    ∧ VectorStore.index vs = VectorStore.index Examples.store
    ∧ VectorStore.assessments vs = Examples.catalog.
Proof.
  apply (startup_reloads (Examples.failing "offline")
           {| Recommend.engine := Examples.engine0; Recommend.fs := Examples.two_saves;
              Recommend.requests := [] |}
           (VectorStore.index Examples.store) Examples.catalog).
  split; vm_compute; reflexivity.
Defined.

(** ** What recommend returns *)

Lemma index_elem {A} (l : list A) (i : Z) (a : A) : Py.index l i = Ok a → a ∈ l.
Proof.
  unfold Py.index. cbv zeta. case_decide; [done|].
  destruct (l !! _) eqn:Hl; [|done]. intros [= <-]. by eapply list_elem_of_lookup_2.
Qed.

Lemma collect_elements (assessments0 : list Assessment) (hits : list (Z * Z))
    (results : list (Assessment * Z)) :
  VectorStore.collect assessments0 hits = Ok results →
  Forall (λ r, r.1 ∈ assessments0) results ∧ (length results ≤ length hits)%nat.
Proof.
  revert results. induction hits as [|[idx dist] hits IH]; intros results; simpl.
  - by intros [= <-].
  - case_decide.
    + destruct (Py.index assessments0 idx) as [a|e] eqn:Ha; [|done].
      destruct (VectorStore.collect assessments0 hits) as [rs|e]; [|done].
      intros [= <-]. destruct (IH rs eq_refl) as [Hin Hlen].
      split; [|simpl; lia]. constructor; [|done]. simpl. by eapply index_elem.
    + intros Hc. destruct (IH _ Hc). split; [done|lia].
Qed.

(** The results of a search, in any store: stored assessments, and no
    more than asked for. *)
Lemma search_elements (self : VectorStore.FAISSVectorStore) (q : vec) (k : Z)
    (results : list (Assessment * Z)) :
  VectorStore.search self q k = Ok results →
  Forall (λ r, r.1 ∈ VectorStore.assessments self) results
  ∧ (length results ≤ Z.to_nat k)%nat.
Proof.
  unfold VectorStore.search. case_decide.
  { intros [= <-]. split; [constructor|simpl; lia]. }
  destruct (Faiss.search _ _ _) as [[distances indices]|e] eqn:Hf; [|done].
  intros Hc. apply collect_elements in Hc as [Hin Hlen]. split; [done|].
  unfold Faiss.search in Hf. repeat case_decide; try done. injection Hf as <- <-.
  rewrite length_zip, !length_fmap, length_app, length_replicate, length_take in Hlen.
  lia.
Qed.

Lemma slice_to_length {A} (l : list A) (n : Z) :
  0 ≤ n → (length (Py.slice_to l n) ≤ Z.to_nat n)%nat.
Proof. intros Hn. unfold Py.slice_to. case_decide; [lia|]. rewrite length_take. lia. Qed.

(** A successful [recommend] step by step. *)
Lemma recommend_ok_inv (w : world) (query : string) (top_k : Z) (s s' : Recommend.state)
    (recs : list Recommend.recommendation) :
  Recommend.recommend w query top_k s = (Ok recs, s') →
  ∃ q s1 results l,
    Recommend.embed_query w query s = (Ok q, s1)
    ∧ VectorStore.search (Recommend.vector_store (Recommend.engine s1)) q
        (Recommend.search_k (Recommend.engine s1) top_k) = Ok results
    ∧ (Recommend.maybe_rerank w (Recommend.engine s1) query results.*1 top_k
         (Recommend.requests s1)).1 = Ok l
    ∧ recs = Recommend.format <$> Py.slice_to l top_k
    ∧ Recommend.vector_store (Recommend.engine s1)
      = Recommend.vector_store (Recommend.engine s)
    ∧ Recommend.vector_store (Recommend.engine s')
      = Recommend.vector_store (Recommend.engine s)
    ∧ Recommend.fs s' = Recommend.fs s.
Proof.
  unfold Recommend.recommend. unfold_state.
  destruct (Recommend.embed_query w query s) as [[q|e] s1] eqn:Hq; [|done].
  destruct (VectorStore.search _ _ _) as [results|e] eqn:Hs; [|done].
  destruct (Recommend.maybe_rerank _ _ _ _ _ _) as [[l|e] tr] eqn:Hr; [|done].
  intros [= <- <-]. exists q, s1, results, l. simpl.
  unfold Recommend.embed_query in Hq. rewrite with_fallback_protocol in Hq.
  destruct (fallback_protocol_frame w (λ g, Embeddings.generator_embed w g query) s)
    as (g & tr' & Hframe).
  rewrite Hq in Hframe. simpl in Hframe. rewrite Hr. subst s1. simpl in *.
  by repeat split.
Qed.

(** X17.  A successful [recommend] returns at most [top_k]
    recommendations, each the view of an assessment of the store, and
    leaves the store and the files as they were. *)
Theorem recommend_from_store (w : world) (query : string) (top_k : Z)
    (s s' : Recommend.state) (recs : list Recommend.recommendation) :
  Recommend.recommend w query top_k s = (Ok recs, s') →
  (length recs ≤ Z.to_nat top_k)%nat
  ∧ Forall (λ r, ∃ a, a ∈ VectorStore.assessments (Recommend.vector_store (Recommend.engine s))
                      ∧ r = Recommend.format a) recs
  ∧ Recommend.vector_store (Recommend.engine s')
    = Recommend.vector_store (Recommend.engine s)
  ∧ Recommend.fs s' = Recommend.fs s.
Proof.
  intros Hrun.
  apply recommend_ok_inv in Hrun
    as (q & s1 & results & l & _ & Hs & Hr & -> & Hstore & Hstore' & Hfs).
  rewrite Hstore in Hs. apply search_elements in Hs as [Hin Hlen].
  assert (l ⊆ results.*1 ∧ (top_k < 0 → l = [])) as [Hsub Hneg].
  { unfold Recommend.maybe_rerank in Hr.
    assert (top_k < 0 → results = []) as Hempty.
    { intros Hk. apply length_zero_iff_nil. unfold Recommend.search_k in Hlen.
      destruct (Recommend.reranker _); lia. }
    destruct (Recommend.reranker (Recommend.engine s1)) as [provider|].
    - case_decide as Hmany.
      + apply rerank_ok_sub in Hr. split; [done|].
        intros Hk. rewrite (Hempty Hk) in Hmany. simpl in Hmany. lia.
      + injection Hr as <-. split; [done|]. intros Hk. by rewrite (Hempty Hk).
    - injection Hr as <-. split; [done|]. intros Hk. by rewrite (Hempty Hk). }
  split; [|split; [|done]].
  - rewrite length_fmap. destruct (decide (top_k < 0)) as [Hk|Hk].
    + rewrite (Hneg Hk). unfold Py.slice_to. case_decide; rewrite take_nil; simpl; lia.
    + apply slice_to_length. lia.
  - apply Forall_fmap, Forall_forall. intros a Ha%slice_to_elements%Hsub.
    apply list_elem_of_fmap in Ha as (r & -> & Hr').
    exists r.1. split; [|done]. by eapply Forall_forall in Hin.
Qed.

Lemma recommend_from_store_example :
  Recommend.recommend (Examples.steady "") "python developer" 2 Examples.state0
  = (Ok (Recommend.format <$> [Examples.java; Examples.teamwork]),
     with_requests Examples.state0 [OpenAIEmbeddings ["python developer"]])
  ∧ (length (Recommend.format <$> [Examples.java; Examples.teamwork]) ≤ Z.to_nat 2)%nat.
Proof.
  assert (Recommend.recommend (Examples.steady "") "python developer" 2 Examples.state0
          = (Ok (Recommend.format <$> [Examples.java; Examples.teamwork]),
             with_requests Examples.state0 [OpenAIEmbeddings ["python developer"]])) as H
    by reflexivity.
  split; [exact H|].
  exact (proj1 (recommend_from_store _ _ _ _ _ _ H)).
Defined.

Lemma found_distances (self : VectorStore.FAISSVectorStore) (found : list (Z * Z))
    (results : list (Assessment * Z)) :
  Forall2 (λ p r, r.2 = p.1 ∧ VectorStore.assessments self !! Z.to_nat p.2 = Some r.1)
    found results →
  results.*2 = found.*1.
Proof. induction 1 as [|p r ps rs [Hr _] _ IH]; [done|]. csimpl. by rewrite Hr, IH. Qed.

(** X18.  Without a reranker, on a store with as many vectors as
    assessments, a query embedded in the dimension of the index and a
    positive [top_k] give the views of the [min top_k n] nearest
    assessments, in the order of the search, nearest first. *)
Theorem recommend_nearest_without_reranker (w : world) (query : string) (top_k : Z)
    (s s1 : Recommend.state) (q : vec) :
  Recommend.embed_query w query s = (Ok q, s1) →
  Recommend.reranker (Recommend.engine s) = None →
  VectorStore.consistent (Recommend.vector_store (Recommend.engine s)) →
  0 < top_k →
  length q = Faiss.d (VectorStore.index (Recommend.vector_store (Recommend.engine s))) →
  ∃ results,
    VectorStore.search (Recommend.vector_store (Recommend.engine s)) q top_k = Ok results
    ∧ Recommend.recommend w query top_k s = (Ok (Recommend.format <$> results.*1), s1)
    ∧ length results
      = Z.to_nat (Z.min top_k
                    (Z.of_nat (length (VectorStore.assessments
                                         (Recommend.vector_store (Recommend.engine s))))))
    ∧ StronglySorted Z.le results.*2.
Proof.
  intros Hq Hnone Hc Hk Hd.
  set (self := Recommend.vector_store (Recommend.engine s)) in *.
  assert (∃ results,
            VectorStore.search self q top_k = Ok results
            ∧ Forall2 (λ p r, r.2 = p.1
                              ∧ VectorStore.assessments self !! Z.to_nat p.2 = Some r.1)
                (nearest (VectorStore.index self) q
                   (Z.min top_k (Z.of_nat (length (VectorStore.assessments self)))))
                results) as (results & Hs & Hfound).
  { destruct (decide (Faiss.ntotal (VectorStore.index self) = 0%nat)) as [H0|Hn].
    - exists []. assert (VectorStore.search self q top_k = Ok []) as Hs
        by (unfold VectorStore.search; by rewrite decide_True).
      split; [done|]. by apply search_found.
    - by apply search_nearest. }
  exists results. split; [done|].
  assert (length results
          = Z.to_nat (Z.min top_k (Z.of_nat (length (VectorStore.assessments self)))))
    as Hlen.
  { rewrite <- (Forall2_length _ _ _ Hfound), nearest_length.
    unfold VectorStore.consistent in Hc. lia. }
  split; [|split; [done|]].
  - unfold Recommend.recommend. unfold_state. rewrite Hq.
    unfold Recommend.embed_query in Hq. rewrite with_fallback_protocol in Hq.
    destruct (fallback_protocol_frame w (λ g, Embeddings.generator_embed w g query) s)
      as (g & tr' & Hframe).
    rewrite Hq in Hframe. simpl in Hframe. subst s1. simpl.
    unfold Recommend.search_k, Recommend.maybe_rerank. simpl. rewrite Hnone.
    fold self. rewrite Hs. unfold_eff. simpl.
    rewrite slice_to_all; [done|]. rewrite length_fmap. lia.
  - rewrite (found_distances _ _ _ Hfound).
    eapply StronglySorted_fmap; [|apply nearest_sorted].
    intros [a1 a2] [b1 b2]. unfold Faiss.nearer. simpl. lia.
Qed.

Lemma recommend_nearest_example :
  ∃ results,
    VectorStore.search Examples.store [1; 0] 2 = Ok results
    ∧ Recommend.recommend (Examples.steady "") "python developer" 2 Examples.state0
      = (Ok (Recommend.format <$> results.*1),
         with_requests Examples.state0 [OpenAIEmbeddings ["python developer"]])
    ∧ length results = 2%nat
    ∧ StronglySorted Z.le results.*2.
Proof.
  apply (recommend_nearest_without_reranker (Examples.steady "") "python developer" 2
           Examples.state0
           (with_requests Examples.state0 [OpenAIEmbeddings ["python developer"]]) [1; 0]);
    [reflexivity|reflexivity|reflexivity|lia|reflexivity].
Defined.

(** ** The requests and the generator of recommend *)

Lemma rerank_requests (w : world) (provider : Reranker.backend) (query : string)
    (assessments : list Assessment) (top_k : Z) (tr : trace) :
  (Reranker.rerank w provider query assessments top_k tr).2 = tr
  ∨ ∃ prompt, (Reranker.rerank w provider query assessments top_k tr).2
              = tr ++ [llm_request provider prompt].
Proof.
  destruct (decide (assessments = [])) as [->|Hne]; [by left|].
  destruct (Reranker.build_prompt query assessments) as [prompt|e0] eqn:Hp.
  - right. exists prompt. by rewrite (rerank_prompt_built _ _ _ _ _ _ prompt Hne Hp).
  - left. unfold Reranker.rerank. destruct assessments; [done|]. rewrite Hp. by unfold_eff.
Qed.

Lemma llm_request_is_llm (provider : Reranker.backend) (prompt : string) :
  is_llm (llm_request provider prompt) = true.
Proof. by destruct provider. Qed.

(** The state [recommend] leaves, whatever it returns: that of the query
    embedding, with the requests of the reranker added. *)
Lemma recommend_state (w : world) (query : string) (top_k : Z) (s : Recommend.state) :
  ∃ llm,
    (Recommend.recommend w query top_k s).2
    = with_requests (Recommend.embed_query w query s).2
        (Recommend.requests (Recommend.embed_query w query s).2 ++ llm)
    ∧ (length llm ≤ 1)%nat
    ∧ Forall (λ r, is_llm r = true) llm
    ∧ (Recommend.reranker (Recommend.engine s) = None → llm = []).
Proof.
  unfold Recommend.recommend. unfold_state.
  pose proof (fallback_protocol_frame w (λ g, Embeddings.generator_embed w g query) s)
    as (g & tr' & Hframe).
  unfold Recommend.embed_query in *. rewrite with_fallback_protocol.
  destruct (fallback_protocol _ _ _) as [[q|e] s1]; simpl in Hframe; subst s1;
    unfold with_requests; simpl.
  2:{ no_llm. }
  destruct (VectorStore.search _ _ _) as [results|e]; simpl.
  2:{ no_llm. }
  unfold Recommend.maybe_rerank. simpl.
  destruct (Recommend.reranker (Recommend.engine s)) as [provider|] eqn:Hrr.
  - case_decide.
    + destruct (rerank_requests w provider query results.*1 top_k tr') as [Htr|[prompt Htr]];
        destruct (Reranker.rerank _ _ _ _ _ _) as [[l|e] tr]; simpl in *; subst tr.
      * no_llm.
      * no_llm.
      * exists [llm_request provider prompt]. split; [done|]. split; [simpl; lia|].
        split; [|done]. repeat constructor. apply llm_request_is_llm.
      * exists [llm_request provider prompt]. split; [done|]. split; [simpl; lia|].
        split; [|done]. repeat constructor. apply llm_request_is_llm.
    + unfold_eff; simpl; no_llm.
  - unfold_eff; simpl; no_llm.
Qed.

Lemma embed_query_state (w : world) (query : string) (s : Recommend.state) :
  ∃ delta,
    Recommend.requests (Recommend.embed_query w query s).2 = Recommend.requests s ++ delta
    ∧ (length delta ≤ 2)%nat
    ∧ Forall (λ r, is_embedding r = true) delta
    ∧ (Recommend.embedding_generator (Recommend.engine (Recommend.embed_query w query s).2)
       = Recommend.embedding_generator (Recommend.engine s)
       ∨ Recommend.embedding_generator (Recommend.engine (Recommend.embed_query w query s).2)
         = next_generator w s).
Proof.
  unfold Recommend.embed_query. rewrite with_fallback_protocol. unfold fallback_protocol.
  destruct (generator_embed_requests w
              (Recommend.embedding_generator (Recommend.engine s)) query
              (Recommend.requests s)) as (d1 & Hd1 & Hl1 & He1).
  destruct (Embeddings.generator_embed w _ query (Recommend.requests s))
    as [[a|e] tr1]; simpl in *.
  - exists d1. repeat split; auto with lia.
  - destruct (quota_classified e); simpl.
    + destruct (generator_embed_requests w (next_generator w s) query tr1)
        as (d2 & Hd2 & Hl2 & He2).
      destruct (Embeddings.generator_embed w (next_generator w s) query tr1)
        as [r2 tr2]; simpl in *.
      exists (d1 ++ d2). rewrite Hd2, Hd1, app_assoc, length_app.
      split; [done|]. split; [lia|]. split; [by apply Forall_app|by right].
    + exists d1. repeat split; auto with lia.
Qed.

(** X19.  Whatever it returns, [recommend] makes at most two embedding
    requests followed by at most one request to a language model, and
    none to a language model when the engine has no reranker. *)
Theorem recommend_requests_bound (w : world) (query : string) (top_k : Z)
    (s : Recommend.state) :
  ∃ embedding llm,
    Recommend.requests (Recommend.recommend w query top_k s).2
    = Recommend.requests s ++ embedding ++ llm
    ∧ (length embedding ≤ 2)%nat ∧ Forall (λ r, is_embedding r = true) embedding
    ∧ (length llm ≤ 1)%nat ∧ Forall (λ r, is_llm r = true) llm
    ∧ (Recommend.reranker (Recommend.engine s) = None → llm = []).
Proof.
  destruct (recommend_state w query top_k s) as (llm & Hs & Hl & Hllm & Hnone).
  destruct (embed_query_state w query s) as (emb & He & Hle & Hemb & _).
  exists emb, llm. rewrite Hs. simpl. rewrite He, <- app_assoc. by repeat split.
Qed.

(** X20.  The generator of the engine only moves down the chain: after a
    [recommend], whatever it returned, the generator is the one before or
    the next of the chain, never one nearer to OpenAI. *)
Theorem recommend_generator_monotone (w : world) (query : string) (top_k : Z)
    (s : Recommend.state) :
  (Recommend.embedding_generator (Recommend.engine (Recommend.recommend w query top_k s).2)
   = Recommend.embedding_generator (Recommend.engine s)
   ∨ Recommend.embedding_generator (Recommend.engine (Recommend.recommend w query top_k s).2)
     = next_generator w s)
  ∧ (chain_rank (Recommend.embedding_generator (Recommend.engine s))
     ≤ chain_rank
         (Recommend.embedding_generator
            (Recommend.engine (Recommend.recommend w query top_k s).2)))%nat.
Proof.
  destruct (recommend_state w query top_k s) as (llm & Hs & _).
  destruct (embed_query_state w query s) as (emb & _ & _ & _ & Hg).
  rewrite Hs. simpl.
  split; [done|]. destruct Hg as [-> | ->]; [done|].
  unfold next_generator.
  destruct (fallback_chain w (Recommend.embedding_generator (Recommend.engine s)))
    as [[-> ->] | ->]; simpl; [lia|].
  destruct (Recommend.embedding_generator (Recommend.engine s)) as [[|]|]; simpl; lia.
Qed.

(** ** The choice of the providers at construction *)

Lemma attempt_ok (failure : option exn) :
  Construct.attempt failure = Ok tt ↔ failure = None.
Proof. destruct failure; simpl; split; congruence. Qed.

Lemma try_provider_openai (i : Construct.installation) :
  (openai_usable i
   ∧ Construct.try_provider i "OPENAI_API_KEY" "openai"
     = Some (Embeddings.EmbeddingGenerator Embeddings.OpenAI))
  ∨ (¬ openai_usable i ∧ Construct.try_provider i "OPENAI_API_KEY" "openai" = None).
Proof.
  unfold openai_usable, Construct.try_provider, Construct.new_EmbeddingGenerator.
  simpl.
  destruct (Construct.truthy (Construct.getenv i "OPENAI_API_KEY")) eqn:Hk; simpl.
  - destruct (Construct.import_openai i), (Construct.new_openai_client i); simpl;
      try (right; split; [by intros (_ & ? & ?)|done]).
    left. by repeat split.
  - right. split; [by intros [? _]|done].
Qed.

Lemma try_provider_gemini (i : Construct.installation) :
  (gemini_usable i
   ∧ Construct.try_provider i "GEMINI_API_KEY" "gemini"
     = Some (Embeddings.EmbeddingGenerator Embeddings.Gemini))
  ∨ (¬ gemini_usable i ∧ Construct.try_provider i "GEMINI_API_KEY" "gemini" = None).
Proof.
  unfold gemini_usable, Construct.try_provider, Construct.new_EmbeddingGenerator.
  simpl.
  destruct (Construct.truthy (Construct.getenv i "GEMINI_API_KEY")) eqn:Hk; simpl.
  - destruct (Construct.import_genai i), (Construct.configure_genai i); simpl;
      try (right; split; [by intros (_ & ? & ?)|done]).
    left. by repeat split.
  - right. split; [by intros [? _]|done].
Qed.

Lemma try_reranker_gemini (i : Construct.installation) :
  (gemini_usable i ∧ Construct.new_generative_model i = None
   ∧ Construct.try_reranker i "GEMINI_API_KEY" "gemini" = Some Reranker.GeminiLLM)
  ∨ (¬ (gemini_usable i ∧ Construct.new_generative_model i = None)
     ∧ Construct.try_reranker i "GEMINI_API_KEY" "gemini" = None).
Proof.
  unfold gemini_usable, Construct.try_reranker, Construct.new_LLMReranker.
  simpl.
  destruct (Construct.truthy (Construct.getenv i "GEMINI_API_KEY")) eqn:Hk; simpl.
  - destruct (Construct.import_genai i), (Construct.configure_genai i),
      (Construct.new_generative_model i); simpl;
      try (right; split; [by intros [(_ & ? & ?) ?]|done]).
    left. by repeat split.
  - right. split; [by intros [[? _] _]|done].
Qed.

Lemma try_reranker_openai (i : Construct.installation) :
  (openai_usable i
   ∧ Construct.try_reranker i "OPENAI_API_KEY" "openai" = Some Reranker.OpenAILLM)
  ∨ (¬ openai_usable i ∧ Construct.try_reranker i "OPENAI_API_KEY" "openai" = None).
Proof.
  unfold openai_usable, Construct.try_reranker, Construct.new_LLMReranker.
  simpl.
  destruct (Construct.truthy (Construct.getenv i "OPENAI_API_KEY")) eqn:Hk; simpl.
  - destruct (Construct.import_openai i), (Construct.new_openai_client i); simpl;
      try (right; split; [by intros (_ & ? & ?)|done]).
    left. by repeat split.
  - right. split; [by intros [? _]|done].
Qed.

(** X21.  The two choices made at construction prefer different
    providers.  The embeddings go to OpenAI exactly when OpenAI is
    usable, to Gemini exactly when OpenAI is not and Gemini is, and to
    the local model otherwise; the reranker is Gemini exactly when
    reranking is enabled and Gemini and its model are usable, and OpenAI
    exactly when reranking is enabled, Gemini is not chosen and OpenAI is
    usable. *)
Theorem provider_selection (i : Construct.installation) (enable_reranking : bool) :
  (Construct.get_embedding_generator i = Embeddings.EmbeddingGenerator Embeddings.OpenAI
   ↔ openai_usable i)
  ∧ (Construct.get_embedding_generator i = Embeddings.EmbeddingGenerator Embeddings.Gemini
     ↔ ¬ openai_usable i ∧ gemini_usable i)
  ∧ (Construct.get_embedding_generator i = Construct.new_FallbackEmbeddingGenerator i
     ↔ ¬ openai_usable i ∧ ¬ gemini_usable i)
  ∧ (Construct.get_reranker i enable_reranking = Some Reranker.GeminiLLM
     ↔ enable_reranking = true ∧ gemini_usable i ∧ Construct.new_generative_model i = None)
  ∧ (Construct.get_reranker i enable_reranking = Some Reranker.OpenAILLM
     ↔ enable_reranking = true
       ∧ ¬ (gemini_usable i ∧ Construct.new_generative_model i = None)
       ∧ openai_usable i).
Proof.
  assert (∀ a, Construct.new_FallbackEmbeddingGenerator i
               ≠ Embeddings.EmbeddingGenerator a) as Hfb.
  { intros a. unfold Construct.new_FallbackEmbeddingGenerator.
    by destruct (Construct.attempt _). }
  unfold Construct.get_embedding_generator, Construct.get_reranker.
  destruct (try_provider_openai i) as [[Ho E1]|[Ho E1]],
    (try_provider_gemini i) as [[Hg E2]|[Hg E2]],
    (try_reranker_gemini i) as [(Hg' & Hm & E3)|[Hm E3]],
    (try_reranker_openai i) as [[Ho' E4]|[Ho' E4]];
    try done; rewrite E1, ?E2, E3, ?E4; destruct enable_reranking; simpl;
    split_and!; (split; [intros H|intros H]); try done; try tauto; try congruence;
    try (exfalso; by eapply Hfb);
    try (exfalso; symmetry in H; by eapply Hfb);
    by destruct H.
Qed.

(** ** An engine without hosted providers *)

Lemma generator_embed_local (w : world) (available : bool) (text : string) (tr : trace) :
  ∃ reqs,
    (Embeddings.generator_embed w (Embeddings.FallbackEmbeddingGenerator available) text tr).2
    = tr ++ reqs
    ∧ Forall (λ r, is_local r = true) reqs.
Proof.
  destruct available; simpl.
  - exists [LocalEncode text]. split; [done|]. by repeat constructor.
  - exists []. by rewrite app_nil_r.
Qed.

Lemma generator_embed_batch_local (w : world) (available : bool) (texts : list string)
    (batch_size : Z) (tr : trace) :
  ∃ reqs,
    (Embeddings.generator_embed_batch w (Embeddings.FallbackEmbeddingGenerator available)
       texts batch_size tr).2
    = tr ++ reqs
    ∧ Forall (λ r, is_local r = true) reqs.
Proof.
  destruct available; simpl.
  - exists [LocalEncodeBatch texts batch_size]. split; [done|]. by repeat constructor.
  - exists []. by rewrite app_nil_r.
Qed.

(** From the local generator the protocol stays with the local model. *)
Lemma fallback_protocol_local {A} (w : world) (op : Embeddings.generator → M trace A)
    (s : Recommend.state) :
  (∀ available tr,
     ∃ reqs, (op (Embeddings.FallbackEmbeddingGenerator available) tr).2 = tr ++ reqs
             ∧ Forall (λ r, is_local r = true) reqs) →
  local_engine s →
  local_engine (fallback_protocol w op s).2
  ∧ local_since (Recommend.requests s) (fallback_protocol w op s).2
  ∧ Recommend.fs (fallback_protocol w op s).2 = Recommend.fs s
  ∧ Recommend.vector_store (Recommend.engine (fallback_protocol w op s).2)
    = Recommend.vector_store (Recommend.engine s).
Proof.
  intros Hop [Hrr [available Hg]].
  unfold fallback_protocol, next_generator, local_engine, local_since. rewrite Hg.
  destruct (Hop available (Recommend.requests s)) as (d1 & Hd1 & Hl1).
  destruct (op _ (Recommend.requests s)) as [[a|e] tr1]; simpl in Hd1; subst tr1; simpl.
  - split_and!; eauto.
  - destruct (quota_classified e); simpl.
    + destruct (Hop (sentence_transformers_ok w) (Recommend.requests s ++ d1))
        as (d2 & Hd2 & Hl2).
      destruct (op _ (Recommend.requests s ++ d1)) as [r2 tr2]; simpl in Hd2; subst tr2.
      simpl. split_and!; [done|unfold next_generator; rewrite Hg; by eexists| |done|done].
      exists (d1 ++ d2). rewrite app_assoc. split; [done|]. by apply Forall_app.
    + split_and!; eauto.
Qed.

(** X22.  An engine without reranker and on the local model stays so
    through [recommend], whatever it returns, and every request it makes
    is one to the local model: nothing is sent to a hosted provider. *)
Theorem local_engine_stays_local (w : world) (query : string) (top_k : Z)
    (s : Recommend.state) :
  local_engine s →
  local_engine (Recommend.recommend w query top_k s).2
  ∧ local_since (Recommend.requests s) (Recommend.recommend w query top_k s).2.
Proof.
  intros Hlocal.
  destruct (recommend_state w query top_k s) as (llm & Hs & _ & _ & Hnone).
  rewrite (Hnone (proj1 Hlocal)), app_nil_r in Hs. rewrite Hs.
  unfold Recommend.embed_query. rewrite with_fallback_protocol.
  destruct (fallback_protocol_local w (λ g, Embeddings.generator_embed w g query) s)
    as (Hl & Hr & _); [|done|].
  { intros available tr. apply generator_embed_local. }
  split; [exact Hl|exact Hr].
Qed.

Lemma local_engine_example :
  local_engine (Recommend.recommend (Examples.steady "") "python developer" 2 Examples.local0).2
  ∧ local_since []
      (Recommend.recommend (Examples.steady "") "python developer" 2 Examples.local0).2.
Proof.
  apply (local_engine_stays_local (Examples.steady "") "python developer" 2 Examples.local0).
  split; [reflexivity|]. by exists true.
Defined.

Lemma try_load_frame (s : Recommend.state) :
  ∃ loaded vs, Recommend.try_load s = (Ok loaded, with_store s vs).
Proof.
  unfold Recommend.try_load. unfold_state. simpl.
  destruct (VectorStore.exists_ _ _ && VectorStore.exists_ _ _); [|by eexists _, _].
  destruct (VectorStore.load _ _ _ _) as [[[]|e] vs]; simpl; by eexists _, _.
Qed.

(** Startup of an engine on the local model makes local requests only. *)
Lemma load_or_build_local (w : world) (s : Recommend.state) :
  local_engine s →
  local_engine (Recommend._load_or_build_index w s).2
  ∧ local_since (Recommend.requests s) (Recommend._load_or_build_index w s).2.
Proof.
  intros Hlocal.
  assert (local_since (Recommend.requests s) s) as Hnone.
  { exists []. by rewrite app_nil_r. }
  destruct (try_load_frame s) as (loaded & vs0 & Hload).
  destruct loaded.
  { unfold Recommend._load_or_build_index. unfold_eff. rewrite Hload. simpl.
    split; [exact Hlocal|exact Hnone]. }
  rewrite (build_run w s _ Hload). cbv zeta.
  assert (local_engine (with_store s vs0)) as Hlocal0 by exact Hlocal.
  destruct (Recommend.fs (with_store s vs0) !! _) as [[idx|doc|]|]; try done.
  destruct (bool_decide (doc = [])); [done|].
  destruct (mapM _ doc tt).1 as [texts|e]; [|done].
  unfold Recommend.embed_catalog. rewrite with_fallback_protocol.
  destruct (fallback_protocol_local w
              (λ g, Embeddings.generator_embed_batch w g texts Recommend.default_batch_size)
              (with_store s vs0)) as (Hl & Hr & _); [|done|].
  { intros available tr. apply generator_embed_batch_local. }
  destruct (fallback_protocol _ _ _) as [[embeddings|e] s1]; simpl in Hl, Hr; [|done].
  destruct (Py.index embeddings 0) as [first|e]; [|done].
  destruct (VectorStore.add_assessments _ _ _) as [[[]|e] vs]; done.
Qed.

(** X23.  With neither key set to a non-empty value the constructed
    engine has no reranker and embeds with the local model, whether its
    startup returns or raises, and the startup has made local requests
    only. *)
Theorem keyless_engine_local (i : Construct.installation) (w : world) (data_dir : string)
    (catalog_path index_path metadata_path : option string) (enable_reranking : bool)
    (files0 : VectorStore.files) (tr : trace) :
  Construct.truthy (Construct.getenv i "OPENAI_API_KEY") = false →
  Construct.truthy (Construct.getenv i "GEMINI_API_KEY") = false →
  local_engine
    (Construct.new_RecommendationEngine i w data_dir catalog_path index_path metadata_path
       enable_reranking files0 tr).2
  ∧ local_since tr
      (Construct.new_RecommendationEngine i w data_dir catalog_path index_path metadata_path
         enable_reranking files0 tr).2.
Proof.
  intros Ho Hg. unfold Construct.new_RecommendationEngine.
  apply (load_or_build_local w
           {| Recommend.engine := _; Recommend.fs := files0; Recommend.requests := tr |}).
  unfold local_engine. simpl.
  unfold Construct.get_reranker, Construct.try_reranker,
    Construct.get_embedding_generator, Construct.try_provider.
  rewrite Ho, Hg. split.
  - by destruct enable_reranking.
  - unfold Construct.new_FallbackEmbeddingGenerator.
    destruct (Construct.attempt _); by eexists.
Qed.

Lemma keyless_engine_example :
  local_engine
    (Construct.new_RecommendationEngine (Examples.installed ∅) (Examples.steady "") "data"
       None None None true {["data/catalog.json" := VectorStore.JsonFile Examples.catalog]}
       []).2
  ∧ local_since []
      (Construct.new_RecommendationEngine (Examples.installed ∅) (Examples.steady "") "data"
         None None None true {["data/catalog.json" := VectorStore.JsonFile Examples.catalog]}
         []).2.
Proof.
  apply (keyless_engine_local (Examples.installed ∅) (Examples.steady "") "data"
           None None None true
           {["data/catalog.json" := VectorStore.JsonFile Examples.catalog]} []);
    reflexivity.
Defined.

(** ** scripts/evaluate.py: the rows of an evaluation *)

Lemma value_eq_refl (v : value) : Evaluate.value_eq v v = true.
Proof. destruct v as [s|n|[|]|]; simpl; by rewrite ?bool_decide_eq_true_2. Qed.

Lemma dict_eq_refl (a : Assessment) : Evaluate.dict_eq a a = true.
Proof.
  apply bool_decide_eq_true_2. intros k.
  destruct (a !! k); simpl; [apply value_eq_refl|done].
Qed.

(** [index] finds the first equal element, which is not after the
    element itself. *)
Lemma list_index_first (recs : list Assessment) (j : nat) (rec : Assessment) :
  recs !! j = Some rec →
  ∃ i first,
    Evaluate.list_index recs rec = Ok i
    ∧ (i ≤ j)%nat
    ∧ recs !! i = Some first ∧ Evaluate.dict_eq first rec = true
    ∧ ∀ i' x, (i' < i)%nat → recs !! i' = Some x → Evaluate.dict_eq x rec = false.
Proof.
  revert j. induction recs as [|y recs IH]; intros j Hj; [done|]. simpl.
  destruct (Evaluate.dict_eq y rec) eqn:Hy.
  - exists 0%nat, y. split_and!; [done|lia|done|done|]. intros; lia.
  - destruct j as [|j]; simpl in Hj.
    + injection Hj as ->. by rewrite dict_eq_refl in Hy.
    + destruct (IH j Hj) as (i & first & -> & Hle & Hi & Heq & Hmin).
      exists (S i), first. split_and!; [done|lia|done|done|].
      intros [|i'] x Hlt Hx; simpl in Hx; [by injection Hx as <-|].
      apply (Hmin i'); [lia|done].
Qed.

Lemma result_rows (q : string) (recs l : list Assessment) (off n : nat) :
  drop off recs = l →
  ∃ body,
    mapM (λ rec, lift (Evaluate.result_row q recs rec)) l n = (Ok body, n)
    ∧ length body = length l
    ∧ ∀ j rec, l !! j = Some rec → ∃ r, body !! j = Some r ∧ row_of q recs (off + j) rec r.
Proof.
  revert off. induction l as [|rec l IH]; intros off Hl.
  { exists []. by split_and!. }
  assert (recs !! off = Some rec) as Hoff.
  { rewrite <- (Nat.add_0_r off), <- lookup_drop, Hl. done. }
  destruct (list_index_first recs off rec Hoff) as (i & first & Hidx & Hle & Hi & Heq & Hmin).
  destruct (IH (S off)) as (body & Hrun & Hlen & Hrows).
  { pose proof (drop_S recs rec off Hoff) as Hd. rewrite Hl in Hd. by injection Hd. }
  simpl. unfold_eff. unfold Evaluate.result_row at 1. rewrite Hidx, Hrun.
  eexists (_ :: body). split; [reflexivity|]. split; [by simpl; rewrite Hlen|].
  intros [|j] rec' Hj; simpl in Hj.
  - injection Hj as <-. eexists. split; [reflexivity|]. rewrite Nat.add_0_r.
    split_and!; try done. exists i, first. by split_and!.
  - destruct (Hrows j rec' Hj) as (r & Hr & Hrow). exists r. split; [done|].
    by replace (off + S j)%nat with (S off + j)%nat by lia.
Qed.

Lemma evaluate_query_block (api : nat → string → Z → list Assessment) (top_k : Z)
    (results : list Evaluate.row) (q : string) (n : nat) :
  ∃ block,
    Evaluate.evaluate_query api top_k results q n = (Ok (results ++ block), S n)
    ∧ block_of (q, api n q top_k) block.
Proof.
  unfold Evaluate.evaluate_query, Evaluate.get_recommendations. unfold_eff.
  destruct (result_rows q (api n q top_k) (api n q top_k) 0 (S n)) as (body & Hrun & Hlen & Hrows);
    [done|].
  unfold Eff.lift in Hrun. rewrite Hrun. eexists. split; [reflexivity|].
  exists body. by split_and!.
Qed.

Lemma evaluate_from (api : nat → string → Z → list Assessment) (top_k : Z)
    (queries : list string) (results : list Evaluate.row) (n : nat) :
  ∃ blocks,
    foldM (Evaluate.evaluate_query api top_k) results queries n
    = (Ok (results ++ concat blocks), (n + length queries)%nat)
    ∧ Forall2 block_of (answers api n queries top_k) blocks.
Proof.
  revert results n. induction queries as [|q queries IH]; intros results n.
  { exists []. simpl. rewrite app_nil_r, Nat.add_0_r. by split; [|constructor]. }
  destruct (evaluate_query_block api top_k results q n) as (block & Hrun & Hblock).
  destruct (IH (results ++ block) (S n)) as (blocks & Hrest & Hblocks).
  exists (block :: blocks). simpl. unfold_eff. rewrite Hrun, Hrest.
  split; [|by constructor].
  by rewrite <- app_assoc, Nat.add_succ_r.
Qed.


Lemma filter_block (a : string * list Assessment) (block : list Evaluate.row) :
  block_of a block →
  length (filter (λ r, Evaluate.query r ≠ "") block)
  = (if bool_decide (a.1 = "") then 0%nat else length a.2)
  ∧ Forall (λ r, ∃ i, Evaluate.rank r = VNum i ∧ 1 ≤ i)
      (filter (λ r, Evaluate.query r ≠ "") block).
Proof.
  intros (body & -> & Hlen & Hrows).
  assert (Forall (λ r, Evaluate.query r = a.1 ∧ ∃ i, Evaluate.rank r = VNum i ∧ 1 ≤ i) body)
    as Hbody.
  { apply Forall_lookup. intros j r Hr.
    destruct (lookup_lt_is_Some_2 a.2 j) as [rec Hrec].
    { rewrite <- Hlen. by eapply lookup_lt_Some. }
    destruct (Hrows j rec Hrec) as (r' & Hr' & Hq & _ & _ & _ & i & first & Hrank & _).
    rewrite Hr in Hr'. injection Hr' as <-. split; [done|].
    exists (Z.of_nat i + 1). split; [done|lia]. }
  assert (filter (λ r, Evaluate.query r ≠ "")
            (if bool_decide (a.2 = []) then [] else [Evaluate.separator]) = []) as Hsep.
  { by destruct (bool_decide (a.2 = [])). }
  rewrite filter_app, Hsep, app_nil_r. clear Hsep Hrows.
  rewrite <- Hlen. clear Hlen.
  induction Hbody as [|r body [Hq Hrank] Hbody IH]; [by destruct (bool_decide _)|].
  rewrite filter_cons. destruct IH as [IHlen IH].
  case_bool_decide as Hempty.
  - rewrite decide_False by (rewrite Hq, Hempty; by intros ?). done.
  - rewrite decide_True by (by rewrite Hq). simpl. rewrite IHlen.
    split; [done|]. by constructor.
Qed.

Lemma filter_blocks (ans : list (string * list Assessment))
    (blocks : list (list Evaluate.row)) :
  Forall2 block_of ans blocks →
  length (filter (λ r, Evaluate.query r ≠ "") (concat blocks)) = answered_rows ans
  ∧ Forall (λ r, ∃ i, Evaluate.rank r = VNum i ∧ 1 ≤ i)
      (filter (λ r, Evaluate.query r ≠ "") (concat blocks)).
Proof.
  unfold answered_rows.
  induction 1 as [|a block ans blocks Hblock _ [IHlen IH]]; simpl; [by split|].
  destruct (filter_block a block Hblock) as [Hlen Hranked].
  rewrite filter_app, length_app, Hlen, IHlen. split; [done|]. by apply Forall_app.
Qed.

(** X25.  After an evaluation, [save_to_csv] writes no file exactly
    when every answer was empty; otherwise it writes as many rows as
    there are recommendations in the answers to non-empty queries, each
    with a rank from one on: the separators are left out, and so is
    every row of a query that is the empty string. *)
Theorem saved_rows (api : nat → string → Z → list Assessment) (queries : list string)
    (top_k : Z) (n : nat) :
  ∃ results,
    (Evaluate.evaluate_queries api queries top_k n).1 = Ok results
    ∧ (Evaluate.save_to_csv results = None
       ↔ Forall (λ a, a.2 = []) (answers api n queries top_k))
    ∧ ∀ written,
        Evaluate.save_to_csv results = Some written →
        length written = answered_rows (answers api n queries top_k)
        ∧ Forall (λ r, ∃ i, Evaluate.rank r = VNum i ∧ 1 ≤ i) written.
Proof.
  destruct (evaluate_from api top_k queries [] n) as (blocks & Hrun & Hblocks).
  unfold Evaluate.evaluate_queries. rewrite Hrun. simpl.
  exists (concat blocks). split; [done|].
  unfold Evaluate.save_to_csv. split.
  - clear Hrun. case_bool_decide as Hempty; split; try done.
    + intros _.
      induction Hblocks as [|a block ans blocks' (body & -> & Hlen & _) _ IH];
        [constructor|].
      simpl in Hempty. apply app_eq_nil in Hempty as [Hblock Hrest].
      apply app_eq_nil in Hblock as [-> _]. constructor; [|by apply IH].
      by apply nil_length_inv.
    + intros Hall. exfalso. apply Hempty. clear Hempty.
      induction Hblocks as [|a block ans blocks' (body & -> & Hlen & _) _ IH]; [done|].
      apply Forall_cons in Hall as [Ha Hall]. simpl. rewrite (IH Hall), app_nil_r.
      rewrite Ha in Hlen. apply nil_length_inv in Hlen as ->.
      by rewrite bool_decide_eq_true_2.
  - intros written. case_bool_decide; [done|]. intros [= <-]. by apply filter_blocks.
Qed.

(** ** scripts/crawl_catalog.py: the scraped catalog *)

Lemma add_new_named (l acc : list Crawl.scraped) :
  Forall named acc → Forall named (foldl Crawl.add_new acc l).
Proof.
  revert acc. induction l as [|a l IH]; intros acc Hacc; [done|].
  simpl. apply IH. unfold Crawl.add_new.
  case_bool_decide as Hname; simpl; [done|].
  case_bool_decide; simpl; [done|].
  apply Forall_app. split; [done|]. by repeat constructor.
Qed.

Lemma scrape_catalog_page_named (p : Crawl.page) :
  Forall named (Crawl.scrape_catalog_page p).
Proof. destruct p as [items|]; [|constructor]. by apply add_new_named. Qed.

Lemma scraped_pages_named (s : Crawl.site) : Forall named (Crawl.scraped_pages s).
Proof.
  unfold Crawl.scraped_pages.
  generalize (Py.slice_to (Crawl.pagination s) 5).
  generalize (scrape_catalog_page_named (Crawl.catalog_page s)).
  generalize (Crawl.scrape_catalog_page (Crawl.catalog_page s)).
  intros acc Hacc l. revert acc Hacc.
  induction l as [|p l IH]; intros acc Hacc; [done|].
  simpl. apply IH, Forall_app. split; [done|apply scrape_catalog_page_named].
Qed.

Lemma samples_named : Forall named Crawl.get_sample_assessments.
Proof. unfold Crawl.get_sample_assessments. by repeat constructor. Qed.

Lemma with_samples_named (l : list Crawl.scraped) :
  Forall named l → Forall named (Crawl.with_samples l) ∧ (5 ≤ length (Crawl.with_samples l))%nat.
Proof.
  intros Hl. unfold Crawl.with_samples. case_decide as Hlen.
  - split; [apply Forall_app; split; [done|apply samples_named]|].
    rewrite length_app. simpl. lia.
  - split; [done|lia].
Qed.

Lemma add_unique_inv (l : list Crawl.scraped) (acc : gset string * list Crawl.scraped) :
  dedup_inv acc →
  dedup_inv (foldl Crawl.add_unique acc l)
  ∧ (∃ extra, (foldl Crawl.add_unique acc l).2 = acc.2 ++ extra ∧ sublist extra l)
  ∧ (∀ a, a ∈ l → named a → Crawl.name a ∈ (foldl Crawl.add_unique acc l).1)
  ∧ (∀ x, x ∈ acc.1 → x ∈ (foldl Crawl.add_unique acc l).1).
Proof.
  revert acc. induction l as [|a l IH]; intros [seen uniq] Hinv.
  { simpl. split_and!; [done| |by intros a Ha%elem_of_nil|done].
    exists []. by rewrite app_nil_r. }
  simpl. destruct Hinv as (Hseen & Hnd & Hnamed). simpl in *.
  case_bool_decide as Hname; simpl.
  { destruct (IH (seen, uniq)) as (Hinv' & (extra & Hextra & Hsub) & Hcov & Hmono);
      [done|].
    split_and!; [done| | |done].
    - exists extra. split; [done|]. by apply sublist_cons.
    - intros b [->|Hb]%elem_of_cons Hb'; [done|]. by apply Hcov. }
  case_bool_decide as Hin; simpl.
  { destruct (IH (seen, uniq)) as (Hinv' & (extra & Hextra & Hsub) & Hcov & Hmono);
      [done|].
    split_and!; [done| | |done].
    - exists extra. split; [done|]. by apply sublist_cons.
    - intros b [->|Hb]%elem_of_cons Hb'; [by apply Hmono|]. by apply Hcov. }
  destruct (IH ({[Crawl.name a]} ∪ seen, uniq ++ [a]))
    as (Hinv' & (extra & Hextra & Hsub) & Hcov & Hmono).
  { split_and!; simpl.
    - intros x. rewrite fmap_app, elem_of_app, elem_of_union, elem_of_singleton, Hseen.
      simpl. rewrite list_elem_of_singleton. tauto.
    - rewrite fmap_app. simpl. apply NoDup_app. split_and!; [done| |apply NoDup_singleton].
      intros x Hx ->%list_elem_of_singleton. apply Hin. by apply Hseen.
    - apply Forall_app. split; [done|]. by repeat constructor. }
  simpl in *. split_and!; [done| | |].
  - exists (a :: extra). rewrite Hextra, <- app_assoc. split; [done|]. by apply sublist_skip.
  - intros b [->|Hb]%elem_of_cons Hb'; [|by apply Hcov].
    apply Hmono. set_solver.
  - intros x Hx. apply Hmono. set_solver.
Qed.

Lemma scrape_all_facts (s : Crawl.site) :
  Crawl.scrape_all s ≠ []
  ∧ Forall named (Crawl.scrape_all s)
  ∧ NoDup (Crawl.name <$> Crawl.scrape_all s)
  ∧ sublist (Crawl.scrape_all s) (Crawl.with_samples (Crawl.scraped_pages s))
  ∧ ∀ a, a ∈ Crawl.with_samples (Crawl.scraped_pages s) → named a →
         ∃ b, b ∈ Crawl.scrape_all s ∧ Crawl.name b = Crawl.name a.
Proof.
  unfold Crawl.scrape_all.
  destruct (add_unique_inv (Crawl.with_samples (Crawl.scraped_pages s)) (∅, []))
    as ((Hseen & Hnd & Hnamed) & (extra & Hextra & Hsub) & Hcov & _).
  { split_and!; simpl; [set_solver|constructor|constructor]. }
  destruct (with_samples_named _ (scraped_pages_named s)) as [Hall Hlen].
  assert (∀ a, a ∈ Crawl.with_samples (Crawl.scraped_pages s) → named a →
               ∃ b, b ∈ (foldl Crawl.add_unique (∅, [])
                           (Crawl.with_samples (Crawl.scraped_pages s))).2
                    ∧ Crawl.name b = Crawl.name a) as Hfound.
  { intros a Ha Hnamed_a. apply Hcov, Hseen, list_elem_of_fmap in Ha as (b & Hb & Hin); [|done].
    by exists b. }
  split_and!; [|done|done|by rewrite Hextra|done].
  destruct (Crawl.with_samples (Crawl.scraped_pages s)) as [|a l] eqn:Hraw;
    [simpl in Hlen; lia|].
  destruct (Hfound a) as (b & Hb & _); [by left|by inversion Hall|].
  intros Hnil. rewrite Hnil in Hb. by apply elem_of_nil in Hb.
Qed.


(** X26.  The catalog [scrape_all] returns is never empty; its entries
    have non-empty, pairwise different names; it is a sublist of what
    the pages gave (with the sample data added when they gave fewer than
    five entries), and it holds an entry for every non-empty name found
    there. *)
Theorem scrape_all_unique_named (s : Crawl.site) :
  Crawl.scrape_all s ≠ []
  ∧ Forall named (Crawl.scrape_all s)
  ∧ NoDup (Crawl.name <$> Crawl.scrape_all s)
  ∧ sublist (Crawl.scrape_all s) (Crawl.with_samples (Crawl.scraped_pages s))
  ∧ ∀ a, a ∈ Crawl.with_samples (Crawl.scraped_pages s) → named a →
         ∃ b, b ∈ Crawl.scrape_all s ∧ Crawl.name b = Crawl.name a.
Proof. apply scrape_all_facts. Qed.

(** ** From the scraped catalog to the store *)






(** ** Further statements at concrete inputs *)

Lemma recommend_requests_example :
  ∃ embedding llm,
    Recommend.requests
      (Recommend.recommend (Examples.steady "") "python developer" 2 Examples.state0).2
    = embedding ++ llm
    ∧ (length embedding ≤ 2)%nat ∧ llm = [].
Proof.
  destruct (recommend_requests_bound (Examples.steady "") "python developer" 2 Examples.state0)
    as (embedding & llm & Hreq & Hlen & _ & _ & _ & Hnone).
  exists embedding, llm. split; [exact Hreq|]. split; [exact Hlen|].
  apply Hnone. reflexivity.
Defined.

Lemma scrape_all_example :
  Forall named (Crawl.scrape_all Examples.unreachable)
  ∧ ∃ b, b ∈ Crawl.scrape_all Examples.unreachable
         ∧ Crawl.name b = "Java Developer Skills Test".
Proof.
  destruct (scrape_all_unique_named Examples.unreachable) as (_ & Hnamed & _ & _ & Hcov).
  split; [exact Hnamed|].
  destruct (Hcov {| Crawl.name := "Java Developer Skills Test";
                    Crawl.description := "Assesses Java programming skills, including core concepts, frameworks, and best practices";
                    Crawl.url := "https://www.shl.com/solutions/products/product-catalog/java-developer-skills/";
                    Crawl.type := "Knowledge & Skills" |}) as (b & Hb & Hname).
  - vm_compute. left.
  - vm_compute. discriminate.
  - exists b. split; [exact Hb|exact Hname].
Defined.

(** Two equal recommendations share the rank of the first, and the
    third keeps its position. *)
Lemma evaluate_queries_example :
  (Evaluate.evaluate_queries
     (λ _ _ _, [ {["assessment_name" := VStr "Java Test"]};
                 {["assessment_name" := VStr "Java Test"]};
                 {["assessment_name" := VStr "Python Test"]} ])
     ["java developer"] 10 0%nat).1
  = Ok [ {| Evaluate.query := "java developer"; Evaluate.assessment_name := VStr "Java Test";
            Evaluate.assessment_url := VStr ""; Evaluate.test_type := VStr "";
            Evaluate.rank := VNum 1 |};
         {| Evaluate.query := "java developer"; Evaluate.assessment_name := VStr "Java Test";
            Evaluate.assessment_url := VStr ""; Evaluate.test_type := VStr "";
            Evaluate.rank := VNum 1 |};
         {| Evaluate.query := "java developer"; Evaluate.assessment_name := VStr "Python Test";
            Evaluate.assessment_url := VStr ""; Evaluate.test_type := VStr "";
            Evaluate.rank := VNum 3 |};
         Evaluate.separator ].
Proof. vm_compute. reflexivity. Qed.
